(** * geodistance: the MCP distance tool, its handler and its server

    A shallow embedding of [geodistanceserver/handler.go] and
    [geodistanceserver/server.go] together with the parts of the Go
    standard library ([fmt], [io], [encoding/json], [net/http],
    [unicode/utf8]) and of [mcp-go] that the handler calls.

    Go strings are byte strings: they are [string] here, a list of 8-bit
    [ascii].  Go's [int] is the 64-bit integer of the platforms the
    Dockerfile builds for and is [Z] with its range written out where the
    code can leave it.  A Go function returning [(T, error)] returns
    [result T]; a function that reads the environment or talks to the HTTP
    client is a state transformer over [World]. *)

From Stdlib Require Import ZArith NArith String Ascii List DecimalString DecimalPos DecimalZ.
From stdpp Require Import gmap strings.

Local Open Scope Z_scope.
Set Warnings "-register-all".

(* ===================================================================== *)
(** ** Go: errors, results, formatting verbs *)
(* ===================================================================== *)

Module Go.

(** Go's [error] values, as far as this program makes or forwards them.
    [errorString] is what [errors.New] and [fmt.Errorf] without [%w]
    build; [wrapError] is [fmt.Errorf("<prefix>%w", err)].  The other
    constructors are the errors the libraries raise; their text is the
    libraries' business and is a parameter of [Error] below. *)
Inductive error : Type :=
| errorString (s : string)
| wrapError (prefix : string) (err : error)
| SyntaxError                                       (* *json.SyntaxError *)
| UnmarshalTypeError (Value : string) (Type_ : string) (* *json.UnmarshalTypeError *)
| ArgumentNotFound (key : string)                   (* mcp: required argument %q not found *)
| ArgumentNotString (key : string)                  (* mcp: argument %q is not a string *)
| InvalidMethod (method : string)                   (* net/http: invalid method %q *)
| runtimeError (msg : string).
(** [runtimeError] is not an error a function returns: it is the
    run-time panic of an index out of range, carried in the error
    position so that its absence can be stated. *)

Inductive result (A : Type) : Type :=
| Ok (a : A)
| Err (e : error).
Arguments Ok {A} a.
Arguments Err {A} e.

Definition is_ok {A} (r : result A) : bool :=
  match r with Ok _ => true | Err _ => false end.

Section ErrorText.
(** The message of an error raised inside a library. *)
Variable library_text : error -> string.

(** [err.Error()]. *)
Fixpoint Error (e : error) : string :=
  match e with
  | errorString s => s
  | wrapError prefix err => prefix +:+ Error err
  | _ => library_text e
  end.
End ErrorText.

(** The verb [%d] of [fmt] on an [int]: decimal digits, a leading [-]
    for a negative number. *)
Definition fmt_d (n : Z) : string := NilZero.string_of_int (Z.to_int n).

(** Go's [int] on a 64-bit platform. *)
Definition minInt : Z := - 2 ^ 63.
Definition maxInt : Z := 2 ^ 63 - 1.
Definition in_int (n : Z) : bool := (minInt <=? n) && (n <=? maxInt).

(** [strconv.ParseInt(s, 10, 64)] on the literal of a JSON number: an
    optional [-] and digits give their value, if it is in range; [None]
    is the error for a literal with a fraction or an exponent and for a
    value out of range. *)
Definition ParseInt (s : string) : option Z :=
  match NilZero.int_of_string s with
  | Some d => let n := Z.of_int d in if in_int n then Some n else None
  | None => None
  end.

(** Bytes as numbers. *)
Definition byte := ascii.
Definition code (c : byte) : N := N_of_ascii c.
Definition chr (n : N) : byte := ascii_of_N n.

Definition between (lo hi c : N) : bool := ((lo <=? c) && (c <=? hi))%N.

(** [strings.Contains]-like: [sub] occurs in [s]. *)
Definition contains (s sub : string) : Prop :=
  exists before after, s = before +:+ sub +:+ after.

End Go.
Export Go.

Module slices.
(** A slice [[]T]: nil, or a view of a backing array.  [elems] are the
    [len] elements in view; [spare] are the slots of the backing array
    between [len] and [cap], which keep what was last stored in them. *)
Inductive slice (A : Type) : Type :=
| nil
| mk (elems spare : list A).
Arguments nil {A}.
Arguments mk {A} elems spare.

Definition elems {A} (s : slice A) : list A :=
  match s with
  | nil => []
  | mk es _ => es
  end.

Definition len {A} (s : slice A) : Z := Z.of_nat (length (elems s)).

(** [s[i]]; [None] is the panic "index out of range". *)
Definition index {A} (s : slice A) (i : Z) : option A :=
  if (0 <=? i) && (i <? len s) then elems s !! Z.to_nat i else None.

(** The composite literal [[]T{x, y, ...}]. *)
Definition lit {A} (l : list A) : slice A := mk l [].

End slices.

(* ===================================================================== *)
(** ** unicode/utf8 and unicode/utf16, as encoding/json uses them *)
(* ===================================================================== *)

Module utf8.
Local Open Scope N_scope.

Definition RuneError : N := 0xFFFD.

Definition cont (lo hi : N) (b : byte) : bool := between lo hi (code b).

(** [utf8.DecodeRune]: the length of the well-formed sequence at the head
    of [s], or [None] where Go answers [(RuneError, 1)]. *)
Definition DecodeRune (s : list byte) : option nat :=
  match s with
  | [] => None
  | b0 :: r =>
    let c := code b0 in
    let two lo hi :=
      match r with
      | b1 :: _ => if cont lo hi b1 then Some 2%nat else None
      | _ => None
      end in
    let three lo hi :=
      match r with
      | b1 :: b2 :: _ =>
        if cont lo hi b1 && cont 0x80 0xBF b2 then Some 3%nat else None
      | _ => None
      end in
    let four lo hi :=
      match r with
      | b1 :: b2 :: b3 :: _ =>
        if cont lo hi b1 && cont 0x80 0xBF b2 && cont 0x80 0xBF b3
        then Some 4%nat else None
      | _ => None
      end in
    if (c <? 0x80)%N then Some 1%nat
    else if between 0xC2 0xDF c then two 0x80 0xBF
    else if (c =? 0xE0)%N then three 0xA0 0xBF
    else if (c =? 0xED)%N then three 0x80 0x9F
    else if between 0xE1 0xEF c then three 0x80 0xBF
    else if (c =? 0xF0)%N then four 0x90 0xBF
    else if between 0xF1 0xF3 c then four 0x80 0xBF
    else if (c =? 0xF4)%N then four 0x80 0x8F
    else None
  end.

(** [utf8.EncodeRune]; a surrogate or a value past U+10FFFF is written
    as [RuneError]. *)
Definition EncodeRune (r : N) : list byte :=
  let tail k := chr (0x80 + (N.shiftr r (6 * k)) mod 0x40) in
  if (r <? 0x80)%N then [chr r]
  else if (r <? 0x800)%N then [chr (0xC0 + N.shiftr r 6); tail 0]%N
  else if between 0xD800 0xDFFF r || (0x10FFFF <? r)%N
  then [chr 0xEF; chr 0xBF; chr 0xBD]
  else if (r <? 0x10000)%N then [chr (0xE0 + N.shiftr r 12); tail 1; tail 0]%N
  else [chr (0xF0 + N.shiftr r 18); tail 2; tail 1; tail 0]%N.

(** [utf16.IsSurrogate] and [utf16.DecodeRune]. *)
Definition IsSurrogate (r : N) : bool := between 0xD800 0xDFFF r.

Definition DecodeSurrogates (r1 r2 : N) : N :=
  if between 0xD800 0xDBFF r1 && between 0xDC00 0xDFFF r2
  then (N.shiftl (r1 - 0xD800) 10 + (r2 - 0xDC00) + 0x10000)%N
  else RuneError.

End utf8.

(* ===================================================================== *)
(** ** encoding/json: the scanner and the value tree *)
(* ===================================================================== *)

Module json.
Local Open Scope N_scope.

(** A JSON text that passed the scanner.  Numbers keep their literal,
    strings and keys are unquoted, members keep their order and their
    duplicates. *)
Inductive value : Type :=
| Null
| Bool (b : bool)
| Number (literal : string)
| Str (s : string)
| Array (elems : list value)
| Object (members : list (string * value)).

Inductive token : Type :=
| TLBrace | TRBrace | TLBrack | TRBrack | TComma | TColon
| TString (s : string)
| TNumber (literal : string)
| TTrue | TFalse | TNull.

Definition isByte (c lit : ascii) : bool := Ascii.eqb c lit.
Definition dquote : byte := "034"%char.
Definition isSpace (c : byte) : bool :=
  isByte c " " || isByte c "009" || isByte c "013" || isByte c "010".
Definition isDigit (c : byte) : bool := between 48 57 (code c).
Definition isLower (c : byte) : bool := between 97 122 (code c).

(** *** Number literals: an optional minus, then 0 or a digit string
    without leading zero, then an optional fraction (a dot and digits),
    then an optional exponent (e or E, an optional sign, digits). *)

Fixpoint skipDigits (s : list byte) : list byte :=
  match s with
  | c :: r => if isDigit c then skipDigits r else s
  | [] => []
  end.

Definition validExponent (s : list byte) : bool :=
  match s with
  | [] => true
  | e :: r =>
    if isByte e "e" || isByte e "E" then
      let r := match r with
               | sg :: r' => if isByte sg "+" || isByte sg "-" then r' else r
               | [] => r
               end in
      match r with
      | d :: r' => isDigit d && bool_decide (skipDigits r' = [])
      | [] => false
      end
    else false
  end.

Definition validFraction (s : list byte) : bool :=
  match s with
  | dot :: r =>
    if isByte dot "." then
      match r with
      | d :: r' => isDigit d && validExponent (skipDigits r')
      | [] => false
      end
    else validExponent s
  | [] => true
  end.

Definition validNumber (s : list byte) : bool :=
  let s := match s with
           | sg :: r => if isByte sg "-" then r else s
           | [] => s
           end in
  match s with
  | d :: r =>
    if isByte d "0" then validFraction r
    else isDigit d && validFraction (skipDigits r)
  | [] => false
  end.

(** *** String literals *)

Definition hexval (c : byte) : option N :=
  let n := code c in
  if between 48 57 n then Some (n - 48)%N
  else if between 97 102 n then Some (n - 87)%N
  else if between 65 70 n then Some (n - 55)%N
  else None.

(** [getu4] past the backslash and the u: four hexadecimal digits. *)
Definition hex4 (s : list byte) : option N :=
  match s with
  | a :: b :: c :: d :: _ =>
    a ← hexval a; b ← hexval b; c ← hexval c; d ← hexval d;
    Some (a * 4096 + b * 256 + c * 16 + d)%N
  | _ => None
  end.

(** [getu4]: a whole [\uXXXX]. *)
Definition getu4 (s : list byte) : option N :=
  match s with
  | bs :: u :: r => if isByte bs "\" && isByte u "u" then hex4 r else None
  | _ => None
  end.

(** The one-letter escapes the scanner accepts in a string. *)
Definition escape (c : byte) : option byte :=
  if isByte c dquote || isByte c "\" || isByte c "/" then Some c
  else if isByte c "b" then Some "008"%char
  else if isByte c "f" then Some "012"%char
  else if isByte c "n" then Some "010"%char
  else if isByte c "r" then Some "013"%char
  else if isByte c "t" then Some "009"%char
  else None.

(** [unquoteBytes] on the bytes between the quotes, one byte at a time:
    [skip] counts the bytes of the current escape or rune still to pass.
    [None] is an escape or a control character the scanner refuses.
    Ill-formed UTF-8 becomes U+FFFD, as does a lone surrogate escape. *)
Fixpoint unquote (skip : nat) (s : list byte) : option (list byte) :=
  match s with
  | [] => Some []
  | c :: r =>
    match skip with
    | S k => unquote k r
    | O =>
      if isByte c "\" then
        match r with
        | [] => None
        | e :: r' =>
          if isByte e "u" then
            rr ← hex4 r';
            if utf8.IsSurrogate rr then
              let dec := match getu4 (drop 4 r') with
                         | Some rr1 => utf8.DecodeSurrogates rr rr1
                         | None => utf8.RuneError
                         end in
              if (dec =? utf8.RuneError)%N
              then (utf8.EncodeRune utf8.RuneError ++.) <$> unquote 5 r
              else (utf8.EncodeRune dec ++.) <$> unquote 11 r
            else (utf8.EncodeRune rr ++.) <$> unquote 5 r
          else
            b ← escape e; (b ::.) <$> unquote 1 r
        end
      else if isByte c dquote || (code c <? 32)%N then None
      else if (code c <? 128)%N then (c ::.) <$> unquote 0 r
      else match utf8.DecodeRune s with
           | Some n => (take n s ++.) <$> unquote (n - 1) r
           | None => (utf8.EncodeRune utf8.RuneError ++.) <$> unquote 0 r
           end
    end
  end.

(** *** The scanner, one byte at a time *)

Inductive mode : Type :=
| InValue                         (* between tokens *)
| InString (acc : list byte)      (* after the opening quote; [acc] reversed *)
| InStringEsc (acc : list byte)   (* after a backslash *)
| InNumber (acc : list byte)
| InLiteral (acc : list byte).

Definition bytes (s : list byte) : string := string_of_list_ascii s.

(** The token a number or a literal ends as, when the byte after it
    arrives (or the input ends). *)
Definition flush (m : mode) : option (list token) :=
  match m with
  | InValue => Some []
  | InNumber acc =>
    if validNumber (rev acc) then Some [TNumber (bytes (rev acc))] else None
  | InLiteral acc =>
    let w := bytes (rev acc) in
    if String.eqb w "true" then Some [TTrue]
    else if String.eqb w "false" then Some [TFalse]
    else if String.eqb w "null" then Some [TNull]
    else None
  | InString _ | InStringEsc _ => None
  end.

(** A byte met between tokens. *)
Definition begin (c : byte) : option (mode * list token) :=
  if isSpace c then Some (InValue, [])
  else if isByte c "{" then Some (InValue, [TLBrace])
  else if isByte c "}" then Some (InValue, [TRBrace])
  else if isByte c "[" then Some (InValue, [TLBrack])
  else if isByte c "]" then Some (InValue, [TRBrack])
  else if isByte c "," then Some (InValue, [TComma])
  else if isByte c ":" then Some (InValue, [TColon])
  else if isByte c dquote then Some (InString [], [])
  else if isByte c "-" || isDigit c then Some (InNumber [c], [])
  else if isLower c then Some (InLiteral [c], [])
  else None.

Definition isNumberByte (c : byte) : bool :=
  isDigit c || isByte c "-" || isByte c "+" || isByte c "." || isByte c "e" || isByte c "E".

Fixpoint scan (m : mode) (s : list byte) : option (list token) :=
  match s with
  | [] => flush m
  | c :: r =>
    let restart :=
      ts ← flush m;
      '(m', ts') ← begin c;
      ((ts ++ ts') ++.) <$> scan m' r in
    match m with
    | InValue => restart
    | InString acc =>
      if isByte c dquote then
        str ← unquote 0 (rev acc);
        (TString (bytes str) ::.) <$> scan InValue r
      else if isByte c "\" then scan (InStringEsc (c :: acc)) r
      else scan (InString (c :: acc)) r
    | InStringEsc acc => scan (InString (c :: acc)) r
    | InNumber acc =>
      if isNumberByte c then scan (InNumber (c :: acc)) r else restart
    | InLiteral acc =>
      if isLower c then scan (InLiteral (c :: acc)) r else restart
    end
  end.

(** *** The grammar, one token at a time *)

(** An open array with its elements so far, or an open object with its
    members so far and the key waiting for its value (both reversed). *)
Inductive frame : Type :=
| InArray (elems : list value)
| InObject (members : list (string * value)) (key : option string).

Inductive expect : Type :=
| AValue            (* a value *)
| AValueOrEnd       (* a value or ], right after [ *)
| AKeyOrEnd         (* a key or }, right after { *)
| AKey              (* a key, after a comma *)
| AColon
| ACommaOrEnd       (* after a value inside an array or an object *)
| AtEnd (v : value). (* the top-level value is complete *)

Definition maxNestingDepth : N := 10000.

(** A finished value goes to the innermost open array or object. *)
Definition reduce (v : value) (stack : list frame) : option (expect * list frame) :=
  match stack with
  | [] => Some (AtEnd v, [])
  | InArray elems :: st => Some (ACommaOrEnd, InArray (v :: elems) :: st)
  | InObject members (Some k) :: st =>
    Some (ACommaOrEnd, InObject ((k, v) :: members) None :: st)
  | InObject _ None :: _ => None
  end.

Definition push (f : frame) (e : expect) (stack : list frame)
  : option (expect * list frame) :=
  if maxNestingDepth <? N.of_nat (length (f :: stack)) then None
  else Some (e, f :: stack).

Definition beginValue (t : token) (stack : list frame)
  : option (expect * list frame) :=
  match t with
  | TLBrack => push (InArray []) AValueOrEnd stack
  | TLBrace => push (InObject [] None) AKeyOrEnd stack
  | TString s => reduce (Str s) stack
  | TNumber n => reduce (Number n) stack
  | TTrue => reduce (Bool true) stack
  | TFalse => reduce (Bool false) stack
  | TNull => reduce Null stack
  | _ => None
  end.

Definition beginKey (t : token) (stack : list frame)
  : option (expect * list frame) :=
  match t, stack with
  | TString k, InObject members None :: st =>
    Some (AColon, InObject members (Some k) :: st)
  | _, _ => None
  end.

Definition step (e : expect) (stack : list frame) (t : token)
  : option (expect * list frame) :=
  match e with
  | AValue => beginValue t stack
  | AValueOrEnd =>
    match t, stack with
    | TRBrack, InArray elems :: st => reduce (Array (rev elems)) st
    | _, _ => beginValue t stack
    end
  | AKeyOrEnd =>
    match t, stack with
    | TRBrace, InObject members None :: st => reduce (Object (rev members)) st
    | _, _ => beginKey t stack
    end
  | AKey => beginKey t stack
  | AColon => match t with TColon => Some (AValue, stack) | _ => None end
  | ACommaOrEnd =>
    match t, stack with
    | TComma, InArray _ :: _ => Some (AValue, stack)
    | TComma, InObject _ None :: _ => Some (AKey, stack)
    | TRBrack, InArray elems :: st => reduce (Array (rev elems)) st
    | TRBrace, InObject members None :: st => reduce (Object (rev members)) st
    | _, _ => None
    end
  | AtEnd _ => None
  end.

Fixpoint build (e : expect) (stack : list frame) (ts : list token) : option value :=
  match ts with
  | [] => match e with AtEnd v => Some v | _ => None end
  | t :: ts' => '(e', stack') ← step e stack t; build e' stack' ts'
  end.

(** The scanner and the decoder's walk over a valid text, together:
    [None] is a [SyntaxError]. *)
Definition parse (data : string) : option value :=
  ts ← scan InValue (list_ascii_of_string data);
  build AValue [] ts.

(** *** The encoder's string escaping *)

Definition hexdigit (n : N) : byte :=
  if n <? 10 then chr (48 + n) else chr (87 + n).

(** The set [htmlSafeSet] of [encoding/json]: the printable ASCII bytes
    and DEL, without the quote, the backslash and the three bytes
    [<], [>] and [&] that [Marshal] escapes for HTML. *)
Definition htmlSafe (c : byte) : bool :=
  between 32 127 (code c)
  && negb (isByte c dquote || isByte c "\" || isByte c "<"
           || isByte c ">" || isByte c "&").

(** [appendString] with [escapeHTML] set, without the two quotes. *)
Fixpoint escapeString (skip : nat) (s : list byte) : list byte :=
  match s with
  | [] => []
  | c :: r =>
    match skip with
    | S k => escapeString k r
    | O =>
      let u00 := ["\"; "u"; "0"; "0"; hexdigit (code c / 16); hexdigit (code c mod 16)]%char in
      if code c <? 128 then
        (if htmlSafe c then [c]
         else if isByte c "\" || isByte c dquote then ["\"%char; c]
         else if isByte c "008" then ["\"; "b"]%char
         else if isByte c "012" then ["\"; "f"]%char
         else if isByte c "010" then ["\"; "n"]%char
         else if isByte c "013" then ["\"; "r"]%char
         else if isByte c "009" then ["\"; "t"]%char
         else u00) ++ escapeString 0 r
      else
        match utf8.DecodeRune s with
        | None => list_ascii_of_string "\ufffd" ++ escapeString 0 r
        | Some n =>
          let rune := take n s in
          (if bool_decide (rune = [chr 0xE2; chr 0x80; chr 0xA8])
           then list_ascii_of_string "\u2028"
           else if bool_decide (rune = [chr 0xE2; chr 0x80; chr 0xA9])
           then list_ascii_of_string "\u2029"
           else rune) ++ escapeString (n - 1) r
        end
    end
  end.

(** A Go string as a JSON string literal. *)
Definition quote (s : string) : string :=
  String dquote (bytes (escapeString 0 (list_ascii_of_string s))) +:+ String dquote "".

(** ["k":] *)
Definition key (k : string) : string := quote k +:+ ":".

Fixpoint join (sep : string) (l : list string) : string :=
  match l with
  | [] => ""
  | [x] => x
  | x :: l' => x +:+ sep +:+ join sep l'
  end.

(** A slice of already encoded elements.  (Go writes [null] for a nil
    slice; a [list] does not tell a nil slice from an empty one, and the
    handler only ever marshals one-element slices.) *)
Definition array (elems : list string) : string := "[" +:+ join "," elems +:+ "]".

Definition object (members : list (string * string)) : string :=
  "{" +:+ join "," (map (fun m => key m.1 +:+ m.2) members) +:+ "}".

End json.

(* ===================================================================== *)
(** ** context, io, os and net/http *)
(* ===================================================================== *)

Module context.
(** A [context.Context] as the MCP server hands it to a tool handler:
    never nil.  The handler only passes it on to the request. *)
Inductive Context : Type :=
| Background
| WithCancel (parent : Context)
| WithTimeout (parent : Context) (nanoseconds : Z).
End context.

Module io.
(** A response body: the bytes a reader yields, and the error it ends
    with when the read fails before EOF. *)
Record ReadCloser : Type := { data : string; failure : option error }.

(** [io.ReadAll]: everything read, and the error if there was one. *)
Definition ReadAll (r : ReadCloser) : string * option error :=
  (data r, failure r).

(** [io.NopCloser(strings.NewReader(body))]. *)
Definition NopCloser (body : string) : ReadCloser :=
  {| data := body; failure := None |}.
End io.

Module http.

Definition StatusOK : Z := 200.
Definition StatusBadRequest : Z := 400.

(** The bytes of an HTTP token, [validHeaderFieldByte] of [net/textproto]. *)
Definition validHeaderFieldByte (c : byte) : bool :=
  let n := code c in
  (between 48 57 n || between 65 90 n || between 97 122 n
   || existsb (Ascii.eqb c) (list_ascii_of_string "!#$%&'*+-.^_`|~"))%N.

Fixpoint canonical (upper : bool) (s : list byte) : list byte :=
  match s with
  | [] => []
  | c :: r =>
    let n := code c in
    let c' := if upper && between 97 122 n then chr (n - 32)
              else if negb upper && between 65 90 n then chr (n + 32)
              else c in
    c' :: canonical (Ascii.eqb c' "-") r
  end%N.

(** [textproto.CanonicalMIMEHeaderKey]: the first letter and every letter
    after a hyphen in upper case, the others in lower case; a key that is
    not a token is left as it is. *)
Definition CanonicalMIMEHeaderKey (s : string) : string :=
  let b := list_ascii_of_string s in
  if forallb validHeaderFieldByte b
  then string_of_list_ascii (canonical true b)
  else s.

(** [http.Header] is a [map[string][]string]. *)
Abbreviation Header := (gmap string (list string)).

Definition Header_Set (h : Header) (k v : string) : Header :=
  <[CanonicalMIMEHeaderKey k := [v]]> h.

Definition Header_Get (h : Header) (k : string) : string :=
  match h !! CanonicalMIMEHeaderKey k with
  | Some (v :: _) => v
  | _ => ""
  end.

Record Request : Type := {
  Method : string;
  URL : string;
  Header_ : Header;
  Body : string;
  ctx : context.Context;
}.

Definition set_Header (f : Header -> Header) (r : Request) : Request :=
  {| Method := Method r; URL := URL r; Header_ := f (Header_ r);
     Body := Body r; ctx := ctx r |}.

Record Response : Type := {
  StatusCode : Z;
  RespBody : io.ReadCloser;
}.

(** [http.NewRequestWithContext].  It fails on a nil context, on a
    method that is not a token and on a URL that does not parse.  The
    method is checked here; a [context.Context] is never nil, and the
    one URL this program passes parses. *)
Definition NewRequestWithContext (c : context.Context) (method url body : string)
  : result Request :=
  if forallb validHeaderFieldByte (list_ascii_of_string method)
  then Ok {| Method := if String.eqb method "" then "GET" else method;
             URL := url; Header_ := ∅; Body := body; ctx := c |}
  else Err (InvalidMethod method).

End http.

(* ===================================================================== *)
(** ** The world outside the handler *)
(* ===================================================================== *)

Section World.

(** The state of whatever stands behind the HTTP client: the network
    and the provider, or the closure of a test double. *)
Context {Net : Type}.

(** The process environment, the state behind the client, and (ghost)
    the requests handed to [Do] so far, oldest first. *)
Record World : Type := {
  environ : gmap string string;
  net : Net;
  sent : list http.Request;
}.

Definition M (A : Type) : Type := World -> A * World.

Definition ret {A} (a : A) : M A := fun w => (a, w).

Definition bind {A B} (m : M A) (k : A -> M B) : M B :=
  fun w => let (a, w') := m w in k a w'.

(** [os.Getenv]: the empty string for a variable that is not set. *)
Definition Getenv (key : string) : M string :=
  fun w => (default "" (environ w !! key), w).

(** The interface [HTTPClient] of handler.go: one method, [Do]. *)
Record HTTPClient : Type := {
  Do : http.Request -> Net -> result http.Response * Net;
}.

(** A call [client.Do(req)], recorded in [sent]. *)
Definition callDo (client : HTTPClient) (req : http.Request) : M (result http.Response) :=
  fun w =>
    let (resp, n) := Do client req (net w) in
    (resp, {| environ := environ w; net := n; sent := sent w ++ [req] |}).

End World.

Arguments World : clear implicits.
Arguments M : clear implicits.
Arguments HTTPClient : clear implicits.

Declare Scope go_scope.
Delimit Scope go_scope with go.
Notation "x <- m ;; k" := (bind m (fun x => k))
  (at level 100, m at next level, right associativity) : go_scope.

(* ===================================================================== *)
(** ** mcp-go: requests, results, tools, the server *)
(* ===================================================================== *)

Module mcp.

(** A dynamically typed argument ([any]), by the JSON value it came
    from: [json.Str] is a Go [string]. *)
Abbreviation any := json.value.

(** [CallToolParams.Arguments] is an [any] that normally holds a
    [map[string]any]. *)
Inductive Arguments : Type :=
| ArgMap (m : gmap string any)
| ArgOther (v : any).

Record CallToolParams : Type := { Name : string; Arguments_ : Arguments }.
Record CallToolRequest : Type := { Params : CallToolParams }.

(** [GetArguments]: the map, or a nil map when the arguments are not one. *)
Definition GetArguments (r : CallToolRequest) : gmap string any :=
  match Arguments_ (Params r) with
  | ArgMap m => m
  | ArgOther _ => ∅
  end.

(** [RequireString]. *)
Definition RequireString (r : CallToolRequest) (key : string) : result string :=
  match GetArguments r !! key with
  | Some (json.Str s) => Ok s
  | Some _ => Err (ArgumentNotString key)
  | None => Err (ArgumentNotFound key)
  end.

Inductive Content : Type :=
| TextContent (Type_ Text : string)
| ImageContent (Type_ Data MIMEType : string)
| AudioContent (Type_ Data MIMEType : string).

Record CallToolResult : Type := { Content_ : list Content; IsError : bool }.

Record ToolInputSchema : Type := {
  SchemaType : string;
  Properties : gmap string (gmap string any);
  Required : list string;
}.

Record Tool : Type := {
  ToolName : string;
  Description_ : string;
  InputSchema : ToolInputSchema;
}.

Definition ToolOption : Type := Tool -> Tool.
Definition PropertyOption : Type := gmap string any -> gmap string any.

Definition NewTool (name : string) (opts : list ToolOption) : Tool :=
  foldl (fun t opt => opt t)
        {| ToolName := name; Description_ := "";
           InputSchema := {| SchemaType := "object"; Properties := ∅; Required := [] |} |}
        opts.

Definition WithDescription (description : string) : ToolOption :=
  fun t => {| ToolName := ToolName t; Description_ := description;
              InputSchema := InputSchema t |}.

Definition Description (desc : string) : PropertyOption :=
  fun schema => <["description" := json.Str desc]> schema.

Definition Required_ : PropertyOption :=
  fun schema => <["required" := json.Bool true]> schema.

(** [WithString]: a property of type string; the [required] mark moves
    from the property to the schema's list of required names. *)
Definition WithString (name : string) (opts : list PropertyOption) : ToolOption :=
  fun t =>
    let schema := foldl (fun s opt => opt s) {["type" := json.Str "string"]} opts in
    let required := match schema !! "required" with
                    | Some (json.Bool true) => true
                    | _ => false
                    end in
    let schema := if required then delete "required" schema else schema in
    let i := InputSchema t in
    {| ToolName := ToolName t; Description_ := Description_ t;
       InputSchema :=
         {| SchemaType := SchemaType i;
            Properties := <[name := schema]> (Properties i);
            Required := if required then Required i ++ [name] else Required i |} |}.

End mcp.

Module server.
Section Server.
Context {Net : Type}.

Definition ToolHandlerFunc : Type :=
  context.Context -> mcp.CallToolRequest -> M Net (result mcp.CallToolResult).

Record ServerTool : Type := { Tool_ : mcp.Tool; Handler : ToolHandlerFunc }.

Record resourceCapabilities : Type := { subscribe : bool; listChanged : bool }.

Record MCPServer : Type := {
  name : string;
  version : string;
  resources : option resourceCapabilities;
  tools : gmap string ServerTool;
}.

Definition ServerOption : Type := MCPServer -> MCPServer.

Definition WithResourceCapabilities (subscribe listChanged : bool) : ServerOption :=
  fun s => {| name := name s; version := version s;
              resources := Some {| subscribe := subscribe; listChanged := listChanged |};
              tools := tools s |}.

Definition NewMCPServer (name version : string) (opts : list ServerOption) : MCPServer :=
  foldl (fun s opt => opt s)
        {| name := name; version := version; resources := None; tools := ∅ |}
        opts.

(** [AddTool]: the tool and its handler, under the tool's name. *)
Definition AddTool (s : MCPServer) (tool : mcp.Tool) (handler : ToolHandlerFunc) : MCPServer :=
  {| name := name s; version := version s; resources := resources s;
     tools := <[mcp.ToolName tool := {| Tool_ := tool; Handler := handler |}]> (tools s) |}.
End Server.
Arguments MCPServer : clear implicits.
Arguments ServerTool : clear implicits.
Arguments ToolHandlerFunc : clear implicits.
End server.

(* ===================================================================== *)
(** ** geodistanceserver/handler.go *)
(* ===================================================================== *)

Module geodistanceserver.

Import slices(slice).

Record Origin : Type := { Address : string }.                  (* json:"address" *)

Record Destination : Type := { Address_ : string }.            (* json:"address" *)

Record RequestBody : Type := {
  Origins : slice Origin;                     (* json:"origins" *)
  Destinations : slice Destination;           (* json:"destinations" *)
  TravelMode : string;                        (* json:"travelMode" *)
  RoutingPreference : string;                 (* json:"routingPreference" *)
  RequestedReferenceRoutes : slice string;    (* json:"requestedReferenceRoutes" *)
  LanguageCode : string;                      (* json:"languageCode" *)
}.

Record Route : Type := {
  DistanceMeters : Z;                         (* json:"distanceMeters" *)
  Duration : string;                          (* json:"duration" *)
  RouteLabels : slice string;                 (* json:"routeLabels" *)
}.

Record ResponseBody : Type := {
  Routes : slice Route;                       (* json:"routes" *)
}.

(** *** json.Marshal on these types *)

Definition marshalSlice {A} (f : A -> string) (s : slice A) : string :=
  match s with
  | slices.nil => "null"
  | slices.mk es _ => json.array (map f es)
  end.

Definition marshalRequestBody (b : RequestBody) : string :=
  json.object
    [ ("origins", marshalSlice (fun o => json.object [("address", json.quote (Address o))])
                               (Origins b));
      ("destinations", marshalSlice (fun d => json.object [("address", json.quote (Address_ d))])
                                    (Destinations b));
      ("travelMode", json.quote (TravelMode b));
      ("routingPreference", json.quote (RoutingPreference b));
      ("requestedReferenceRoutes", marshalSlice json.quote (RequestedReferenceRoutes b));
      ("languageCode", json.quote (LanguageCode b)) ].

Definition marshalResponseBody (b : ResponseBody) : string :=
  json.object
    [ ("routes",
       marshalSlice (fun r => json.object
                        [ ("distanceMeters", fmt_d (DistanceMeters r));
                          ("duration", json.quote (Duration r));
                          ("routeLabels", marshalSlice json.quote (RouteLabels r)) ])
                    (Routes b)) ].

(** [json.Marshal(body)]: a struct of strings and slices always encodes. *)
Definition json_Marshal (body : RequestBody) : result string :=
  Ok (marshalRequestBody body).

(** *** json.Unmarshal into a ResponseBody *)

(** [foldName]: what two keys must share to name the same field.  ASCII
    letters go to upper case; U+017F and U+212A fold to S and K.  Any
    other rune outside ASCII folds to a rune outside ASCII and is left
    as it is: a key holding one names no field of these structs. *)
Fixpoint foldName (skip : nat) (s : list byte) : list byte :=
  match s with
  | [] => []
  | c :: r =>
    match skip with
    | S k => foldName k r
    | O =>
      let n := code c in
      if between 97 122 n then chr (n - 32) :: foldName 0 r
      else if bool_decide (take 2 s = [chr 0xC5; chr 0xBF]) then "S"%char :: foldName 1 r
      else if bool_decide (take 3 s = [chr 0xE2; chr 0x84; chr 0xAA]) then "K"%char :: foldName 2 r
      else c :: foldName 0 r
    end
  end%N.

(** A key of the JSON object names the field with tag [name]: exactly,
    or else up to case. *)
Definition names (key name : string) : bool :=
  bool_decide (foldName 0 (list_ascii_of_string key) = foldName 0 (list_ascii_of_string name)).

(** What [UnmarshalTypeError.Value] says of a JSON value. *)
Definition describe (v : json.value) : string :=
  match v with
  | json.Null => "null"
  | json.Bool _ => "bool"
  | json.Number _ => "number"
  | json.Str _ => "string"
  | json.Array _ => "array"
  | json.Object _ => "object"
  end.

(** Decoding always stores into a value that is already there: a field
    of the struct being filled, or a slot of a slice's backing array.
    [null] leaves a string, an int and a struct as they are and makes a
    slice nil. *)

Definition decodeString (v : json.value) (cur : string) : result string :=
  match v with
  | json.Str s => Ok s
  | json.Null => Ok cur
  | _ => Err (UnmarshalTypeError (describe v) "string")
  end.

Definition decodeInt (v : json.value) (cur : Z) : result Z :=
  match v with
  | json.Number literal =>
    match ParseInt literal with
    | Some n => Ok n
    | None => Err (UnmarshalTypeError ("number " +:+ literal) "int")
    end
  | json.Null => Ok cur
  | _ => Err (UnmarshalTypeError (describe v) "int")
  end.

(** The elements of a JSON array go, in order, into the slots of the
    backing array, past its end into fresh zero values.  The room that
    growing the array leaves past the last element is not modelled: what
    is returned as spare is only what was left of the slots given. *)
Fixpoint decodeElems {A} (zero : A) (decode : json.value -> A -> result A)
         (vs : list json.value) (slots : list A) : result (list A * list A) :=
  match vs with
  | [] => Ok ([], slots)
  | v :: vs' =>
    let (cur, slots') := match slots with
                         | a :: rest => (a, rest)
                         | [] => (zero, [])
                         end in
    match decode v cur with
    | Err e => Err e
    | Ok a =>
      match decodeElems zero decode vs' slots' with
      | Err e => Err e
      | Ok (es, spare) => Ok (a :: es, spare)
      end
    end
  end.

Definition decodeSlice {A} (type : string) (zero : A)
           (decode : json.value -> A -> result A)
           (v : json.value) (cur : slice A) : result (slice A) :=
  match v with
  | json.Array [] => Ok (slices.mk [] [])
  | json.Array vs =>
    let slots := match cur with
                 | slices.nil => []
                 | slices.mk es spare => es ++ spare
                 end in
    match decodeElems zero decode vs slots with
    | Err e => Err e
    | Ok (es, spare) => Ok (slices.mk es spare)
    end
  | json.Null => Ok slices.nil
  | _ => Err (UnmarshalTypeError (describe v) type)
  end.

(** An object's members are stored one after the other; a key that
    names no field is skipped with its value. *)
Fixpoint decodeMembers {T} (field : string -> json.value -> T -> result T)
         (members : list (string * json.value)) (cur : T) : result T :=
  match members with
  | [] => Ok cur
  | (k, v) :: rest =>
    match field k v cur with
    | Err e => Err e
    | Ok cur' => decodeMembers field rest cur'
    end
  end.

Definition decodeStruct {T} (type : string)
           (field : string -> json.value -> T -> result T)
           (v : json.value) (cur : T) : result T :=
  match v with
  | json.Object members => decodeMembers field members cur
  | json.Null => Ok cur
  | _ => Err (UnmarshalTypeError (describe v) type)
  end.

Definition zeroRoute : Route :=
  {| DistanceMeters := 0; Duration := ""; RouteLabels := slices.nil |}.

Definition decodeRouteField (k : string) (v : json.value) (r : Route) : result Route :=
  if names k "distanceMeters" then
    match decodeInt v (DistanceMeters r) with
    | Ok n => Ok {| DistanceMeters := n; Duration := Duration r; RouteLabels := RouteLabels r |}
    | Err e => Err e
    end
  else if names k "duration" then
    match decodeString v (Duration r) with
    | Ok s => Ok {| DistanceMeters := DistanceMeters r; Duration := s; RouteLabels := RouteLabels r |}
    | Err e => Err e
    end
  else if names k "routeLabels" then
    match decodeSlice "[]string" "" decodeString v (RouteLabels r) with
    | Ok l => Ok {| DistanceMeters := DistanceMeters r; Duration := Duration r; RouteLabels := l |}
    | Err e => Err e
    end
  else Ok r.

Definition decodeRoute : json.value -> Route -> result Route :=
  decodeStruct "geodistanceserver.Route" decodeRouteField.

Definition decodeResponseBodyField (k : string) (v : json.value) (b : ResponseBody)
  : result ResponseBody :=
  if names k "routes" then
    match decodeSlice "[]geodistanceserver.Route" zeroRoute decodeRoute v (Routes b) with
    | Ok l => Ok {| Routes := l |}
    | Err e => Err e
    end
  else Ok b.

(** [json.Unmarshal(data, &responseBody)]: the text is checked whole
    first; then it is stored into [responseBody].  The first value of the
    wrong type is the error (Go decodes on and reports it at the end; the
    caller drops the half-filled struct). *)
Definition json_Unmarshal (data : string) (responseBody : ResponseBody) : result ResponseBody :=
  match json.parse data with
  | None => Err SyntaxError
  | Some v => decodeStruct "geodistanceserver.ResponseBody" decodeResponseBodyField v responseBody
  end.

(** *** The handler *)

Section Handler.
Context {Net : Type}.
Local Open Scope go_scope.

Record GeodistanceHandler : Type := {
  apiKey : string;
  client : HTTPClient Net;
}.

(** [&http.Client{Timeout: d}], the client of the standard library. *)
Variable http_Client : Z -> HTTPClient Net.

Definition Second : Z := 1000000000.

Definition NewGeodistanceHandlerWithClient (client : HTTPClient Net)
  : M Net (result GeodistanceHandler) :=
  (* Load API key from environment variable *)
  googleApiKey <- Getenv "GOOGLE_API_KEY" ;;
  if String.eqb googleApiKey "" then
    ret (Err (errorString "GOOGLE_API_KEY environment variable not set"))
  else
    ret (Ok {| apiKey := googleApiKey; client := client |}).

Definition NewGeodistanceHandler : M Net (result GeodistanceHandler) :=
  NewGeodistanceHandlerWithClient (http_Client (30 * Second)).

Definition validateAddresses (gh : GeodistanceHandler) (origin destination : string)
  : option error :=
  if String.eqb origin "" then
    Some (errorString "origin address cannot be empty")
  else if String.eqb destination "" then
    Some (errorString "destination address cannot be empty")
  else None.

Definition buildRequestBody (gh : GeodistanceHandler)
           (origins : slice Origin) (destinations : slice Destination) : RequestBody :=
  {| Origins := origins;
     Destinations := destinations;
     TravelMode := "DRIVE";
     RoutingPreference := "TRAFFIC_AWARE";
     RequestedReferenceRoutes := slices.lit ["SHORTER_DISTANCE"];
     LanguageCode := "en-US" |}.

Definition createRequest (gh : GeodistanceHandler) (ctx : context.Context)
           (body : RequestBody) : result http.Request :=
  match json_Marshal body with
  | Err err => Err (wrapError "failed to marshal json: " err)
  | Ok jsonData =>
    let url := "https://routes.googleapis.com/distanceMatrix/v2:computeRouteMatrix" in
    match http.NewRequestWithContext ctx "POST" url jsonData with
    | Err err => Err (wrapError "failed to create request: " err)
    | Ok req =>
      let req := http.set_Header (fun h => http.Header_Set h "Content-Type" "application/json") req in
      let req := http.set_Header (fun h => http.Header_Set h "X-Goog-Api-Key" (apiKey gh)) req in
      let req := http.set_Header
                   (fun h => http.Header_Set h "X-Goog-FieldMask"
                               "routes.duration,routes.routeLabels,routes.distanceMeters") req in
      Ok req
    end
  end.

(** The deferred [resp.Body.Close()] changes nothing a caller sees. *)
Definition processResponse (gh : GeodistanceHandler) (resp : http.Response)
  : result ResponseBody :=
  if negb (http.StatusCode resp =? http.StatusOK) then
    let '(bodyBytes, _) := io.ReadAll (http.RespBody resp) in
    Err (errorString ("API request failed with status " +:+ fmt_d (http.StatusCode resp)
                      +:+ ": " +:+ bodyBytes))
  else
    match io.ReadAll (http.RespBody resp) with
    | (_, Some err) => Err (wrapError "failed to read response body: " err)
    | (bodyBytes, None) =>
      match json_Unmarshal bodyBytes {| Routes := slices.nil |} with
      | Err err => Err (wrapError "failed to unmarshal response: " err)
      | Ok responseBody =>
        if slices.len (Routes responseBody) =? 0 then
          Err (errorString "no routes found in response")
        else Ok responseBody
      end
    end.

Definition formatResponse (gh : GeodistanceHandler) (responseBody : ResponseBody)
  : result mcp.CallToolResult :=
  if slices.len (Routes responseBody) =? 0 then
    Err (errorString "no routes available")
  else
    match slices.index (Routes responseBody) 0 with
    | None => Err (runtimeError "index out of range [0]")
    | Some route =>
      Ok {| mcp.Content_ :=
              [ mcp.TextContent "text"
                  ("Route distance: " +:+ fmt_d (DistanceMeters route)
                   +:+ " meters, Duration: " +:+ Duration route) ];
            mcp.IsError := false |}
    end.

Definition callDistanceMatrix (gh : GeodistanceHandler) (ctx : context.Context)
           (origins : slice Origin) (destinations : slice Destination)
  : M Net (result ResponseBody) :=
  let body := buildRequestBody gh origins destinations in
  match createRequest gh ctx body with
  | Err err => ret (Err err)
  | Ok req =>
    resp <- callDo (client gh) req ;;
    match resp with
    | Err err => ret (Err (wrapError "failed to execute request: " err))
    | Ok resp => ret (processResponse gh resp)
    end
  end.

Definition handleDistanceCalculation (gh : GeodistanceHandler) (ctx : context.Context)
           (request : mcp.CallToolRequest) : M Net (result mcp.CallToolResult) :=
  match mcp.RequireString request "originAddress" with
  | Err err => ret (Err (wrapError "missing origin address: " err))
  | Ok originAddress =>
    match mcp.RequireString request "destinationAddress" with
    | Err err => ret (Err (wrapError "missing destination address: " err))
    | Ok destinationAddress =>
      match validateAddresses gh originAddress destinationAddress with
      | Some err => ret (Err err)
      | None =>
        let origins := slices.lit [ {| Address := originAddress |} ] in
        let destinations := slices.lit [ {| Address_ := destinationAddress |} ] in
        responseBody <- callDistanceMatrix gh ctx origins destinations ;;
        match responseBody with
        | Err err => ret (Err err)
        | Ok responseBody => ret (formatResponse gh responseBody)
        end
      end
    end
  end.

(** *** geodistanceserver/server.go *)

(** The package variable [Version], as it is when the server is built. *)
Definition Version : string := "dev".

(** [NewGeodistanceServer] of server.go: the earlier revision, whose tool
    still declares the four coordinates. *)
Definition NewGeodistanceServer (Version : string) : M Net (result (server.MCPServer Net)) :=
  h <- NewGeodistanceHandler ;;
  match h with
  | Err err => ret (Err err)
  | Ok h =>
    let s := server.NewMCPServer
               "mcp-geodistance-server"
               Version
               [ server.WithResourceCapabilities true true ] in
    let s := server.AddTool s
               (mcp.NewTool
                  "calculate_distance"
                  [ mcp.WithDescription "Calculate distance between origin and destination.";
                    mcp.WithString "originLatitude"
                      [ mcp.Description "Latitude of origin"; mcp.Required_ ];
                    mcp.WithString "originLongitude"
                      [ mcp.Description "Longitude of Origin"; mcp.Required_ ];
                    mcp.WithString "destinationLatitude"
                      [ mcp.Description "Latitude of destination"; mcp.Required_ ];
                    mcp.WithString "destinationLongitude"
                      [ mcp.Description "Longitude of Destination"; mcp.Required_ ] ])
               (handleDistanceCalculation h) in
    ret (Ok s)
  end.

(** The server of the later revision of server.go, the one the tests
    build. *)
Definition GeodistanceServer (Version : string) : M Net (result (server.MCPServer Net)) :=
  h <- NewGeodistanceHandler ;;
  match h with
  | Err err => ret (Err err)
  | Ok h =>
    let s := server.NewMCPServer
               "mcp-geodistance-server"
               Version
               [ server.WithResourceCapabilities true true ] in
    let s := server.AddTool s
               (mcp.NewTool
                  "calculate_distance"
                  [ mcp.WithDescription "Calculate distance between origin and destination addresses.";
                    mcp.WithString "originAddress"
                      [ mcp.Description "Address of origin"; mcp.Required_ ];
                    mcp.WithString "destinationAddress"
                      [ mcp.Description "Address of destination"; mcp.Required_ ] ])
               (handleDistanceCalculation h) in
    ret (Ok s)
  end.

End Handler.

Arguments GeodistanceHandler : clear implicits.

End geodistanceserver.

(* ===================================================================== *)
(** ** geodistanceserver/handler_test.go: the test doubles *)
(* ===================================================================== *)

Module handler_test.
Import geodistanceserver.

(** [MockHTTPClient] answers from [DoFunc]; it has no state of its own. *)
Definition MockHTTPClient (DoFunc : http.Request -> result http.Response) : HTTPClient unit :=
  {| Do req n := (DoFunc req, n) |}.

Definition createMockResponse (statusCode : Z) (body : string) : http.Response :=
  {| http.StatusCode := statusCode; http.RespBody := io.NopCloser body |}.

Definition createValidAPIResponse : string :=
  marshalResponseBody
    {| Routes := slices.lit [ {| DistanceMeters := 1000;
                                 Duration := "5m";
                                 RouteLabels := slices.lit ["DEFAULT_ROUTE"] |} ] |}.

(** The reply of the provider shown in the README: two routes. *)
Definition twoRoutes : string :=
  marshalResponseBody
    {| Routes := slices.lit [ {| DistanceMeters := 94475; Duration := "3288s";
                                 RouteLabels := slices.lit ["DEFAULT_ROUTE"] |};
                              {| DistanceMeters := 87865; Duration := "4903s";
                                 RouteLabels := slices.lit ["SHORTER_DISTANCE"] |} ] |}.

Definition handler (DoFunc : http.Request -> result http.Response) : GeodistanceHandler unit :=
  {| apiKey := "test-key"; client := MockHTTPClient DoFunc |}.

Definition answering (statusCode : Z) (body : string) : GeodistanceHandler unit :=
  handler (fun _ => Ok (createMockResponse statusCode body)).

Definition request (args : list (string * mcp.any)) : mcp.CallToolRequest :=
  {| mcp.Params := {| mcp.Name := "calculate_distance";
                      mcp.Arguments_ := mcp.ArgMap (list_to_map args) |} |}.

Definition newYorkToLosAngeles : mcp.CallToolRequest :=
  request [ ("originAddress", json.Str "New York");
            ("destinationAddress", json.Str "Los Angeles") ].

(** A process with the given environment that has sent nothing yet. *)
Definition world (env : list (string * string)) : World unit :=
  {| environ := list_to_map env; net := tt; sent := [] |}.

(** Bodies the provider could send. *)
Definition noRoutes : string := "{" +:+ json.quote "routes" +:+ ": []}".
Definition unrelatedObject : string :=
  "{" +:+ json.quote "error" +:+ ": " +:+ json.quote "Invalid request" +:+ "}".
Definition upperCaseRoutes : string := "{" +:+ json.quote "ROUTES" +:+ ": [{}]}".
Definition misnamedDistance : string :=
  "{" +:+ json.quote "routes" +:+ ":[{" +:+ json.quote "distance" +:+ ":5}]}".

Definition unreachable : Z -> HTTPClient unit :=
  fun _ => MockHTTPClient (fun _ => Err (errorString "network error")).

End handler_test.

(* ===================================================================== *)
(** ** What the specification speaks of *)
(* ===================================================================== *)

Module Spec.
Import geodistanceserver.

(** The argument [key] of a tool call is the string [s]. *)
Definition argument (request : mcp.CallToolRequest) (key s : string) : Prop :=
  mcp.GetArguments request !! key = Some (json.Str s).

(** The argument [key] is missing from the mapping, or is the empty string. *)
Definition absentOrEmpty (request : mcp.CallToolRequest) (key : string) : Prop :=
  mcp.GetArguments request !! key = None \/ argument request key "".

(** The errors of argument extraction and of validation. *)
Inductive ArgumentError : error -> Prop :=
| origin_missing e :
    e = ArgumentNotFound "originAddress" \/ e = ArgumentNotString "originAddress" ->
    ArgumentError (wrapError "missing origin address: " e)
| destination_missing e :
    e = ArgumentNotFound "destinationAddress" \/ e = ArgumentNotString "destinationAddress" ->
    ArgumentError (wrapError "missing destination address: " e)
| origin_empty : ArgumentError (errorString "origin address cannot be empty")
| destination_empty : ArgumentError (errorString "destination address cannot be empty").

(** The errors [json.Unmarshal] returns. *)
Inductive DecodeError : error -> Prop :=
| decode_syntax : DecodeError SyntaxError
| decode_type v t : DecodeError (UnmarshalTypeError v t).

(** The values [json.Unmarshal] stores without a type error: of a type
    the field takes, [null] everywhere; the members of an object that
    name no field are not looked at. *)
Definition storableString (v : json.value) : bool :=
  match v with
  | json.Str _ | json.Null => true
  | _ => false
  end.

Definition storableInt (v : json.value) : bool :=
  match v with
  | json.Number literal => match ParseInt literal with Some _ => true | None => false end
  | json.Null => true
  | _ => false
  end.

Definition storableSlice (elem : json.value -> bool) (v : json.value) : bool :=
  match v with
  | json.Array vs => forallb elem vs
  | json.Null => true
  | _ => false
  end.

Definition storableStruct (field : string -> json.value -> bool) (v : json.value) : bool :=
  match v with
  | json.Object members => forallb (fun m => field m.1 m.2) members
  | json.Null => true
  | _ => false
  end.

Definition storableRouteField (k : string) (v : json.value) : bool :=
  if names k "distanceMeters" then storableInt v
  else if names k "duration" then storableString v
  else if names k "routeLabels" then storableSlice storableString v
  else true.

Definition storableResponseBodyField (k : string) (v : json.value) : bool :=
  if names k "routes" then storableSlice (storableStruct storableRouteField) v
  else true.

Definition storable : json.value -> bool := storableStruct storableResponseBodyField.

(** The body is not a JSON text, or it is one that holds, where a field
    is named, a value of a type the field does not take. *)
Definition undecodable (body : string) : bool :=
  match json.parse body with
  | None => true
  | Some v => negb (storable v)
  end.

(** The reply of the provider in the words of the specification: an
    object with the member routes, an array of objects that each have
    distanceMeters, an integer, duration, a string, and routeLabels, an
    array of strings.  Further members and the order of the members are
    free. *)
Definition member (k : string) (v : json.value) : option json.value :=
  match v with
  | json.Object members => snd <$> List.find (fun m => String.eqb m.1 k) members
  | _ => None
  end.

Definition has (k : string) (type : json.value -> bool) (v : json.value) : bool :=
  match member k v with
  | Some x => type x
  | None => false
  end.

Definition isInteger (v : json.value) : bool :=
  match v with
  | json.Number literal =>
    match NilZero.int_of_string literal with Some _ => true | None => false end
  | _ => false
  end.

Definition isText (v : json.value) : bool :=
  match v with
  | json.Str _ => true
  | _ => false
  end.

Definition isList (elem : json.value -> bool) (v : json.value) : bool :=
  match v with
  | json.Array vs => forallb elem vs
  | _ => false
  end.

Definition matchesSchema (v : json.value) : bool :=
  has "routes"
      (isList (fun route => has "distanceMeters" isInteger route
                            && has "duration" isText route
                            && has "routeLabels" (isList isText) route))
      v.

Definition emptyResponseBody : ResponseBody := {| Routes := slices.nil |}.

(** The body is a JSON text that [json.Unmarshal] stores into a
    [ResponseBody] without error. *)
Definition decodesTo (body : string) (responseBody : ResponseBody) : Prop :=
  json_Unmarshal body emptyResponseBody = Ok responseBody.

(** The response has the given status, and its body reads to the end. *)
Definition responds (resp : http.Response) (status : Z) (body : string) : Prop :=
  http.StatusCode resp = status /\ io.ReadAll (http.RespBody resp) = (body, None).

(** The three headers of the provider call, under the keys [Header.Set]
    files them. *)
Definition providerHeaders (key : string) : http.Header :=
  {[ "Content-Type" := ["application/json"];
     "X-Goog-Api-Key" := [key];
     "X-Goog-Fieldmask" := ["routes.duration,routes.routeLabels,routes.distanceMeters"] ]}.

(** The one request a call for [origin] and [destination] makes. *)
Definition outbound (key : string) (ctx : context.Context) (origin destination : string)
  : http.Request :=
  {| http.Method := "POST";
     http.URL := "https://routes.googleapis.com/distanceMatrix/v2:computeRouteMatrix";
     http.Header_ := providerHeaders key;
     http.Body := marshalRequestBody
                    {| Origins := slices.lit [ {| Address := origin |} ];
                       Destinations := slices.lit [ {| Address_ := destination |} ];
                       TravelMode := "DRIVE";
                       RoutingPreference := "TRAFFIC_AWARE";
                       RequestedReferenceRoutes := slices.lit ["SHORTER_DISTANCE"];
                       LanguageCode := "en-US" |};
     http.ctx := ctx |}.

(** What the handler makes of the client's reply to its request. *)
Definition answerTo {Net} (gh : GeodistanceHandler Net) (reply : result http.Response)
  : result mcp.CallToolResult :=
  match reply with
  | Err err => Err (wrapError "failed to execute request: " err)
  | Ok resp =>
    match processResponse gh resp with
    | Err err => Err err
    | Ok responseBody => formatResponse gh responseBody
    end
  end.

(** The result of a successful call: one text block. *)
Definition textResult (text : string) : mcp.CallToolResult :=
  {| mcp.Content_ := [mcp.TextContent "text" text]; mcp.IsError := false |}.

(** The error of a missing API key. *)
Definition notSet : error := errorString "GOOGLE_API_KEY environment variable not set".

(** The same world with another environment. *)
Definition withEnviron {Net} (env : gmap string string) (w : World Net) : World Net :=
  {| environ := env; net := net w; sent := sent w |}.

(** A key of a JSON object that [json.Unmarshal] takes for the field
    [routes]. *)
Definition namesRoutes (k : string) : Prop := names k "routes" = true.

(** A JSON text without routes: [null], or an object whose members named
    [routes], if any, are all [null]. *)
Definition withoutRoutes (v : json.value) : Prop :=
  match v with
  | json.Null => True
  | json.Object members =>
    forall k x, In (k, x) members -> namesRoutes k -> x = json.Null
  | _ => False
  end.

(** A JSON text that holds no key spelled [routes], or holds it with
    the value [null]. *)
Definition noRoutesKey (v : json.value) : Prop :=
  match v with
  | json.Object members => forall x, In ("routes", x) members -> x = json.Null
  | _ => True
  end.

End Spec.

(* ===================================================================== *)
(** ** What the code shows beyond the specification *)
(* ===================================================================== *)

Module Behaviour.
Import geodistanceserver Spec.

(** What the handler returns for each reply the client can give to its
    one request: the five ways to fail and the one way to succeed. *)
Inductive Reply : result http.Response -> result mcp.CallToolResult -> Prop :=
| transport_failed err :
    Reply (Err err) (Err (wrapError "failed to execute request: " err))
| status_failed resp :
    http.StatusCode resp <> http.StatusOK ->
    Reply (Ok resp)
          (Err (errorString ("API request failed with status " +:+ fmt_d (http.StatusCode resp)
                             +:+ ": " +:+ (io.ReadAll (http.RespBody resp)).1)))
| read_failed resp data err :
    http.StatusCode resp = http.StatusOK ->
    io.ReadAll (http.RespBody resp) = (data, Some err) ->
    Reply (Ok resp) (Err (wrapError "failed to read response body: " err))
| decode_failed resp body err :
    responds resp http.StatusOK body ->
    json_Unmarshal body emptyResponseBody = Err err ->
    Reply (Ok resp) (Err (wrapError "failed to unmarshal response: " err))
| no_routes resp body responseBody :
    responds resp http.StatusOK body ->
    decodesTo body responseBody ->
    slices.elems (Routes responseBody) = [] ->
    Reply (Ok resp) (Err (errorString "no routes found in response"))
| answered resp body responseBody route others :
    responds resp http.StatusOK body ->
    decodesTo body responseBody ->
    slices.elems (Routes responseBody) = route :: others ->
    Reply (Ok resp)
          (Ok (textResult ("Route distance: " +:+ fmt_d (DistanceMeters route)
                           +:+ " meters, Duration: " +:+ Duration route))).

(** Two tool calls that give the same two addresses, whatever else they
    carry. *)
Definition sameAddresses (r1 r2 : mcp.CallToolRequest) : Prop :=
  mcp.GetArguments r1 !! "originAddress" = mcp.GetArguments r2 !! "originAddress"
  /\ mcp.GetArguments r1 !! "destinationAddress" = mcp.GetArguments r2 !! "destinationAddress".

(** The argument [key] is there but is not a string. *)
Definition notAString (request : mcp.CallToolRequest) (key : string) : Prop :=
  exists v, mcp.GetArguments request !! key = Some v
            /\ match v with json.Str _ => False | _ => True end.

(** The members of a JSON object that [json.Unmarshal] stores into the
    field [routes]. *)
Definition routesMembers (members : list (string * json.value)) : list (string * json.value) :=
  filter (fun m => names m.1 "routes" = true) members.

(** *** The payload as JSON *)

(** What a string is after [json.Marshal] wrote it and [json.Unmarshal]
    read it back: bytes that are not well-formed UTF-8 have become U+FFFD,
    one for each byte. *)
Fixpoint toValidUTF8 (skip : nat) (s : list byte) : list byte :=
  match s with
  | [] => []
  | c :: r =>
    match skip with
    | S k => toValidUTF8 k r
    | O =>
      if (code c <? 128)%N then c :: toValidUTF8 0 r
      else match utf8.DecodeRune s with
           | None => utf8.EncodeRune utf8.RuneError ++ toValidUTF8 0 r
           | Some n => take n s ++ toValidUTF8 (n - 1) r
           end
    end
  end.

Definition coerced (s : string) : string :=
  json.bytes (toValidUTF8 0 (list_ascii_of_string s)).

(** A byte outside ASCII. *)
Definition high (b : byte) : Prop := (code b <? 128)%N = false.

(** What [json.escapeString] writes for one ASCII byte. *)
Definition asciiEscape (c : byte) : list byte :=
  if json.htmlSafe c then [c]
  else if json.isByte c "\" || json.isByte c json.dquote then ["\"%char; c]
  else if json.isByte c "008" then ["\"; "b"]%char
  else if json.isByte c "012" then ["\"; "f"]%char
  else if json.isByte c "010" then ["\"; "n"]%char
  else if json.isByte c "013" then ["\"; "r"]%char
  else if json.isByte c "009" then ["\"; "t"]%char
  else ["\"; "u"; "0"; "0"; json.hexdigit (code c / 16); json.hexdigit (code c mod 16)]%char.

Definition isASCII (s : string) : bool :=
  forallb (fun c => (code c <? 128)%N) (list_ascii_of_string s).

(** The compact JSON text of a value, as [json.Marshal] writes it. *)
Fixpoint render (v : json.value) : string :=
  match v with
  | json.Null => "null"
  | json.Bool true => "true"
  | json.Bool false => "false"
  | json.Number literal => literal
  | json.Str s => json.quote s
  | json.Array elems => json.array (map render elems)
  | json.Object members => json.object (map (fun m => (m.1, render m.2)) members)
  end.

(** The value with its strings and keys read back. *)
Fixpoint readBack (v : json.value) : json.value :=
  match v with
  | json.Str s => json.Str (coerced s)
  | json.Array elems => json.Array (map readBack elems)
  | json.Object members => json.Object (map (fun m => (coerced m.1, readBack m.2)) members)
  | _ => v
  end.

(** How deep arrays and objects nest. *)
Fixpoint depth (v : json.value) : nat :=
  match v with
  | json.Array elems => S (foldr (fun e d => Nat.max (depth e) d) 0%nat elems)
  | json.Object members => S (foldr (fun m d => Nat.max (depth m.2) d) 0%nat members)
  | _ => 0%nat
  end.

(** Values whose numbers are JSON number literals. *)
Fixpoint wellFormed (v : json.value) : bool :=
  match v with
  | json.Number literal => json.validNumber (list_ascii_of_string literal)
  | json.Array elems => forallb wellFormed elems
  | json.Object members => forallb (fun m => wellFormed m.2) members
  | _ => true
  end.

(** The tokens of the text of a value. *)
Definition arrayTokens (tok : json.value -> list json.token)
  : list json.value -> list json.token :=
  fix go l :=
    match l with
    | [] => [json.TRBrack]
    | [e] => tok e ++ [json.TRBrack]
    | e :: l' => tok e ++ json.TComma :: go l'
    end.

Definition objectTokens (tok : json.value -> list json.token)
  : list (string * json.value) -> list json.token :=
  fix go l :=
    match l with
    | [] => [json.TRBrace]
    | [m] => json.TString (coerced m.1) :: json.TColon :: tok m.2 ++ [json.TRBrace]
    | m :: l' => json.TString (coerced m.1) :: json.TColon :: tok m.2 ++ json.TComma :: go l'
    end.

Fixpoint tokens (v : json.value) : list json.token :=
  match v with
  | json.Null => [json.TNull]
  | json.Bool true => [json.TTrue]
  | json.Bool false => [json.TFalse]
  | json.Number literal => [json.TNumber literal]
  | json.Str s => [json.TString (coerced s)]
  | json.Array elems => json.TLBrack :: arrayTokens tokens elems
  | json.Object members => json.TLBrace :: objectTokens tokens members
  end.

(** What may follow a value in a JSON text: nothing, or a byte that
    continues neither a literal nor a number. *)
Definition delimited (t : list byte) : Prop :=
  match t with
  | [] => True
  | c :: _ => json.isLower c = false /\ json.isNumberByte c = false
  end.

(** The parser is at a place where a value may start. *)
Definition valueExpected (e : json.expect) : Prop :=
  e = json.AValue \/ e = json.AValueOrEnd.

(** The parser is at a place where a key may start. *)
Definition keyExpected (e : json.expect) : Prop :=
  e = json.AKey \/ e = json.AKeyOrEnd.

(** The value nests no deeper than the scanner allows below [stack]. *)
Definition fits (stack : list json.frame) (v : json.value) : Prop :=
  (N.of_nat (length stack + depth v) <= json.maxNestingDepth)%N.

(** The grammar, where a value may start, reads the tokens of [v] as the
    value [v] with its strings read back. *)
Definition reads (v : json.value) : Prop :=
  forall e stack ts,
    valueExpected e -> fits stack v ->
    json.build e stack (tokens v ++ ts)
    = json.reduce (readBack v) stack ≫= (fun '(e', stack') => json.build e' stack' ts).

(** A slice as [json.Marshal] sees it: [null] for nil. *)
Definition sliceTree {A} (f : A -> json.value) (s : slices.slice A) : json.value :=
  match s with
  | slices.nil => json.Null
  | slices.mk es _ => json.Array (map f es)
  end.

(** The payload, field by field in the order of the struct, under the
    names of the struct tags. *)
Definition requestTree (b : RequestBody) : json.value :=
  json.Object
    [ ("origins", sliceTree (fun o => json.Object [("address", json.Str (Address o))])
                            (Origins b));
      ("destinations", sliceTree (fun d => json.Object [("address", json.Str (Address_ d))])
                                 (Destinations b));
      ("travelMode", json.Str (TravelMode b));
      ("routingPreference", json.Str (RoutingPreference b));
      ("requestedReferenceRoutes", sliceTree json.Str (RequestedReferenceRoutes b));
      ("languageCode", json.Str (LanguageCode b)) ]%string.

(** The response body, field by field under the names of the struct
    tags, as [json.Marshal] writes it. *)
Definition routeTree (r : Route) : json.value :=
  json.Object
    [ ("distanceMeters", json.Number (fmt_d (DistanceMeters r)));
      ("duration", json.Str (Duration r));
      ("routeLabels", sliceTree json.Str (RouteLabels r)) ]%string.

Definition responseTree (b : ResponseBody) : json.value :=
  json.Object [ ("routes", sliceTree routeTree (Routes b)) ]%string.

(** A slice as the model of [json.Unmarshal] leaves it where a nil slice
    was: still nil after [null], else the elements.  (The capacity is
    not modelled, see [decodeElems].) *)
Definition stored {A} (f : A -> A) (s : slices.slice A) : slices.slice A :=
  match s with
  | slices.nil => slices.nil
  | slices.mk es _ => slices.mk (map f es) []
  end.

Definition storedRoute (r : Route) : Route :=
  {| DistanceMeters := DistanceMeters r;
     Duration := coerced (Duration r);
     RouteLabels := stored coerced (RouteLabels r) |}.

Definition storedResponse (b : ResponseBody) : ResponseBody :=
  {| Routes := stored storedRoute (Routes b) |}.

(** What a slice holds, its capacity left aside: nothing for nil, else
    its elements. *)
Definition contents {A B} (f : A -> B) (s : slices.slice A) : option (list B) :=
  match s with
  | slices.nil => None
  | slices.mk es _ => Some (map f es)
  end.

(** What a route holds: its distance, its duration and its labels. *)
Definition routeContents (r : Route) : Z * string * option (list string) :=
  (DistanceMeters r, Duration r, contents id (RouteLabels r)).

(** Every distance of the body is a Go [int]. *)
Definition inRange (b : ResponseBody) : Prop :=
  Forall (fun r => in_int (DistanceMeters r) = true) (slices.elems (Routes b)).

End Behaviour.

(* ===================================================================== *)
(** ** Properties *)
(* ===================================================================== *)

Import geodistanceserver Spec.

Section Strings.

Lemma append_nil_r (s : string) : s +:+ "" = s.
Proof.
  induction s as [|c s IH]; [reflexivity|].
  change (String c (s +:+ "") = String c s). now rewrite IH.
Qed.

Lemma append_assoc (a b c : string) : (a +:+ b) +:+ c = a +:+ (b +:+ c).
Proof.
  induction a as [|x a IH]; [reflexivity|].
  change (String x ((a +:+ b) +:+ c) = String x (a +:+ (b +:+ c))). now rewrite IH.
Qed.

Lemma contains_middle (a sub b : string) : contains (a +:+ sub +:+ b) sub.
Proof. now exists a, b. Qed.

Lemma contains_end (a sub : string) : contains (a +:+ sub) sub.
Proof. exists a, ""%string. now rewrite append_nil_r. Qed.

Lemma eqb_empty (s : string) : s <> ""%string -> String.eqb s "" = false.
Proof. intros H. now apply String.eqb_neq. Qed.

End Strings.

(** *** buildRequestBody *)

(** C7.  [buildRequestBody] has no error result and reads nothing but its
    two arguments: the payload holds exactly the origins and destinations
    given, with travelMode DRIVE, routingPreference TRAFFIC_AWARE,
    requestedReferenceRoutes [SHORTER_DISTANCE] and languageCode en-US;
    any two calls with the same addresses, on whatever handler, give the
    same payload and the same JSON text. *)
Theorem buildRequestBody_pure :
  forall (Net : Type) (gh gh' : GeodistanceHandler Net)
         (origins : slices.slice Origin) (destinations : slices.slice Destination),
    let body := buildRequestBody gh origins destinations in
    Origins body = origins
    /\ Destinations body = destinations
    /\ TravelMode body = "DRIVE"%string
    /\ RoutingPreference body = "TRAFFIC_AWARE"%string
    /\ slices.elems (RequestedReferenceRoutes body) = ["SHORTER_DISTANCE"%string]
    /\ LanguageCode body = "en-US"%string
    /\ buildRequestBody gh' origins destinations = body
    /\ json_Marshal (buildRequestBody gh' origins destinations) = json_Marshal body
    /\ is_ok (json_Marshal body) = true.
Proof. intros; repeat split. Qed.

(** *** processResponse *)

Section ProcessResponse.
Context {Net : Type} (gh : GeodistanceHandler Net).

Lemma processResponse_status (resp : http.Response) :
  http.StatusCode resp <> http.StatusOK ->
  processResponse gh resp =
  Err (errorString ("API request failed with status " +:+ fmt_d (http.StatusCode resp)
                    +:+ ": " +:+ (io.ReadAll (http.RespBody resp)).1)).
Proof.
  intros H. unfold processResponse.
  destruct (Z.eqb_spec (http.StatusCode resp) http.StatusOK) as [E|_]; [contradiction|].
  cbn. reflexivity.
Qed.

Lemma processResponse_ok (resp : http.Response) (body : string) :
  responds resp http.StatusOK body ->
  processResponse gh resp =
  match json_Unmarshal body emptyResponseBody with
  | Err err => Err (wrapError "failed to unmarshal response: " err)
  | Ok responseBody =>
    if slices.len (Routes responseBody) =? 0
    then Err (errorString "no routes found in response")
    else Ok responseBody
  end.
Proof.
  intros [Hs Hb]. unfold processResponse. rewrite Hs, Hb. reflexivity.
Qed.

End ProcessResponse.

(** C5.  A response whose status is not 200 makes [processResponse] fail
    with an error whose message holds the status code in decimal and the
    bytes read from the body, unchanged; the error is fixed by the status
    and the raw body alone, whatever the body would decode to. *)
Theorem processResponse_non200 :
  forall (Net : Type) (gh : GeodistanceHandler Net) (resp : http.Response),
    http.StatusCode resp <> http.StatusOK ->
    exists e,
      processResponse gh resp = Err e
      /\ e = errorString ("API request failed with status " +:+ fmt_d (http.StatusCode resp)
                          +:+ ": " +:+ (io.ReadAll (http.RespBody resp)).1)
      /\ forall text,
          contains (Error text e) (fmt_d (http.StatusCode resp))
          /\ contains (Error text e) (io.ReadAll (http.RespBody resp)).1.
Proof.
  intros Net gh resp H. eexists. split; [now apply processResponse_status|].
  split; [reflexivity|]. intros text. cbn [Error]. split.
  - apply contains_middle.
  - rewrite <- !append_assoc. apply contains_end.
Qed.

Lemma processResponse_non200_witness :
  exists e,
    processResponse (handler_test.answering 400 "{}") (handler_test.createMockResponse 400 "{}") = Err e
    /\ e = errorString "API request failed with status 400: {}"
    /\ forall text, contains (Error text e) "400" /\ contains (Error text e) "{}".
Proof.
  apply (processResponse_non200 unit (handler_test.answering 400 "{}")
                                (handler_test.createMockResponse 400 "{}")).
  vm_compute. discriminate.
Defined.

(** *** json.Unmarshal never fails but with a syntax or a type error *)

Section Decoding.

Lemma decodeString_error v cur e : decodeString v cur = Err e -> DecodeError e.
Proof. destruct v; cbn; intros H; inversion H; constructor. Qed.

Lemma decodeInt_error v cur e : decodeInt v cur = Err e -> DecodeError e.
Proof.
  destruct v; cbn; intros H; try (inversion H; constructor).
  destruct (ParseInt literal); inversion H; constructor.
Qed.

Lemma decodeElems_error {A} (zero : A) decode vs :
  (forall v a e, decode v a = Err e -> DecodeError e) ->
  forall slots e, decodeElems zero decode vs slots = Err e -> DecodeError e.
Proof.
  intros Hd. induction vs as [|v vs IH]; intros slots e; cbn; [discriminate|].
  destruct slots as [|a rest].
  - destruct (decode v zero) eqn:E; [|intros H; inversion H; subst; eauto].
    destruct (decodeElems zero decode vs []) as [[es spare]|e'] eqn:E'; [discriminate|].
    intros H; inversion H; subst; eauto.
  - destruct (decode v a) eqn:E; [|intros H; inversion H; subst; eauto].
    destruct (decodeElems zero decode vs rest) as [[es spare]|e'] eqn:E'; [discriminate|].
    intros H; inversion H; subst; eauto.
Qed.

Lemma decodeSlice_error {A} type (zero : A) decode v cur e :
  (forall v a e, decode v a = Err e -> DecodeError e) ->
  decodeSlice type zero decode v cur = Err e -> DecodeError e.
Proof.
  intros Hd. destruct v as [| | | |vs|]; cbn; intros H; try (inversion H; constructor).
  destruct vs as [|v vs]; [discriminate|].
  destruct (decodeElems zero decode (v :: vs) _) as [[es spare]|e'] eqn:E; [discriminate|].
  inversion H; subst. eapply decodeElems_error; eauto.
Qed.

Lemma decodeMembers_error {T} field members :
  (forall k v (c : T) e, field k v c = Err e -> DecodeError e) ->
  forall cur e, decodeMembers field members cur = Err e -> DecodeError e.
Proof.
  intros Hf. induction members as [|[k v] ms IH]; intros cur e; cbn; [discriminate|].
  destruct (field k v cur) eqn:E; [apply IH|].
  intros H; inversion H; subst; eauto.
Qed.

Lemma decodeStruct_error {T} type field v (cur : T) e :
  (forall k v (c : T) e, field k v c = Err e -> DecodeError e) ->
  decodeStruct type field v cur = Err e -> DecodeError e.
Proof.
  intros Hf. destruct v; cbn; intros H; try (inversion H; constructor).
  eapply decodeMembers_error; eauto.
Qed.

Lemma decodeRouteField_error k v r e : decodeRouteField k v r = Err e -> DecodeError e.
Proof.
  unfold decodeRouteField.
  destruct (names k "distanceMeters").
  { destruct (decodeInt _ _) eqn:E; intros H; inversion H; subst.
    eapply decodeInt_error; eauto. }
  destruct (names k "duration").
  { destruct (decodeString _ _) eqn:E; intros H; inversion H; subst.
    eapply decodeString_error; eauto. }
  destruct (names k "routeLabels"); [|discriminate].
  destruct (decodeSlice _ _ _ _ _) eqn:E; intros H; inversion H; subst.
  eapply decodeSlice_error; [|eauto]. intros; eapply decodeString_error; eauto.
Qed.

Lemma decodeRoute_error v r e : decodeRoute v r = Err e -> DecodeError e.
Proof. apply decodeStruct_error. intros; eapply decodeRouteField_error; eauto. Qed.

Lemma decodeResponseBodyField_error k v b e :
  decodeResponseBodyField k v b = Err e -> DecodeError e.
Proof.
  unfold decodeResponseBodyField. destruct (names k "routes"); [|discriminate].
  destruct (decodeSlice _ _ _ _ _) eqn:E; intros H; inversion H; subst.
  eapply decodeSlice_error; [|eauto]. intros; eapply decodeRoute_error; eauto.
Qed.

Lemma json_Unmarshal_error data b e : json_Unmarshal data b = Err e -> DecodeError e.
Proof.
  unfold json_Unmarshal. destruct (json.parse data); [|intros H; inversion H; constructor].
  apply decodeStruct_error. intros; eapply decodeResponseBodyField_error; eauto.
Qed.

(** Members that leave the routes alone, or set them to [null]. *)
Lemma decodeMembers_withoutRoutes members :
  (forall k x, In (k, x) members -> namesRoutes k -> x = json.Null) ->
  decodeMembers decodeResponseBodyField members emptyResponseBody = Ok emptyResponseBody.
Proof.
  induction members as [|[k v] ms IH]; intros H; [reflexivity|].
  cbn [decodeMembers]. unfold decodeResponseBodyField at 1.
  destruct (names k "routes") eqn:E.
  - rewrite (H k v (or_introl eq_refl) E). cbn. apply IH.
    intros k' x Hin. apply H. now right.
  - apply IH. intros k' x Hin. apply H. now right.
Qed.

Lemma json_Unmarshal_withoutRoutes data v :
  json.parse data = Some v -> withoutRoutes v ->
  json_Unmarshal data emptyResponseBody = Ok emptyResponseBody.
Proof.
  intros Hp Hv. unfold json_Unmarshal. rewrite Hp.
  destruct v; try contradiction; cbn; [reflexivity|].
  now apply decodeMembers_withoutRoutes.
Qed.

(** Whether a value is stored depends on the value alone, not on what
    the target holds. *)
Lemma decodeString_storable v cur : is_ok (decodeString v cur) = storableString v.
Proof. destruct v; reflexivity. Qed.

Lemma decodeInt_storable v cur : is_ok (decodeInt v cur) = storableInt v.
Proof. destruct v; try reflexivity. cbn. destruct (ParseInt literal); reflexivity. Qed.

Lemma decodeElems_storable {A} (zero : A) (decode : json.value -> A -> result A)
      (fit : json.value -> bool) vs slots :
  (forall v cur, is_ok (decode v cur) = fit v) ->
  is_ok (decodeElems zero decode vs slots) = forallb fit vs.
Proof.
  intros H. revert slots. induction vs as [|v vs IH]; intros slots; [reflexivity|].
  cbn [decodeElems forallb].
  destruct slots as [|a rest].
  - rewrite <- (H v zero), <- (IH []). destruct (decode v zero); [|reflexivity].
    destruct (decodeElems zero decode vs []) as [[es spare]|]; reflexivity.
  - rewrite <- (H v a), <- (IH rest). destruct (decode v a); [|reflexivity].
    destruct (decodeElems zero decode vs rest) as [[es spare]|]; reflexivity.
Qed.

Lemma decodeSlice_storable {A} (type : string) (zero : A)
      (decode : json.value -> A -> result A) (fit : json.value -> bool) v cur :
  (forall v cur, is_ok (decode v cur) = fit v) ->
  is_ok (decodeSlice type zero decode v cur) = storableSlice fit v.
Proof.
  intros H. destruct v as [| | | |vs|]; try reflexivity.
  destruct vs as [|v vs]; [reflexivity|].
  unfold decodeSlice, storableSlice.
  rewrite <- (decodeElems_storable zero decode fit (v :: vs)
                (match cur with slices.nil => [] | slices.mk es spare => es ++ spare end) H).
  destruct (decodeElems _ _ _ _) as [[es spare]|]; reflexivity.
Qed.

Lemma decodeMembers_storable {T} (field : string -> json.value -> T -> result T)
      (fit : string -> json.value -> bool) members cur :
  (forall k v cur, is_ok (field k v cur) = fit k v) ->
  is_ok (decodeMembers field members cur) = forallb (fun m => fit m.1 m.2) members.
Proof.
  intros H. revert cur. induction members as [|[k v] ms IH]; intros cur; [reflexivity|].
  cbn [decodeMembers forallb fst snd]. rewrite <- (H k v cur).
  destruct (field k v cur) as [cur'|]; [apply IH|reflexivity].
Qed.

Lemma decodeStruct_storable {T} (type : string)
      (field : string -> json.value -> T -> result T)
      (fit : string -> json.value -> bool) v cur :
  (forall k v cur, is_ok (field k v cur) = fit k v) ->
  is_ok (decodeStruct type field v cur) = storableStruct fit v.
Proof.
  intros H. destruct v; try reflexivity. now apply decodeMembers_storable.
Qed.

Lemma decodeRouteField_storable k v r :
  is_ok (decodeRouteField k v r) = storableRouteField k v.
Proof.
  unfold decodeRouteField, storableRouteField.
  destruct (names k "distanceMeters").
  { rewrite <- (decodeInt_storable v (DistanceMeters r)).
    destruct (decodeInt v (DistanceMeters r)); reflexivity. }
  destruct (names k "duration").
  { rewrite <- (decodeString_storable v (Duration r)).
    destruct (decodeString v (Duration r)); reflexivity. }
  destruct (names k "routeLabels"); [|reflexivity].
  rewrite <- (decodeSlice_storable "[]string" ""%string decodeString storableString v
                (RouteLabels r) decodeString_storable).
  destruct (decodeSlice _ _ _ _ _); reflexivity.
Qed.

Lemma decodeResponseBodyField_storable k v b :
  is_ok (decodeResponseBodyField k v b) = storableResponseBodyField k v.
Proof.
  unfold decodeResponseBodyField, storableResponseBodyField.
  destruct (names k "routes"); [|reflexivity].
  rewrite <- (decodeSlice_storable "[]geodistanceserver.Route" zeroRoute decodeRoute
                (storableStruct storableRouteField) v (Routes b)).
  - destruct (decodeSlice _ _ _ _ _); reflexivity.
  - intros v' cur. apply decodeStruct_storable. apply decodeRouteField_storable.
Qed.

(** [json.Unmarshal] fails on the undecodable bodies and on no other. *)
Lemma json_Unmarshal_undecodable data responseBody :
  is_ok (json_Unmarshal data responseBody) = negb (undecodable data).
Proof.
  unfold json_Unmarshal, undecodable. destruct (json.parse data) as [v|]; [|reflexivity].
  rewrite Bool.negb_involutive. apply decodeStruct_storable.
  apply decodeResponseBodyField_storable.
Qed.

End Decoding.

(** *** Slices *)

Lemma len_zero {A} (s : slices.slice A) : (slices.len s =? 0) = true <-> slices.elems s = [].
Proof.
  unfold slices.len. destruct (slices.elems s); cbn; split; try reflexivity; discriminate.
Qed.

Lemma len_cons {A} (s : slices.slice A) a l : slices.elems s = a :: l -> (slices.len s =? 0) = false.
Proof. unfold slices.len. intros ->. reflexivity. Qed.

Lemma index_first {A} (s : slices.slice A) a l : slices.elems s = a :: l -> slices.index s 0 = Some a.
Proof.
  intros H. unfold slices.index, slices.len. rewrite H. reflexivity.
Qed.

Lemma index_nonempty {A} (s : slices.slice A) :
  (slices.len s =? 0) = false -> exists a l, slices.elems s = a :: l.
Proof.
  unfold slices.len. destruct (slices.elems s) as [|a l]; [discriminate|]. eauto.
Qed.

(** *** The decode error *)

(** C8, as amended.  A 200 response whose body is not a JSON text, or is
    one that holds, where a field of [ResponseBody] or [Route] is named,
    a value of a type the field does not take, makes [processResponse]
    return the unmarshal failure: the decoder's error, a syntax or a type
    error, wrapped under "failed to unmarshal response: ", as an error
    value.  No other 200 body gives that failure: a JSON text that
    leaves fields out or holds members that name no field is stored. *)
Theorem processResponse_undecodable :
  forall (Net : Type) (gh : GeodistanceHandler Net) (resp : http.Response) (body : string),
    responds resp http.StatusOK body ->
    (undecodable body = true ->
     exists err,
       json_Unmarshal body emptyResponseBody = Err err
       /\ DecodeError err
       /\ processResponse gh resp = Err (wrapError "failed to unmarshal response: " err))
    /\ (undecodable body = false ->
        forall err,
          processResponse gh resp <> Err (wrapError "failed to unmarshal response: " err)).
Proof.
  intros Net gh resp body Hr.
  pose proof (json_Unmarshal_undecodable body emptyResponseBody) as Hu.
  rewrite (processResponse_ok gh resp body Hr). split; intros Hb; rewrite Hb in Hu.
  - destruct (json_Unmarshal body emptyResponseBody) as [rb|err] eqn:E; [discriminate Hu|].
    exists err. split; [reflexivity|]. split; [|reflexivity].
    eapply json_Unmarshal_error; eauto.
  - intros err. destruct (json_Unmarshal body emptyResponseBody) as [rb|e]; [|discriminate Hu].
    destruct (_ =? _); discriminate.
Qed.

Lemma processResponse_undecodable_witness :
  (exists err,
      json_Unmarshal "invalid json" emptyResponseBody = Err err
      /\ DecodeError err
      /\ processResponse (handler_test.answering 200 "invalid json")
                         (handler_test.createMockResponse 200 "invalid json")
         = Err (wrapError "failed to unmarshal response: " err))
  /\ forall err,
      processResponse (handler_test.answering 200 handler_test.misnamedDistance)
                      (handler_test.createMockResponse 200 handler_test.misnamedDistance)
      <> Err (wrapError "failed to unmarshal response: " err).
Proof.
  split.
  - apply (processResponse_undecodable unit (handler_test.answering 200 "invalid json")
             (handler_test.createMockResponse 200 "invalid json") "invalid json").
    + split; reflexivity.
    + vm_compute. reflexivity.
  - apply (processResponse_undecodable unit
             (handler_test.answering 200 handler_test.misnamedDistance)
             (handler_test.createMockResponse 200 handler_test.misnamedDistance)
             handler_test.misnamedDistance).
    + split; reflexivity.
    + vm_compute. reflexivity.
Defined.

(** C8, as stated, fails.  Two bodies that are JSON texts and do not
    match the reply of the specification: the first, whose one route
    names its distance by another key, is stored, [processResponse]
    succeeds and the handler answers with the distance 0 and an empty
    duration; the second, an object without routes, fails with "no routes
    found in response", which is not the unmarshal failure. *)
Lemma processResponse_undecodable_counterexample :
  (json.parse handler_test.misnamedDistance
   = Some (json.Object [("routes", json.Array [json.Object [("distance", json.Number "5")]])])
   /\ matchesSchema
        (json.Object [("routes", json.Array [json.Object [("distance", json.Number "5")]])])
      = false
   /\ processResponse (handler_test.answering 200 handler_test.misnamedDistance)
        (handler_test.createMockResponse 200 handler_test.misnamedDistance)
      = Ok {| Routes := slices.mk [zeroRoute] [] |}
   /\ (handleDistanceCalculation (handler_test.answering 200 handler_test.misnamedDistance)
         context.Background handler_test.newYorkToLosAngeles (handler_test.world [])).1
      = Ok (textResult "Route distance: 0 meters, Duration: "))
  /\ (json.parse handler_test.unrelatedObject
      = Some (json.Object [("error", json.Str "Invalid request")])
      /\ matchesSchema (json.Object [("error", json.Str "Invalid request")]) = false
      /\ processResponse (handler_test.answering 200 handler_test.unrelatedObject)
           (handler_test.createMockResponse 200 handler_test.unrelatedObject)
         = Err (errorString "no routes found in response")).
Proof. repeat split; vm_compute; reflexivity. Qed.

(** *** The request *)

Section Request.
Context {Net : Type} (gh : GeodistanceHandler Net).

Lemma providerHeaders_set (key : string) :
  http.Header_Set
    (http.Header_Set (http.Header_Set ∅ "Content-Type" "application/json")
                     "X-Goog-Api-Key" key)
    "X-Goog-FieldMask" "routes.duration,routes.routeLabels,routes.distanceMeters"
  = providerHeaders key.
Proof.
  unfold http.Header_Set, providerHeaders.
  change (http.CanonicalMIMEHeaderKey "Content-Type") with "Content-Type"%string.
  change (http.CanonicalMIMEHeaderKey "X-Goog-Api-Key") with "X-Goog-Api-Key"%string.
  change (http.CanonicalMIMEHeaderKey "X-Goog-FieldMask") with "X-Goog-Fieldmask"%string.
  apply map_eq. intros k.
  repeat (rewrite lookup_insert; case_decide; subst; try reflexivity; try congruence).
  now rewrite lookup_empty, lookup_singleton_ne.
Qed.

Lemma createRequest_ok ctx body :
  createRequest gh ctx body =
  Ok {| http.Method := "POST";
        http.URL := "https://routes.googleapis.com/distanceMatrix/v2:computeRouteMatrix";
        http.Header_ := providerHeaders (apiKey gh);
        http.Body := marshalRequestBody body;
        http.ctx := ctx |}.
Proof.
  unfold createRequest, json_Marshal, http.NewRequestWithContext.
  change (forallb http.validHeaderFieldByte (list_ascii_of_string "POST")) with true.
  cbn -[marshalRequestBody]. unfold http.set_Header. cbn -[marshalRequestBody].
  now rewrite providerHeaders_set.
Qed.

End Request.

(** *** The handler, case by case *)

Section Handle.
Context {Net : Type} (gh : GeodistanceHandler Net) (ctx : context.Context).

(** With two non-empty addresses the handler makes its one request and
    answers from the reply. *)
Lemma handle_valid request w origin destination :
  argument request "originAddress" origin -> origin <> ""%string ->
  argument request "destinationAddress" destination -> destination <> ""%string ->
  let req := outbound (apiKey gh) ctx origin destination in
  let reply := Do (client gh) req (net w) in
  handleDistanceCalculation gh ctx request w =
  (answerTo gh reply.1,
   {| environ := environ w; net := reply.2; sent := sent w ++ [req] |}).
Proof.
  intros Ho Hon Hd Hdn req reply.
  unfold handleDistanceCalculation, mcp.RequireString.
  rewrite Ho, Hd. unfold validateAddresses.
  rewrite (eqb_empty _ Hon), (eqb_empty _ Hdn).
  unfold callDistanceMatrix. rewrite createRequest_ok.
  unfold bind, callDo, ret, answerTo.
  fold req. subst reply. cbn [buildRequestBody].
  change {| http.Method := _; http.URL := _; http.Header_ := _; http.Body := _; http.ctx := _ |}
    with req.
  destruct (Do (client gh) req (net w)) as [[resp|err] n]; cbn [fst snd]; [|reflexivity].
  destruct (processResponse gh resp); reflexivity.
Qed.

(** The call stops with the error the goal's [match] has reached. *)
Ltac stops_at_arguments :=
  left; eexists; split; cycle 1; [intros ?; reflexivity | constructor; auto].

(** Every call either stops at its arguments, leaving the world as it
    was, or is a call with two non-empty addresses. *)
Lemma handle_cases request :
  (exists e, ArgumentError e
             /\ forall w, handleDistanceCalculation gh ctx request w = (Err e, w))
  \/ (exists origin destination,
        argument request "originAddress" origin /\ origin <> ""%string
        /\ argument request "destinationAddress" destination /\ destination <> ""%string).
Proof.
  unfold handleDistanceCalculation, mcp.RequireString, argument.
  destruct (mcp.GetArguments request !! "originAddress") as [vo|] eqn:Eo.
  2:{ stops_at_arguments. }
  destruct vo as [| | |o| |];
    try (stops_at_arguments; fail).
  destruct (mcp.GetArguments request !! "destinationAddress") as [vd|] eqn:Ed.
  2:{ stops_at_arguments. }
  destruct vd as [| | |d| |];
    try (stops_at_arguments; fail).
  unfold validateAddresses.
  destruct (String.eqb_spec o ""); [stops_at_arguments|].
  destruct (String.eqb_spec d ""); [stops_at_arguments|].
  right. exists o, d. auto.
Qed.

Lemma handle_invalid request :
  absentOrEmpty request "originAddress" \/ absentOrEmpty request "destinationAddress" ->
  exists e, ArgumentError e
            /\ forall w, handleDistanceCalculation gh ctx request w = (Err e, w).
Proof.
  intros H. destruct (handle_cases request) as [?|(o & d & Ho & Hon & Hd & Hdn)]; [assumption|].
  exfalso. unfold absentOrEmpty, argument in *.
  destruct H as [[H|H]|[H|H]]; congruence.
Qed.

(** The handler never reads the environment. *)
Lemma handle_environ request w env :
  handleDistanceCalculation gh ctx request (withEnviron env w) =
  ((handleDistanceCalculation gh ctx request w).1,
   withEnviron env (handleDistanceCalculation gh ctx request w).2).
Proof.
  destruct (handle_cases request) as [(e & _ & He)|(o & d & Ho & Hon & Hd & Hdn)].
  - now rewrite !He.
  - rewrite (handle_valid request w o d Ho Hon Hd Hdn).
    rewrite (handle_valid request (withEnviron env w) o d Ho Hon Hd Hdn).
    reflexivity.
Qed.

End Handle.

(** *** The claims on the handler *)

(** C1.  A call with non-empty originAddress and destinationAddress, to
    which the client replies 200 with a body that decodes to at least one
    route, succeeds with exactly one text block, whose text is
    "Route distance: <distanceMeters> meters, Duration: <duration>" of the
    first route; the routes after the first play no part. *)
Theorem handleDistanceCalculation_first_route :
  forall (Net : Type) (gh : GeodistanceHandler Net) (ctx : context.Context)
         (request : mcp.CallToolRequest) (w : World Net)
         (origin destination body : string) (resp : http.Response) (n : Net)
         (responseBody : ResponseBody) (route : Route) (others : list Route),
    argument request "originAddress" origin -> origin <> ""%string ->
    argument request "destinationAddress" destination -> destination <> ""%string ->
    Do (client gh) (outbound (apiKey gh) ctx origin destination) (net w) = (Ok resp, n) ->
    responds resp http.StatusOK body ->
    decodesTo body responseBody ->
    slices.elems (Routes responseBody) = route :: others ->
    (handleDistanceCalculation gh ctx request w).1
    = Ok {| mcp.Content_ :=
              [ mcp.TextContent "text"
                  ("Route distance: " +:+ fmt_d (DistanceMeters route)
                   +:+ " meters, Duration: " +:+ Duration route) ];
            mcp.IsError := false |}.
Proof.
  intros Net gh ctx request w origin destination body resp n rb route others
         Ho Hon Hd Hdn HDo Hr Hb Hroutes.
  rewrite (handle_valid gh ctx request w origin destination Ho Hon Hd Hdn).
  cbn [fst]. rewrite HDo. cbn [fst answerTo].
  rewrite (processResponse_ok gh resp body Hr). unfold decodesTo in Hb. rewrite Hb.
  rewrite (len_cons _ _ _ Hroutes).
  unfold formatResponse. rewrite (len_cons _ _ _ Hroutes), (index_first _ _ _ Hroutes).
  reflexivity.
Qed.

Lemma handleDistanceCalculation_first_route_witness :
  (handleDistanceCalculation (handler_test.answering 200 handler_test.twoRoutes)
     context.Background handler_test.newYorkToLosAngeles (handler_test.world [])).1
  = Ok (textResult "Route distance: 94475 meters, Duration: 3288s").
Proof.
  apply (handleDistanceCalculation_first_route unit
           (handler_test.answering 200 handler_test.twoRoutes) context.Background
           handler_test.newYorkToLosAngeles (handler_test.world [])
           "New York" "Los Angeles" handler_test.twoRoutes
           (handler_test.createMockResponse 200 handler_test.twoRoutes) tt
           {| Routes := slices.lit
                [ {| DistanceMeters := 94475; Duration := "3288s";
                     RouteLabels := slices.lit ["DEFAULT_ROUTE"] |};
                  {| DistanceMeters := 87865; Duration := "4903s";
                     RouteLabels := slices.lit ["SHORTER_DISTANCE"] |} ] |}
           {| DistanceMeters := 94475; Duration := "3288s";
              RouteLabels := slices.lit ["DEFAULT_ROUTE"] |}
           [ {| DistanceMeters := 87865; Duration := "4903s";
                RouteLabels := slices.lit ["SHORTER_DISTANCE"] |} ]).
  - vm_compute; reflexivity.
  - discriminate.
  - vm_compute; reflexivity.
  - discriminate.
  - reflexivity.
  - split; reflexivity.
  - vm_compute; reflexivity.
  - reflexivity.
Defined.

(** C2.  A call whose originAddress or destinationAddress is missing from
    the arguments, or is the empty string, fails with an error of argument
    extraction or of validation; the world is left as it was, so no
    request reached the client's [Do]. *)
Theorem handleDistanceCalculation_rejects :
  forall (Net : Type) (gh : GeodistanceHandler Net) (ctx : context.Context)
         (request : mcp.CallToolRequest) (w : World Net),
    absentOrEmpty request "originAddress" \/ absentOrEmpty request "destinationAddress" ->
    exists e,
      ArgumentError e
      /\ handleDistanceCalculation gh ctx request w = (Err e, w)
      /\ sent (handleDistanceCalculation gh ctx request w).2 = sent w.
Proof.
  intros Net gh ctx request w H.
  destruct (handle_invalid gh ctx request H) as (e & Ha & He).
  exists e. rewrite He. auto.
Qed.

Lemma handleDistanceCalculation_rejects_witness :
  exists e,
    ArgumentError e
    /\ handleDistanceCalculation (handler_test.answering 200 handler_test.createValidAPIResponse)
         context.Background
         (handler_test.request [("originAddress", json.Str ""); ("destinationAddress", json.Str "Los Angeles")])
         (handler_test.world [])
       = (Err e, handler_test.world [])
    /\ sent (handleDistanceCalculation
               (handler_test.answering 200 handler_test.createValidAPIResponse)
               context.Background
               (handler_test.request [("originAddress", json.Str ""); ("destinationAddress", json.Str "Los Angeles")])
               (handler_test.world [])).2 = [].
Proof.
  apply (handleDistanceCalculation_rejects unit).
  left. right. vm_compute. reflexivity.
Defined.

(** C4.  A 200 response whose body decodes to no route at all makes
    [processResponse] fail with "no routes found in response";
    [formatResponse] has its own guard for the empty list; and a handler
    whose client gives that reply returns no result, whatever the call. *)
Theorem no_routes_is_an_error :
  forall (Net : Type) (gh : GeodistanceHandler Net) (resp : http.Response)
         (body : string) (responseBody : ResponseBody),
    responds resp http.StatusOK body ->
    decodesTo body responseBody ->
    slices.elems (Routes responseBody) = [] ->
    processResponse gh resp = Err (errorString "no routes found in response")
    /\ formatResponse gh responseBody = Err (errorString "no routes available")
    /\ forall ctx request w,
        (forall req, (Do (client gh) req (net w)).1 = Ok resp) ->
        is_ok (handleDistanceCalculation gh ctx request w).1 = false
        /\ (forall origin destination,
               argument request "originAddress" origin -> origin <> ""%string ->
               argument request "destinationAddress" destination -> destination <> ""%string ->
               (handleDistanceCalculation gh ctx request w).1
               = Err (errorString "no routes found in response")).
Proof.
  intros Net gh resp body rb Hr Hb Hroutes.
  assert (Hp : processResponse gh resp = Err (errorString "no routes found in response")).
  { rewrite (processResponse_ok gh resp body Hr). unfold decodesTo in Hb. rewrite Hb.
    now rewrite (proj2 (len_zero _) Hroutes). }
  split; [exact Hp|]. split.
  { unfold formatResponse. now rewrite (proj2 (len_zero _) Hroutes). }
  intros ctx request w HDo.
  assert (Hv : forall origin destination,
             argument request "originAddress" origin -> origin <> ""%string ->
             argument request "destinationAddress" destination -> destination <> ""%string ->
             (handleDistanceCalculation gh ctx request w).1
             = Err (errorString "no routes found in response")).
  { intros o d Ho Hon Hd Hdn.
    rewrite (handle_valid gh ctx request w o d Ho Hon Hd Hdn). cbn [fst].
    rewrite HDo. cbn [answerTo]. now rewrite Hp. }
  split; [|exact Hv].
  destruct (handle_cases gh ctx request) as [(e & _ & He)|(o & d & Ho & Hon & Hd & Hdn)].
  - now rewrite He.
  - now rewrite (Hv o d Ho Hon Hd Hdn).
Qed.

Lemma no_routes_is_an_error_witness :
  processResponse (handler_test.answering 200 handler_test.noRoutes)
    (handler_test.createMockResponse 200 handler_test.noRoutes)
  = Err (errorString "no routes found in response")
  /\ (handleDistanceCalculation (handler_test.answering 200 handler_test.noRoutes)
        context.Background handler_test.newYorkToLosAngeles (handler_test.world [])).1
     = Err (errorString "no routes found in response").
Proof.
  destruct (no_routes_is_an_error unit (handler_test.answering 200 handler_test.noRoutes)
              (handler_test.createMockResponse 200 handler_test.noRoutes)
              handler_test.noRoutes {| Routes := slices.mk [] [] |}) as (Hp & _ & Hh).
  - split; reflexivity.
  - vm_compute; reflexivity.
  - reflexivity.
  - split; [exact Hp|].
    destruct (Hh context.Background handler_test.newYorkToLosAngeles (handler_test.world []))
      as [_ Hv]; [reflexivity|].
    apply (Hv "New York" "Los Angeles")%string.
    + vm_compute; reflexivity.
    + discriminate.
    + vm_compute; reflexivity.
    + discriminate.
Defined.

Lemma providerHeaders_size (key : string) : size (providerHeaders key) = 3%nat.
Proof.
  unfold providerHeaders.
  rewrite map_size_insert_None.
  2:{ rewrite lookup_insert_ne by discriminate. now rewrite lookup_singleton_ne. }
  rewrite map_size_insert_None by now rewrite lookup_singleton_ne.
  now rewrite map_size_singleton.
Qed.

Lemma providerHeaders_get (key : string) :
  http.Header_Get (providerHeaders key) "Content-Type" = "application/json"%string
  /\ http.Header_Get (providerHeaders key) "X-Goog-Api-Key" = key
  /\ http.Header_Get (providerHeaders key) "X-Goog-FieldMask"
     = "routes.duration,routes.routeLabels,routes.distanceMeters"%string.
Proof.
  unfold http.Header_Get, providerHeaders.
  change (http.CanonicalMIMEHeaderKey "Content-Type") with "Content-Type"%string.
  change (http.CanonicalMIMEHeaderKey "X-Goog-Api-Key") with "X-Goog-Api-Key"%string.
  change (http.CanonicalMIMEHeaderKey "X-Goog-FieldMask") with "X-Goog-Fieldmask"%string.
  repeat split.
Qed.

(** C6.  A call that passes argument extraction and validation hands
    exactly one request to the client, whatever the client answers (an
    error, a status other than 200, a body that does not decode): a POST
    to the provider URL carrying three headers and no other, Content-Type
    application/json, X-Goog-Api-Key with the handler's key, and
    X-Goog-FieldMask routes.duration,routes.routeLabels,routes.distanceMeters
    (header names are matched up to case, as [Header.Get] does). *)
Theorem handleDistanceCalculation_one_request :
  forall (Net : Type) (gh : GeodistanceHandler Net) (ctx : context.Context)
         (request : mcp.CallToolRequest) (w : World Net) (origin destination : string),
    argument request "originAddress" origin -> origin <> ""%string ->
    argument request "destinationAddress" destination -> destination <> ""%string ->
    exists req,
      sent (handleDistanceCalculation gh ctx request w).2 = sent w ++ [req]
      /\ http.Method req = "POST"%string
      /\ http.URL req = "https://routes.googleapis.com/distanceMatrix/v2:computeRouteMatrix"%string
      /\ size (http.Header_ req) = 3%nat
      /\ http.Header_Get (http.Header_ req) "Content-Type" = "application/json"%string
      /\ http.Header_Get (http.Header_ req) "X-Goog-Api-Key" = apiKey gh
      /\ http.Header_Get (http.Header_ req) "X-Goog-FieldMask"
         = "routes.duration,routes.routeLabels,routes.distanceMeters"%string
      /\ http.Body req
         = marshalRequestBody
             (buildRequestBody gh (slices.lit [ {| Address := origin |} ])
                                  (slices.lit [ {| Address_ := destination |} ])).
Proof.
  intros Net gh ctx request w origin destination Ho Hon Hd Hdn.
  exists (outbound (apiKey gh) ctx origin destination).
  rewrite (handle_valid gh ctx request w origin destination Ho Hon Hd Hdn).
  cbn [snd sent outbound http.Method http.URL http.Header_ http.Body].
  destruct (providerHeaders_get (apiKey gh)) as (H1 & H2 & H3).
  repeat split; auto using providerHeaders_size.
Qed.

Lemma handleDistanceCalculation_one_request_witness :
  exists req,
    sent (handleDistanceCalculation (handler_test.handler (fun _ => Err (errorString "network error")))
            context.Background handler_test.newYorkToLosAngeles (handler_test.world [])).2
    = sent (handler_test.world []) ++ [req]
    /\ http.Method req = "POST"%string
    /\ http.URL req = "https://routes.googleapis.com/distanceMatrix/v2:computeRouteMatrix"%string
    /\ size (http.Header_ req) = 3%nat
    /\ http.Header_Get (http.Header_ req) "Content-Type" = "application/json"%string
    /\ http.Header_Get (http.Header_ req) "X-Goog-Api-Key" = "test-key"%string
    /\ http.Header_Get (http.Header_ req) "X-Goog-FieldMask"
       = "routes.duration,routes.routeLabels,routes.distanceMeters"%string
    /\ http.Body req
       = marshalRequestBody
           (buildRequestBody (handler_test.handler (fun _ => Err (errorString "network error")))
              (slices.lit [ {| Address := "New York" |} ])
              (slices.lit [ {| Address_ := "Los Angeles" |} ])).
Proof.
  apply (handleDistanceCalculation_one_request unit
           (handler_test.handler (fun _ => Err (errorString "network error")))
           context.Background handler_test.newYorkToLosAngeles (handler_test.world [])
           "New York" "Los Angeles").
  - vm_compute; reflexivity.
  - discriminate.
  - vm_compute; reflexivity.
  - discriminate.
Defined.

(** *** Construction *)

Section Construction.
Context {Net : Type} (http_Client : Z -> HTTPClient Net).

Lemma construct_unset (c : HTTPClient Net) (w : World Net) :
  environ w !! "GOOGLE_API_KEY" = None \/ environ w !! "GOOGLE_API_KEY" = Some ""%string ->
  NewGeodistanceHandlerWithClient c w = (Err notSet, w).
Proof.
  intros H. unfold NewGeodistanceHandlerWithClient, bind, Getenv, ret.
  destruct H as [-> | ->]; reflexivity.
Qed.

Lemma construct_set (c : HTTPClient Net) (w : World Net) (key : string) :
  environ w !! "GOOGLE_API_KEY" = Some key -> key <> ""%string ->
  NewGeodistanceHandlerWithClient c w = (Ok {| apiKey := key; client := c |}, w).
Proof.
  intros H Hk. unfold NewGeodistanceHandlerWithClient, bind, Getenv, ret.
  rewrite H. change (default ""%string (Some key)) with key.
  now rewrite (eqb_empty _ Hk).
Qed.

End Construction.

(** C9.  With GOOGLE_API_KEY absent or empty, building the handler fails
    with "GOOGLE_API_KEY environment variable not set", building the
    server fails with the same error, and there is no server.  With the
    variable set, the handler is built holding the key; from then on a
    call never reads the environment (its result and its requests are the
    same whatever the environment has become), every request it sends
    carries the key held, and a call with two non-empty addresses does
    send its request, with that key, even when the variable has since
    been unset or changed. *)
Theorem api_key_read_at_construction :
  forall (Net : Type) (http_Client : Z -> HTTPClient Net) (c : HTTPClient Net)
         (Version : string) (w : World Net),
    (environ w !! "GOOGLE_API_KEY" = None \/ environ w !! "GOOGLE_API_KEY" = Some ""%string ->
     let unset := Err (errorString "GOOGLE_API_KEY environment variable not set") in
     NewGeodistanceHandlerWithClient c w = (unset, w)
     /\ NewGeodistanceHandler http_Client w = (unset, w)
     /\ NewGeodistanceServer http_Client Version w
        = (Err (errorString "GOOGLE_API_KEY environment variable not set"), w)
     /\ GeodistanceServer http_Client Version w
        = (Err (errorString "GOOGLE_API_KEY environment variable not set"), w))
    /\ (forall key,
           environ w !! "GOOGLE_API_KEY" = Some key -> key <> ""%string ->
           let gh := {| apiKey := key; client := c |} in
           NewGeodistanceHandlerWithClient c w = (Ok gh, w)
           /\ is_ok (NewGeodistanceServer http_Client Version w).1 = true
           /\ is_ok (GeodistanceServer http_Client Version w).1 = true
           /\ forall ctx request w' env,
               (handleDistanceCalculation gh ctx request (withEnviron env w')).1
               = (handleDistanceCalculation gh ctx request w').1
               /\ sent (handleDistanceCalculation gh ctx request (withEnviron env w')).2
                  = sent (handleDistanceCalculation gh ctx request w').2
               /\ (handleDistanceCalculation gh ctx request w').1 <> Err notSet
               /\ (forall req,
                      In req (sent (handleDistanceCalculation gh ctx request w').2) ->
                      In req (sent w')
                      \/ http.Header_Get (http.Header_ req) "X-Goog-Api-Key" = key)
               /\ forall origin destination,
                   argument request "originAddress" origin -> origin <> ""%string ->
                   argument request "destinationAddress" destination ->
                   destination <> ""%string ->
                   exists req,
                     sent (handleDistanceCalculation gh ctx request (withEnviron env w')).2
                     = sent w' ++ [req]
                     /\ http.Header_Get (http.Header_ req) "X-Goog-Api-Key" = key).
Proof.
  intros Net http_Client c Version w. split.
  - intros H unset. subst unset.
    pose proof (construct_unset c w H) as H1.
    pose proof (construct_unset (http_Client (30 * Second)) w H) as H2.
    fold (NewGeodistanceHandler http_Client) in H2.
    repeat split; auto.
    + unfold NewGeodistanceServer, bind. now rewrite H2.
    + unfold GeodistanceServer, bind. now rewrite H2.
  - intros key Hk Hne gh.
    pose proof (construct_set (http_Client (30 * Second)) w key Hk Hne) as H2.
    fold (NewGeodistanceHandler http_Client) in H2.
    split; [now apply construct_set|].
    split; [unfold NewGeodistanceServer, bind; now rewrite H2|].
    split; [unfold GeodistanceServer, bind; now rewrite H2|].
    intros ctx request w' env.
    split; [rewrite handle_environ; reflexivity|].
    split; [rewrite handle_environ; reflexivity|].
    split; [|split].
    + destruct (handle_cases gh ctx request) as [(e & Ha & He)|(o & d & Ho & Hon & Hd & Hdn)].
      * rewrite He. cbn [fst]. destruct Ha; discriminate.
      * rewrite (handle_valid gh ctx request w' o d Ho Hon Hd Hdn). cbn [fst].
        unfold answerTo. destruct (Do _ _ _).1 as [resp|err]; [|discriminate].
        destruct (processResponse gh resp) as [rb|e] eqn:E.
        -- unfold formatResponse. destruct (_ =? _); [discriminate|].
           destruct (slices.index _ _); discriminate.
        -- revert E. unfold processResponse.
           destruct (negb _); [destruct (io.ReadAll _); intros E; inversion E; discriminate|].
           destruct (io.ReadAll _) as [b [er|]]; [intros E; inversion E; discriminate|].
           destruct (json_Unmarshal _ _); [|intros E; inversion E; discriminate].
           destruct (_ =? _); intros E; inversion E; discriminate.
    + intros req Hin.
      destruct (handle_cases gh ctx request) as [(e & Ha & He)|(o & d & Ho & Hon & Hd & Hdn)].
      * rewrite He in Hin. now left.
      * rewrite (handle_valid gh ctx request w' o d Ho Hon Hd Hdn) in Hin.
        cbn [snd sent] in Hin. apply in_app_or in Hin.
        destruct Hin as [Hin|[<-|[]]]; [now left|].
        right. destruct (providerHeaders_get key) as (_ & Hkey & _). exact Hkey.
    + intros o d Ho Hon Hd Hdn.
      rewrite (handle_valid gh ctx request (withEnviron env w') o d Ho Hon Hd Hdn).
      cbn [snd sent withEnviron]. eexists. split; [reflexivity|].
      destruct (providerHeaders_get key) as (_ & Hkey & _). exact Hkey.
Qed.

Lemma api_key_read_at_construction_witness :
  NewGeodistanceServer handler_test.unreachable Version (handler_test.world [])
  = (Err (errorString "GOOGLE_API_KEY environment variable not set"), handler_test.world [])
  /\ NewGeodistanceHandlerWithClient (handler_test.unreachable 0)
       (handler_test.world [("GOOGLE_API_KEY", "test-api-key")])
     = (Ok {| apiKey := "test-api-key"; client := handler_test.unreachable 0 |},
        handler_test.world [("GOOGLE_API_KEY", "test-api-key")])
  /\ exists req,
      sent (handleDistanceCalculation
              {| apiKey := "test-api-key"; client := handler_test.unreachable 0 |}
              context.Background handler_test.newYorkToLosAngeles
              (withEnviron ∅ (handler_test.world [("GOOGLE_API_KEY", "test-api-key")]))).2
      = sent (handler_test.world [("GOOGLE_API_KEY", "test-api-key")]) ++ [req]
      /\ http.Header_Get (http.Header_ req) "X-Goog-Api-Key" = "test-api-key"%string.
Proof.
  split; [|split].
  - destruct (proj1 (api_key_read_at_construction unit handler_test.unreachable
                       (handler_test.unreachable 0) Version (handler_test.world [])))
      as (_ & _ & H & _); [left; reflexivity | exact H].
  - destruct (proj2 (api_key_read_at_construction unit handler_test.unreachable
                       (handler_test.unreachable 0) Version
                       (handler_test.world [("GOOGLE_API_KEY", "test-api-key")]))
                    "test-api-key"%string) as (H & _); [reflexivity | discriminate | exact H].
  - destruct (proj2 (api_key_read_at_construction unit handler_test.unreachable
                       (handler_test.unreachable 0) Version
                       (handler_test.world [("GOOGLE_API_KEY", "test-api-key")]))
                    "test-api-key"%string) as (_ & _ & _ & H); [reflexivity | discriminate |].
    destruct (H context.Background handler_test.newYorkToLosAngeles
                (handler_test.world [("GOOGLE_API_KEY", "test-api-key")]) ∅)
      as (_ & _ & _ & _ & Hsends).
    apply (Hsends "New York"%string "Los Angeles"%string);
      [reflexivity | discriminate | reflexivity | discriminate].
Defined.

(** *** The registered tool *)

Section Registration.
Context {Net : Type} (http_Client : Z -> HTTPClient Net).

(** The later revision of server.go registers the two addresses. *)
Lemma GeodistanceServer_registers_addresses (Version : string) (w : World Net) (key : string) :
  environ w !! "GOOGLE_API_KEY" = Some key -> key <> ""%string ->
  exists s st,
    GeodistanceServer http_Client Version w = (Ok s, w)
    /\ server.tools s !! "calculate_distance" = Some st
    /\ size (server.tools s) = 1%nat
    /\ mcp.Required (mcp.InputSchema (server.Tool_ st))
       = ["originAddress"; "destinationAddress"]%string
    /\ (forall k, In k ["originAddress"; "destinationAddress"]%string ->
          exists p, mcp.Properties (mcp.InputSchema (server.Tool_ st)) !! k = Some p
                    /\ p !! "type" = Some (json.Str "string"))
    /\ server.Handler st
       = handleDistanceCalculation {| apiKey := key; client := http_Client (30 * Second) |}.
Proof.
  intros Hk Hne. unfold GeodistanceServer, bind.
  pose proof (construct_set (http_Client (30 * Second)) w key Hk Hne) as H.
  fold (NewGeodistanceHandler http_Client) in H. rewrite H. unfold ret.
  eexists. eexists. split; [reflexivity|].
  split; [reflexivity|]. split; [reflexivity|]. split; [reflexivity|].
  split; [|reflexivity].
  intros k [<-|[<-|[]]]; eexists; split; reflexivity.
Qed.

End Registration.



(** *** A body without routes *)

Section NotAnObject.
Context {Net : Type} (gh : GeodistanceHandler Net).

(** A JSON text that is neither an object nor [null] does not decode. *)
Lemma processResponse_not_an_object resp body v :
  responds resp http.StatusOK body ->
  json.parse body = Some v ->
  match v with json.Null | json.Object _ => False | _ => True end ->
  processResponse gh resp
  = Err (wrapError "failed to unmarshal response: "
           (UnmarshalTypeError (describe v) "geodistanceserver.ResponseBody")).
Proof.
  intros Hr Hp Hv. rewrite (processResponse_ok gh resp body Hr).
  unfold json_Unmarshal. rewrite Hp. destruct v; try contradiction; reflexivity.
Qed.

End NotAnObject.

(** C10, as amended.  A 200 response whose body is the JSON text [null],
    or a JSON object in which every member whose key names the field
    routes (exactly or up to case, the way [encoding/json] matches keys)
    is [null], and so also an object with no such member, decodes without
    error to a [ResponseBody] with nil routes, and [processResponse] fails
    with "no routes found in response", not with the decode error. *)
Theorem missing_routes_is_empty_result :
  forall (Net : Type) (gh : GeodistanceHandler Net) (resp : http.Response)
         (body : string) (v : json.value),
    responds resp http.StatusOK body ->
    json.parse body = Some v ->
    withoutRoutes v ->
    json_Unmarshal body emptyResponseBody = Ok {| Routes := slices.nil |}
    /\ processResponse gh resp = Err (errorString "no routes found in response").
Proof.
  intros Net gh resp body v Hr Hp Hv.
  pose proof (json_Unmarshal_withoutRoutes body v Hp Hv) as H.
  split; [exact H|].
  rewrite (processResponse_ok gh resp body Hr), H. reflexivity.
Qed.

Lemma missing_routes_is_empty_result_witness :
  json_Unmarshal handler_test.unrelatedObject emptyResponseBody = Ok {| Routes := slices.nil |}
  /\ processResponse (handler_test.answering 200 handler_test.unrelatedObject)
       (handler_test.createMockResponse 200 handler_test.unrelatedObject)
     = Err (errorString "no routes found in response").
Proof.
  apply (missing_routes_is_empty_result unit
           (handler_test.answering 200 handler_test.unrelatedObject)
           (handler_test.createMockResponse 200 handler_test.unrelatedObject)
           handler_test.unrelatedObject
           (json.Object [("error", json.Str "Invalid request")])).
  - split; reflexivity.
  - vm_compute; reflexivity.
  - intros k x [H|[]]. inversion H; subst. vm_compute. discriminate.
Defined.

(** C10, as stated, fails.  The body [[]] is valid JSON and holds no
    routes key, yet [processResponse] fails with the decode error; and the
    body with the key ROUTES holds no key spelled routes, yet it decodes
    to one route and [processResponse] succeeds. *)
Lemma missing_routes_counterexample :
  (json.parse "[]" = Some (json.Array [])
   /\ noRoutesKey (json.Array [])
   /\ processResponse (handler_test.answering 200 "[]") (handler_test.createMockResponse 200 "[]")
      = Err (wrapError "failed to unmarshal response: "
               (UnmarshalTypeError "array" "geodistanceserver.ResponseBody"))
   /\ processResponse (handler_test.answering 200 "[]") (handler_test.createMockResponse 200 "[]")
      <> Err (errorString "no routes found in response"))
  /\ (json.parse handler_test.upperCaseRoutes
      = Some (json.Object [("ROUTES", json.Array [json.Object []])])
      /\ noRoutesKey (json.Object [("ROUTES", json.Array [json.Object []])])
      /\ processResponse (handler_test.answering 200 handler_test.upperCaseRoutes)
           (handler_test.createMockResponse 200 handler_test.upperCaseRoutes)
         = Ok {| Routes := slices.mk [zeroRoute] [] |}).
Proof.
  split; [split; [|split; [|split]]|split; [|split]].
  - vm_compute; reflexivity.
  - exact I.
  - vm_compute; reflexivity.
  - vm_compute; discriminate.
  - vm_compute; reflexivity.
  - intros x [H|[]]. discriminate.
  - vm_compute; reflexivity.
Qed.

(** *** The cases of handler_test.go, run on the model *)

Example test_processResponse_successful :
  processResponse (handler_test.handler (fun _ => Err (errorString "unused")))
    (handler_test.createMockResponse http.StatusOK handler_test.createValidAPIResponse)
  = Ok {| Routes := slices.mk [ {| DistanceMeters := 1000; Duration := "5m";
                                   RouteLabels := slices.mk ["DEFAULT_ROUTE"%string] [] |} ] [] |}.
Proof. vm_compute; reflexivity. Qed.

Example test_processResponse_API_error :
  processResponse (handler_test.handler (fun _ => Err (errorString "unused")))
    (handler_test.createMockResponse http.StatusBadRequest handler_test.unrelatedObject)
  = Err (errorString ("API request failed with status 400: " +:+ handler_test.unrelatedObject)).
Proof. vm_compute; reflexivity. Qed.

Example test_processResponse_invalid_JSON :
  processResponse (handler_test.handler (fun _ => Err (errorString "unused")))
    (handler_test.createMockResponse http.StatusOK "invalid json")
  = Err (wrapError "failed to unmarshal response: " SyntaxError).
Proof. vm_compute; reflexivity. Qed.

Example test_processResponse_no_routes :
  processResponse (handler_test.handler (fun _ => Err (errorString "unused")))
    (handler_test.createMockResponse http.StatusOK handler_test.noRoutes)
  = Err (errorString "no routes found in response").
Proof. vm_compute; reflexivity. Qed.

Example test_formatResponse_empty_routes :
  formatResponse (handler_test.handler (fun _ => Err (errorString "unused")))
    {| Routes := slices.lit [] |}
  = Err (errorString "no routes available").
Proof. vm_compute; reflexivity. Qed.

Example test_callDistanceMatrix_HTTP_error :
  (callDistanceMatrix (handler_test.handler (fun _ => Err (errorString "network error")))
     context.Background (slices.lit [ {| Address := "New York" |} ])
     (slices.lit [ {| Address_ := "Los Angeles" |} ]) (handler_test.world [])).1
  = Err (wrapError "failed to execute request: " (errorString "network error")).
Proof. vm_compute; reflexivity. Qed.

Example test_handleDistanceCalculation_successful :
  (handleDistanceCalculation (handler_test.answering http.StatusOK handler_test.createValidAPIResponse)
     context.Background handler_test.newYorkToLosAngeles (handler_test.world [])).1
  = Ok (textResult "Route distance: 1000 meters, Duration: 5m").
Proof. vm_compute; reflexivity. Qed.

Example test_handleDistanceCalculation_missing_origin :
  handleDistanceCalculation (handler_test.handler (fun _ => Err (errorString "unused")))
    context.Background (handler_test.request [("destinationAddress", json.Str "Los Angeles")])
    (handler_test.world [])
  = (Err (wrapError "missing origin address: " (ArgumentNotFound "originAddress")),
     handler_test.world []).
Proof. vm_compute; reflexivity. Qed.

Example test_handleDistanceCalculation_missing_destination :
  handleDistanceCalculation (handler_test.handler (fun _ => Err (errorString "unused")))
    context.Background (handler_test.request [("originAddress", json.Str "New York")])
    (handler_test.world [])
  = (Err (wrapError "missing destination address: " (ArgumentNotFound "destinationAddress")),
     handler_test.world []).
Proof. vm_compute; reflexivity. Qed.

(** A number with a fraction, and one past the range of [int], are type
    errors for [distanceMeters]. *)
Example decode_distance_not_an_int :
  json_Unmarshal ("{" +:+ json.quote "routes" +:+ ":[{" +:+ json.quote "distanceMeters" +:+ ":1.5}]}")
    emptyResponseBody
  = Err (UnmarshalTypeError "number 1.5" "int")
  /\ json_Unmarshal ("{" +:+ json.quote "routes" +:+ ":[{" +:+ json.quote "distanceMeters"
                     +:+ ":9223372036854775808}]}")
       emptyResponseBody
     = Err (UnmarshalTypeError "number 9223372036854775808" "int").
Proof. split; vm_compute; reflexivity. Qed.

(* ===================================================================== *)
(** ** Further properties of the handler *)
(* ===================================================================== *)

Import Behaviour.

(** X1.  [validateAddresses] accepts exactly the pairs of two non-empty
    addresses, and when both are empty it is the origin it complains
    about. *)
Theorem validateAddresses_accepts_iff :
  forall (Net : Type) (gh : GeodistanceHandler Net) (origin destination : string),
    (validateAddresses gh origin destination = None
     <-> origin <> ""%string /\ destination <> ""%string)
    /\ (origin = ""%string ->
        validateAddresses gh origin destination
        = Some (errorString "origin address cannot be empty"))
    /\ (origin <> ""%string -> destination = ""%string ->
        validateAddresses gh origin destination
        = Some (errorString "destination address cannot be empty")).
Proof.
  intros Net gh o d. unfold validateAddresses.
  destruct (String.eqb_spec o ""), (String.eqb_spec d ""); subst;
    repeat split; try congruence; try discriminate; intros [? ?]; congruence.
Qed.

Lemma validateAddresses_accepts_iff_witness :
  validateAddresses (handler_test.answering 200 "") "" ""
  = Some (errorString "origin address cannot be empty")
  /\ validateAddresses (handler_test.answering 200 "") "New York" ""
     = Some (errorString "destination address cannot be empty").
Proof.
  split.
  - apply (validateAddresses_accepts_iff unit (handler_test.answering 200 "") "" ""). reflexivity.
  - apply (validateAddresses_accepts_iff unit (handler_test.answering 200 "") "New York" "").
    + discriminate.
    + reflexivity.
Defined.

Section Replies.
Context {Net : Type} (gh : GeodistanceHandler Net).

Lemma answerTo_Reply (reply : result http.Response) : Reply reply (answerTo gh reply).
Proof.
  destruct reply as [resp|err]; cbn [answerTo]; [|constructor].
  destruct (Z.eq_dec (http.StatusCode resp) http.StatusOK) as [Hs|Hs].
  2:{ rewrite (processResponse_status gh resp Hs). now constructor. }
  destruct (io.ReadAll (http.RespBody resp)) as [data [err|]] eqn:Hr.
  { unfold processResponse. rewrite Hs, Hr. cbn. econstructor; eauto. }
  assert (Hresp : responds resp http.StatusOK data) by (split; assumption).
  rewrite (processResponse_ok gh resp data Hresp).
  destruct (json_Unmarshal data emptyResponseBody) as [rb|err] eqn:Hd.
  2:{ econstructor; eauto. }
  destruct (slices.elems (Routes rb)) as [|route others] eqn:He.
  - rewrite (proj2 (len_zero _) He). econstructor; eauto.
  - rewrite (len_cons _ _ _ He). unfold formatResponse.
    rewrite (len_cons _ _ _ He), (index_first _ _ _ He). econstructor; eauto.
Qed.

Lemma handle_outcomes (ctx : context.Context) (request : mcp.CallToolRequest) (w : World Net) :
  (exists e,
      ArgumentError e /\ handleDistanceCalculation gh ctx request w = (Err e, w))
  \/ (exists origin destination,
         argument request "originAddress" origin /\ origin <> ""%string
         /\ argument request "destinationAddress" destination /\ destination <> ""%string
         /\ Reply (Do (client gh) (outbound (apiKey gh) ctx origin destination) (net w)).1
                  (handleDistanceCalculation gh ctx request w).1
         /\ (handleDistanceCalculation gh ctx request w).2
            = {| environ := environ w;
                 net := (Do (client gh) (outbound (apiKey gh) ctx origin destination) (net w)).2;
                 sent := sent w ++ [outbound (apiKey gh) ctx origin destination] |}).
Proof.
  destruct (handle_cases gh ctx request) as [(e & Ha & He)|(o & d & Ho & Hon & Hd & Hdn)].
  - left. exists e. auto.
  - right. exists o, d. rewrite (handle_valid gh ctx request w o d Ho Hon Hd Hdn).
    cbn [fst snd]. repeat split; auto. apply answerTo_Reply.
Qed.

End Replies.

(** X2.  Every call of the handler ends in one of these ways and no
    other.  Either it stops at its arguments, with an argument error (a
    missing argument, one that is not a string, an empty address) and the
    world untouched; or it hands exactly one request to the client and
    returns what the reply determines: the client's error wrapped under
    "failed to execute request: ", the status error, the read error, the
    decode error, "no routes found in response", or the one text block of
    the first route.  The errors pass through as they are. *)
Theorem handleDistanceCalculation_outcomes :
  forall (Net : Type) (gh : GeodistanceHandler Net) (ctx : context.Context)
         (request : mcp.CallToolRequest) (w : World Net),
    (exists e,
        ArgumentError e /\ handleDistanceCalculation gh ctx request w = (Err e, w))
    \/ (exists origin destination,
           argument request "originAddress" origin /\ origin <> ""%string
           /\ argument request "destinationAddress" destination /\ destination <> ""%string
           /\ Reply (Do (client gh) (outbound (apiKey gh) ctx origin destination) (net w)).1
                    (handleDistanceCalculation gh ctx request w).1
           /\ (handleDistanceCalculation gh ctx request w).2
              = {| environ := environ w;
                   net := (Do (client gh) (outbound (apiKey gh) ctx origin destination) (net w)).2;
                   sent := sent w ++ [outbound (apiKey gh) ctx origin destination] |}).
Proof. intros Net gh ctx request w. apply handle_outcomes. Qed.

(** X3.  When the client's [Do] fails, the handler fails with the
    client's error wrapped, not replaced: the message is "failed to
    execute request: " followed by the message of the cause. *)
Theorem handleDistanceCalculation_transport_error :
  forall (Net : Type) (gh : GeodistanceHandler Net) (ctx : context.Context)
         (request : mcp.CallToolRequest) (w : World Net)
         (origin destination : string) (err : error) (n : Net),
    argument request "originAddress" origin -> origin <> ""%string ->
    argument request "destinationAddress" destination -> destination <> ""%string ->
    Do (client gh) (outbound (apiKey gh) ctx origin destination) (net w) = (Err err, n) ->
    (handleDistanceCalculation gh ctx request w).1
    = Err (wrapError "failed to execute request: " err)
    /\ forall text,
        Error text (wrapError "failed to execute request: " err)
        = ("failed to execute request: " +:+ Error text err)%string.
Proof.
  intros Net gh ctx request w o d err n Ho Hon Hd Hdn HDo.
  rewrite (handle_valid gh ctx request w o d Ho Hon Hd Hdn). cbn [fst].
  rewrite HDo. split; reflexivity.
Qed.

Lemma handleDistanceCalculation_transport_error_witness :
  (handleDistanceCalculation (handler_test.handler (fun _ => Err (errorString "network error")))
     context.Background handler_test.newYorkToLosAngeles (handler_test.world [])).1
  = Err (wrapError "failed to execute request: " (errorString "network error"))
  /\ forall text,
      Error text (wrapError "failed to execute request: " (errorString "network error"))
      = "failed to execute request: network error"%string.
Proof.
  apply (handleDistanceCalculation_transport_error unit
           (handler_test.handler (fun _ => Err (errorString "network error")))
           context.Background handler_test.newYorkToLosAngeles (handler_test.world [])
           "New York" "Los Angeles" (errorString "network error") tt).
  - vm_compute; reflexivity.
  - discriminate.
  - vm_compute; reflexivity.
  - discriminate.
  - reflexivity.
Defined.

(** X4.  A body that cannot be read to its end is an error only under
    status 200: there [processResponse] fails with the reader's error
    wrapped under "failed to read response body: " and does not look at
    the bytes read, even if they decode; under any other status the
    reader's error is dropped and the bytes read so far go into the status
    error. *)
Theorem processResponse_read_error :
  forall (Net : Type) (gh : GeodistanceHandler Net) (resp : http.Response)
         (data : string) (err : error),
    io.ReadAll (http.RespBody resp) = (data, Some err) ->
    (http.StatusCode resp = http.StatusOK ->
     processResponse gh resp = Err (wrapError "failed to read response body: " err))
    /\ (http.StatusCode resp <> http.StatusOK ->
        processResponse gh resp
        = Err (errorString ("API request failed with status " +:+ fmt_d (http.StatusCode resp)
                            +:+ ": " +:+ data))).
Proof.
  intros Net gh resp data err Hr. split; intros Hs.
  - unfold processResponse. rewrite Hs, Hr. reflexivity.
  - rewrite (processResponse_status gh resp Hs), Hr. reflexivity.
Qed.

Lemma processResponse_read_error_witness :
  processResponse (handler_test.answering 200 "")
    {| http.StatusCode := 200;
       http.RespBody := {| io.data := handler_test.createValidAPIResponse;
                           io.failure := Some (errorString "unexpected EOF") |} |}
  = Err (wrapError "failed to read response body: " (errorString "unexpected EOF"))
  /\ processResponse (handler_test.answering 200 "")
       {| http.StatusCode := 502;
          http.RespBody := {| io.data := "Bad Gate";
                              io.failure := Some (errorString "unexpected EOF") |} |}
     = Err (errorString "API request failed with status 502: Bad Gate").
Proof.
  split.
  - apply (processResponse_read_error unit (handler_test.answering 200 "")
             {| http.StatusCode := 200;
                http.RespBody := {| io.data := handler_test.createValidAPIResponse;
                                    io.failure := Some (errorString "unexpected EOF") |} |}
             handler_test.createValidAPIResponse (errorString "unexpected EOF"));
      reflexivity.
  - apply (processResponse_read_error unit (handler_test.answering 200 "")
             {| http.StatusCode := 502;
                http.RespBody := {| io.data := "Bad Gate";
                                    io.failure := Some (errorString "unexpected EOF") |} |}
             "Bad Gate"%string (errorString "unexpected EOF")).
    + reflexivity.
    + discriminate.
Defined.

(** X5.  What [processResponse] returns without error always has a first
    route, so [formatResponse] succeeds on it: on the handler's path the
    guard "no routes available" of [formatResponse] is never taken, and no
    call of the handler returns that error. *)
Theorem formatResponse_after_processResponse :
  forall (Net : Type) (gh : GeodistanceHandler Net),
    (forall resp responseBody,
        processResponse gh resp = Ok responseBody ->
        exists route others,
          slices.elems (Routes responseBody) = route :: others
          /\ formatResponse gh responseBody
             = Ok (textResult ("Route distance: " +:+ fmt_d (DistanceMeters route)
                               +:+ " meters, Duration: " +:+ Duration route)))
    /\ forall ctx request w,
        (handleDistanceCalculation gh ctx request w).1
        <> Err (errorString "no routes available").
Proof.
  intros Net gh. split.
  - intros resp rb. unfold processResponse.
    destruct (negb _); [destruct (io.ReadAll _); discriminate|].
    destruct (io.ReadAll _) as [b [e|]]; [discriminate|].
    destruct (json_Unmarshal _ _) as [rb'|]; [|discriminate].
    destruct (slices.len (Routes rb') =? 0) eqn:E; [discriminate|].
    intros H. inversion H; subst rb'.
    destruct (index_nonempty _ E) as (route & others & He).
    exists route, others. split; [exact He|].
    unfold formatResponse. now rewrite E, (index_first _ _ _ He).
  - intros ctx request w.
    destruct (handle_outcomes gh ctx request w)
      as [(e & Ha & He)|(o & d & _ & _ & _ & _ & HR & _)].
    + rewrite He. cbn [fst]. destruct Ha; discriminate.
    + inversion HR; try discriminate.
Qed.

Lemma formatResponse_after_processResponse_witness :
  exists route others,
    slices.elems (Routes (storedResponse
                            {| Routes := slices.lit [ {| DistanceMeters := 1000;
                                                         Duration := "5m";
                                                         RouteLabels := slices.lit ["DEFAULT_ROUTE"%string] |} ] |}))
    = route :: others
    /\ formatResponse (handler_test.answering 200 handler_test.createValidAPIResponse)
         (storedResponse
            {| Routes := slices.lit [ {| DistanceMeters := 1000;
                                         Duration := "5m";
                                         RouteLabels := slices.lit ["DEFAULT_ROUTE"%string] |} ] |})
       = Ok (textResult ("Route distance: " +:+ fmt_d (DistanceMeters route)
                         +:+ " meters, Duration: " +:+ Duration route)).
Proof.
  destruct (formatResponse_after_processResponse unit
              (handler_test.answering 200 handler_test.createValidAPIResponse)) as [H _].
  apply (H (handler_test.createMockResponse 200 handler_test.createValidAPIResponse)).
  vm_compute. reflexivity.
Defined.

(** X7.  An originAddress that is missing, or present but not a string
    (a number, a boolean, null, a list, an object), stops the call at
    once, whatever the destination is: the error is "missing origin
    address: " wrapping the extraction error, and the world is untouched. *)
Theorem handleDistanceCalculation_origin_extraction :
  forall (Net : Type) (gh : GeodistanceHandler Net) (ctx : context.Context)
         (request : mcp.CallToolRequest) (w : World Net),
    (mcp.GetArguments request !! "originAddress" = None ->
     handleDistanceCalculation gh ctx request w
     = (Err (wrapError "missing origin address: " (ArgumentNotFound "originAddress")), w))
    /\ (notAString request "originAddress" ->
        handleDistanceCalculation gh ctx request w
        = (Err (wrapError "missing origin address: " (ArgumentNotString "originAddress")), w)).
Proof.
  intros Net gh ctx request w. unfold handleDistanceCalculation, mcp.RequireString. split.
  - intros ->. reflexivity.
  - intros (v & -> & Hv). destruct v; try contradiction; reflexivity.
Qed.

Lemma handleDistanceCalculation_origin_extraction_witness :
  handleDistanceCalculation (handler_test.answering 200 handler_test.createValidAPIResponse)
    context.Background (handler_test.request []) (handler_test.world [])
  = (Err (wrapError "missing origin address: " (ArgumentNotFound "originAddress")),
     handler_test.world [])
  /\ handleDistanceCalculation (handler_test.answering 200 handler_test.createValidAPIResponse)
       context.Background
       (handler_test.request [("originAddress", json.Number "40.7");
                              ("destinationAddress", json.Str "Los Angeles")])
       (handler_test.world [])
     = (Err (wrapError "missing origin address: " (ArgumentNotString "originAddress")),
        handler_test.world []).
Proof.
  split.
  - apply (handleDistanceCalculation_origin_extraction unit). reflexivity.
  - apply (handleDistanceCalculation_origin_extraction unit).
    exists (json.Number "40.7"). split; [vm_compute; reflexivity | exact I].
Defined.

(** X8.  The destination is extracted before anything is validated: with
    an originAddress that is a string, even the empty one, a
    destinationAddress that is missing or not a string fails the call with
    "missing destination address: ", not with the complaint about the
    empty origin. *)
Theorem handleDistanceCalculation_destination_extraction :
  forall (Net : Type) (gh : GeodistanceHandler Net) (ctx : context.Context)
         (request : mcp.CallToolRequest) (w : World Net) (origin : string),
    argument request "originAddress" origin ->
    (mcp.GetArguments request !! "destinationAddress" = None ->
     handleDistanceCalculation gh ctx request w
     = (Err (wrapError "missing destination address: " (ArgumentNotFound "destinationAddress")), w))
    /\ (notAString request "destinationAddress" ->
        handleDistanceCalculation gh ctx request w
        = (Err (wrapError "missing destination address: "
                  (ArgumentNotString "destinationAddress")), w)).
Proof.
  intros Net gh ctx request w o Ho.
  unfold handleDistanceCalculation, mcp.RequireString. rewrite Ho. split.
  - intros ->. reflexivity.
  - intros (v & -> & Hv). destruct v; try contradiction; reflexivity.
Qed.

Lemma handleDistanceCalculation_destination_extraction_witness :
  handleDistanceCalculation (handler_test.answering 200 handler_test.createValidAPIResponse)
    context.Background (handler_test.request [("originAddress", json.Str "")])
    (handler_test.world [])
  = (Err (wrapError "missing destination address: " (ArgumentNotFound "destinationAddress")),
     handler_test.world []).
Proof.
  apply (handleDistanceCalculation_destination_extraction unit
           (handler_test.answering 200 handler_test.createValidAPIResponse)
           context.Background (handler_test.request [("originAddress", json.Str "")])
           (handler_test.world []) "").
  - vm_compute; reflexivity.
  - reflexivity.
Defined.

(** X9.  The handler reads two arguments and nothing else of the call:
    two requests that agree on originAddress and destinationAddress get
    the same result and leave the same world, whatever their tool name
    and their other arguments. *)
Theorem handleDistanceCalculation_reads_two_arguments :
  forall (Net : Type) (gh : GeodistanceHandler Net) (ctx : context.Context)
         (request1 request2 : mcp.CallToolRequest) (w : World Net),
    sameAddresses request1 request2 ->
    handleDistanceCalculation gh ctx request1 w = handleDistanceCalculation gh ctx request2 w.
Proof.
  intros Net gh ctx r1 r2 w [Ho Hd].
  unfold handleDistanceCalculation, mcp.RequireString. now rewrite Ho, Hd.
Qed.

Lemma handleDistanceCalculation_reads_two_arguments_witness :
  handleDistanceCalculation (handler_test.answering 200 handler_test.createValidAPIResponse)
    context.Background handler_test.newYorkToLosAngeles (handler_test.world [])
  = handleDistanceCalculation (handler_test.answering 200 handler_test.createValidAPIResponse)
      context.Background
      {| mcp.Params :=
           {| mcp.Name := "another_tool";
              mcp.Arguments_ :=
                mcp.ArgMap (list_to_map [ ("originAddress", json.Str "New York");
                                          ("destinationAddress", json.Str "Los Angeles");
                                          ("originLatitude", json.Number "40.7");
                                          ("units", json.Str "miles") ]) |} |}
      (handler_test.world []).
Proof.
  apply (handleDistanceCalculation_reads_two_arguments unit).
  split; vm_compute; reflexivity.
Defined.

(** X10.  Whatever the call, the handler leaves the environment as it
    was and hands the client at most one request; when it hands none, the
    state behind the client is untouched too. *)
Theorem handleDistanceCalculation_at_most_one_request :
  forall (Net : Type) (gh : GeodistanceHandler Net) (ctx : context.Context)
         (request : mcp.CallToolRequest) (w : World Net),
    environ (handleDistanceCalculation gh ctx request w).2 = environ w
    /\ ((handleDistanceCalculation gh ctx request w).2 = w
        \/ exists req,
            sent (handleDistanceCalculation gh ctx request w).2 = sent w ++ [req]
            /\ net (handleDistanceCalculation gh ctx request w).2
               = (Do (client gh) req (net w)).2).
Proof.
  intros Net gh ctx request w.
  destruct (handle_outcomes gh ctx request w)
    as [(e & Ha & He)|(o & d & _ & _ & _ & _ & _ & Hw)].
  - rewrite He. cbn [snd]. auto.
  - rewrite Hw. cbn [environ sent net]. split; [reflexivity|]. right. eauto.
Qed.

(** X11.  Nothing is kept from one call to the next: two accepted calls
    in a row hand the client two requests, in order, even when the two
    calls are the same. *)
Theorem handleDistanceCalculation_twice :
  forall (Net : Type) (gh : GeodistanceHandler Net) (ctx : context.Context)
         (request1 request2 : mcp.CallToolRequest) (w : World Net)
         (origin1 destination1 origin2 destination2 : string),
    argument request1 "originAddress" origin1 -> origin1 <> ""%string ->
    argument request1 "destinationAddress" destination1 -> destination1 <> ""%string ->
    argument request2 "originAddress" origin2 -> origin2 <> ""%string ->
    argument request2 "destinationAddress" destination2 -> destination2 <> ""%string ->
    sent (bind (handleDistanceCalculation gh ctx request1)
               (fun _ => handleDistanceCalculation gh ctx request2) w).2
    = sent w ++ [ outbound (apiKey gh) ctx origin1 destination1;
                  outbound (apiKey gh) ctx origin2 destination2 ].
Proof.
  intros Net gh ctx r1 r2 w o1 d1 o2 d2 Ho1 Hon1 Hd1 Hdn1 Ho2 Hon2 Hd2 Hdn2.
  unfold bind. rewrite (handle_valid gh ctx r1 w o1 d1 Ho1 Hon1 Hd1 Hdn1).
  rewrite (handle_valid gh ctx r2 _ o2 d2 Ho2 Hon2 Hd2 Hdn2).
  cbn [snd sent]. now rewrite <- app_assoc.
Qed.

Lemma handleDistanceCalculation_twice_witness :
  sent (bind (handleDistanceCalculation
                (handler_test.answering 200 handler_test.createValidAPIResponse)
                context.Background handler_test.newYorkToLosAngeles)
             (fun _ => handleDistanceCalculation
                         (handler_test.answering 200 handler_test.createValidAPIResponse)
                         context.Background handler_test.newYorkToLosAngeles)
             (handler_test.world [])).2
  = sent (handler_test.world [])
    ++ [ outbound "test-key" context.Background "New York" "Los Angeles";
         outbound "test-key" context.Background "New York" "Los Angeles" ].
Proof.
  apply (handleDistanceCalculation_twice unit
           (handler_test.answering 200 handler_test.createValidAPIResponse)
           context.Background handler_test.newYorkToLosAngeles handler_test.newYorkToLosAngeles
           (handler_test.world []) "New York" "Los Angeles" "New York" "Los Angeles");
    solve [vm_compute; reflexivity | discriminate].
Defined.

(** X12.  [callDistanceMatrix] checks nothing about the slices it is
    given: for every pair of slices, nil and empty ones included, building
    the request succeeds and exactly one request goes to the client, with
    the marshalled payload as its body; the result is the client's error
    wrapped, or else whatever [processResponse] makes of the response. *)
Theorem callDistanceMatrix_sends_once :
  forall (Net : Type) (gh : GeodistanceHandler Net) (ctx : context.Context)
         (origins : slices.slice Origin) (destinations : slices.slice Destination)
         (w : World Net),
    exists req,
      createRequest gh ctx (buildRequestBody gh origins destinations) = Ok req
      /\ http.Body req = marshalRequestBody (buildRequestBody gh origins destinations)
      /\ http.Header_ req = providerHeaders (apiKey gh)
      /\ sent (callDistanceMatrix gh ctx origins destinations w).2 = sent w ++ [req]
      /\ (callDistanceMatrix gh ctx origins destinations w).1
         = match (Do (client gh) req (net w)).1 with
           | Err err => Err (wrapError "failed to execute request: " err)
           | Ok resp => processResponse gh resp
           end.
Proof.
  intros Net gh ctx origins destinations w. eexists.
  split; [apply createRequest_ok|]. split; [reflexivity|]. split; [reflexivity|].
  unfold callDistanceMatrix. rewrite createRequest_ok. unfold bind, callDo, ret.
  destruct (Do _ _ _) as [[resp|err] n]; split; reflexivity.
Qed.

Section Servers.
Context {Net : Type} (http_Client : Z -> HTTPClient Net).

Lemma NewGeodistanceHandler_world (w : World Net) :
  (NewGeodistanceHandler http_Client w).2 = w.
Proof.
  unfold NewGeodistanceHandler, NewGeodistanceHandlerWithClient, bind, Getenv, ret.
  cbn. destruct (String.eqb _ _); reflexivity.
Qed.

Lemma servers_world (Version : string) (w : World Net) :
  (NewGeodistanceServer http_Client Version w).2 = w
  /\ (GeodistanceServer http_Client Version w).2 = w.
Proof.
  unfold NewGeodistanceServer, GeodistanceServer, bind.
  pose proof (NewGeodistanceHandler_world w) as H.
  destruct (NewGeodistanceHandler http_Client w) as [[h|e] w']; cbn in H; subst w';
    split; reflexivity.
Qed.

End Servers.

(** X13.  The server of the later revision declares what its handler
    reads: a call that gives a non-empty string for each argument the
    registered tool requires passes extraction and validation, and the
    registered handler hands the client its one request. *)
Theorem GeodistanceServer_schema_matches_handler :
  forall (Net : Type) (http_Client : Z -> HTTPClient Net) (Version : string)
         (w : World Net) (key : string),
    environ w !! "GOOGLE_API_KEY" = Some key -> key <> ""%string ->
    exists s st,
      GeodistanceServer http_Client Version w = (Ok s, w)
      /\ server.tools s !! "calculate_distance" = Some st
      /\ forall ctx request w',
          (forall k, In k (mcp.Required (mcp.InputSchema (server.Tool_ st))) ->
                     exists v, argument request k v /\ v <> ""%string) ->
          exists req,
            sent (server.Handler st ctx request w').2 = sent w' ++ [req]
            /\ http.Header_Get (http.Header_ req) "X-Goog-Api-Key" = key.
Proof.
  intros Net http_Client Version w key Hk Hne.
  destruct (GeodistanceServer_registers_addresses http_Client Version w key Hk Hne)
    as (s & st & Hs & Ht & _ & Hreq & _ & Hh).
  exists s, st. split; [exact Hs|]. split; [exact Ht|].
  intros ctx request w' Hargs. rewrite Hreq in Hargs. rewrite Hh.
  destruct (Hargs "originAddress"%string) as (o & Ho & Hon); [now left|].
  destruct (Hargs "destinationAddress"%string) as (d & Hd & Hdn); [right; now left|].
  rewrite (handle_valid _ ctx request w' o d Ho Hon Hd Hdn). cbn [snd sent].
  eexists. split; [reflexivity|].
  destruct (providerHeaders_get key) as (_ & Hkey & _). exact Hkey.
Qed.

Lemma GeodistanceServer_schema_matches_handler_witness :
  exists s st,
    GeodistanceServer handler_test.unreachable Version
      (handler_test.world [("GOOGLE_API_KEY", "test-api-key")])
    = (Ok s, handler_test.world [("GOOGLE_API_KEY", "test-api-key")])
    /\ server.tools s !! "calculate_distance" = Some st.
Proof.
  destruct (GeodistanceServer_schema_matches_handler unit handler_test.unreachable Version
              (handler_test.world [("GOOGLE_API_KEY", "test-api-key")]) "test-api-key"%string)
    as (s & st & Hs & Ht & _); [reflexivity | discriminate |].
  exists s, st. auto.
Defined.

(** X14.  Building a handler or a server only reads the environment: in
    every case the world is as before, so no request is sent and nothing
    is set; and a server that is built has the name
    mcp-geodistance-server, the version it was given, resource
    capabilities with subscribe and listChanged on, and the single tool
    calculate_distance. *)
Theorem construction_leaves_world :
  forall (Net : Type) (http_Client : Z -> HTTPClient Net) (c : HTTPClient Net)
         (Version : string) (w : World Net),
    (NewGeodistanceHandlerWithClient c w).2 = w
    /\ (NewGeodistanceHandler http_Client w).2 = w
    /\ (NewGeodistanceServer http_Client Version w).2 = w
    /\ (GeodistanceServer http_Client Version w).2 = w
    /\ forall s,
        (NewGeodistanceServer http_Client Version w).1 = Ok s
        \/ (GeodistanceServer http_Client Version w).1 = Ok s ->
        server.name s = "mcp-geodistance-server"%string
        /\ server.version s = Version
        /\ server.resources s
           = Some {| server.subscribe := true; server.listChanged := true |}
        /\ dom (server.tools s) = {[ "calculate_distance"%string ]}.
Proof.
  intros Net http_Client c Version w.
  split.
  { unfold NewGeodistanceHandlerWithClient, bind, Getenv, ret.
    cbn. destruct (String.eqb _ _); reflexivity. }
  split; [exact (NewGeodistanceHandler_world http_Client w)|].
  destruct (servers_world http_Client Version w) as [Hnew Hlater].
  split; [exact Hnew|]. split; [exact Hlater|]. clear Hnew Hlater.
  intros s. unfold NewGeodistanceServer, GeodistanceServer, bind.
  destruct (NewGeodistanceHandler http_Client w) as [[h|e] w']; cbn [fst ret].
  - intros [H|H]; inversion H; subst s; repeat split;
      cbn [server.tools server.AddTool]; rewrite dom_insert_L, dom_empty_L;
      vm_compute mcp.ToolName; set_solver.
  - intros [H|H]; discriminate.
Qed.

Lemma construction_leaves_world_witness :
  server.name
    (match (GeodistanceServer handler_test.unreachable "1.2.3"
              (handler_test.world [("GOOGLE_API_KEY", "test-api-key")])).1 with
     | Ok s => s
     | Err _ => server.NewMCPServer "" "" []
     end) = "mcp-geodistance-server"%string
  /\ server.version
       (match (GeodistanceServer handler_test.unreachable "1.2.3"
                 (handler_test.world [("GOOGLE_API_KEY", "test-api-key")])).1 with
        | Ok s => s
        | Err _ => server.NewMCPServer "" "" []
        end) = "1.2.3"%string.
Proof.
  destruct (construction_leaves_world unit handler_test.unreachable
              (handler_test.unreachable 0) "1.2.3"
              (handler_test.world [("GOOGLE_API_KEY", "test-api-key")]))
    as (_ & _ & _ & _ & H).
  destruct (H (match (GeodistanceServer handler_test.unreachable "1.2.3"
                        (handler_test.world [("GOOGLE_API_KEY", "test-api-key")])).1 with
               | Ok s => s
               | Err _ => server.NewMCPServer "" "" []
               end)) as (Hn & Hv & _); [right; reflexivity|].
  split; [exact Hn | exact Hv].
Defined.

Section UnknownMembers.

Lemma decodeMembers_routesMembers members cur :
  decodeMembers decodeResponseBodyField members cur
  = decodeMembers decodeResponseBodyField (routesMembers members) cur.
Proof.
  revert cur. induction members as [|[k v] ms IH]; intros cur; [reflexivity|].
  unfold routesMembers. rewrite filter_cons. cbn [fst].
  destruct (decide (names k "routes" = true)) as [E|E].
  - cbn [decodeMembers]. destruct (decodeResponseBodyField k v cur); [apply IH|reflexivity].
  - cbn [decodeMembers]. unfold decodeResponseBodyField at 1.
    destruct (names k "routes"); [congruence|]. apply IH.
Qed.

End UnknownMembers.

(** X15.  Members of the provider's reply that name no field are skipped,
    whatever their values: two 200 responses whose bodies are JSON objects
    with the same members for routes, in the same order, get the same
    result from [processResponse]. *)
Theorem processResponse_ignores_unknown_members :
  forall (Net : Type) (gh : GeodistanceHandler Net) (resp1 resp2 : http.Response)
         (body1 body2 : string) (members1 members2 : list (string * json.value)),
    responds resp1 http.StatusOK body1 ->
    responds resp2 http.StatusOK body2 ->
    json.parse body1 = Some (json.Object members1) ->
    json.parse body2 = Some (json.Object members2) ->
    routesMembers members1 = routesMembers members2 ->
    processResponse gh resp1 = processResponse gh resp2.
Proof.
  intros Net gh resp1 resp2 body1 body2 ms1 ms2 Hr1 Hr2 Hp1 Hp2 Hm.
  rewrite (processResponse_ok gh resp1 body1 Hr1), (processResponse_ok gh resp2 body2 Hr2).
  unfold json_Unmarshal. rewrite Hp1, Hp2. cbn [decodeStruct].
  now rewrite (decodeMembers_routesMembers ms1), (decodeMembers_routesMembers ms2), Hm.
Qed.

Lemma processResponse_ignores_unknown_members_witness :
  processResponse (handler_test.answering 200 "")
    (handler_test.createMockResponse 200 handler_test.createValidAPIResponse)
  = processResponse (handler_test.answering 200 "")
      (handler_test.createMockResponse 200
         (render (json.Object
                    [ ("geocodingResults", json.Object []);
                      ("routes",
                       json.Array
                         [ json.Object [ ("distanceMeters", json.Number "1000");
                                         ("duration", json.Str "5m");
                                         ("routeLabels", json.Array [json.Str "DEFAULT_ROUTE"]) ] ]);
                      ("fallbackInfo", json.Str "none") ]%string))).
Proof.
  apply (processResponse_ignores_unknown_members unit (handler_test.answering 200 "") _ _
           handler_test.createValidAPIResponse
           (render (json.Object
                      [ ("geocodingResults", json.Object []);
                        ("routes",
                         json.Array
                           [ json.Object [ ("distanceMeters", json.Number "1000");
                                           ("duration", json.Str "5m");
                                           ("routeLabels", json.Array [json.Str "DEFAULT_ROUTE"]) ] ]);
                        ("fallbackInfo", json.Str "none") ]%string))
           [ ("routes",
              json.Array
                [ json.Object [ ("distanceMeters", json.Number "1000");
                                ("duration", json.Str "5m");
                                ("routeLabels", json.Array [json.Str "DEFAULT_ROUTE"]) ] ]) ]%string
           [ ("geocodingResults", json.Object []);
             ("routes",
              json.Array
                [ json.Object [ ("distanceMeters", json.Number "1000");
                                ("duration", json.Str "5m");
                                ("routeLabels", json.Array [json.Str "DEFAULT_ROUTE"]) ] ]);
             ("fallbackInfo", json.Str "none") ]%string).
  - split; reflexivity.
  - split; reflexivity.
  - vm_compute. reflexivity.
  - vm_compute. reflexivity.
  - vm_compute. reflexivity.
Defined.
Import geodistanceserver Spec Behaviour.

(** *** Reading back what the encoder wrote *)

Section RoundTrip.

Lemma high_not_special b :
  high b ->
  json.isByte b json.dquote = false /\ json.isByte b "\" = false
  /\ (code b <? 32)%N = false.
Proof.
  unfold high, json.isByte. intros H. repeat split.
  - destruct (Ascii.eqb_spec b json.dquote) as [->|]; [discriminate H|reflexivity].
  - destruct (Ascii.eqb_spec b "\") as [->|]; [discriminate H|reflexivity].
  - apply N.ltb_ge. apply N.ltb_ge in H. lia.
Qed.

(** The well-formed sequences that start outside ASCII. *)
Lemma DecodeRune_shape c r n :
  high c -> utf8.DecodeRune (c :: r) = Some n ->
  (n = 2%nat /\ exists b1 r', r = b1 :: r' /\ high b1)
  \/ (n = 3%nat /\ exists b1 b2 r', r = b1 :: b2 :: r' /\ high b1 /\ high b2)
  \/ (n = 4%nat /\ exists b1 b2 b3 r', r = b1 :: b2 :: b3 :: r' /\ high b1 /\ high b2 /\ high b3).
Proof.
  unfold high. intros Hc. unfold utf8.DecodeRune. rewrite Hc.
  assert (Hcont : forall lo hi b, (128 <=? lo)%N = true -> utf8.cont lo hi b = true ->
                                  (code b <? 128)%N = false).
  { intros lo hi b Hlo. unfold utf8.cont, between. intros H.
    apply andb_true_iff in H. destruct H as [H _].
    apply N.leb_le in H. apply N.leb_le in Hlo. apply N.ltb_ge. lia. }
  destruct r as [|b1 [|b2 [|b3 r']]];
    repeat match goal with
           | |- context [if ?b then _ else _] => destruct b eqn:?
           end;
    intros H; inversion H; subst;
    repeat match goal with
           | H : (_ && _)%bool = true |- _ => apply andb_true_iff in H; destruct H
           end;
    solve [ left; split; [reflexivity|]; do 2 eexists; split; [reflexivity|];
            eapply Hcont; [|eassumption]; reflexivity
          | right; left; split; [reflexivity|]; do 3 eexists; split; [reflexivity|];
            split; (eapply Hcont; [|eassumption]; reflexivity)
          | right; right; split; [reflexivity|]; do 4 eexists; split; [reflexivity|];
            repeat split; (eapply Hcont; [|eassumption]; reflexivity) ].
Qed.

(** [DecodeRune] looks no further than the sequence it finds. *)
Lemma DecodeRune_take c r n rest :
  high c -> utf8.DecodeRune (c :: r) = Some n ->
  utf8.DecodeRune (take n (c :: r) ++ rest) = Some n.
Proof.
  intros Hc H.
  destruct (DecodeRune_shape c r n Hc H)
    as [(-> & b1 & r' & -> & _)|[(-> & b1 & b2 & r' & -> & _)|(-> & b1 & b2 & b3 & r' & -> & _)]];
    cbn [take app]; revert H; unfold utf8.DecodeRune;
    repeat match goal with
           | |- context [if ?b then _ else _] => destruct b eqn:?
           | |- context [match ?x with [] => _ | _ :: _ => _ end] => destruct x
           end; intros; congruence.
Qed.

Lemma escapeString_ascii c r :
  (code c <? 128)%N = true ->
  json.escapeString 0 (c :: r) = asciiEscape c ++ json.escapeString 0 r.
Proof. intros H. cbn [json.escapeString]. rewrite H. reflexivity. Qed.

Ltac each_ascii c :=
  destruct c as [[] [] [] [] [] [] [] []]; try discriminate.

Lemma scan_asciiEscape c acc t :
  (code c <? 128)%N = true ->
  json.scan (json.InString acc) (asciiEscape c ++ t)
  = json.scan (json.InString (rev (asciiEscape c) ++ acc)) t.
Proof. each_ascii c; intros _; reflexivity. Qed.

Lemma unquote_asciiEscape c rest :
  (code c <? 128)%N = true ->
  json.unquote 0 (asciiEscape c ++ rest) = (c ::.) <$> json.unquote 0 rest.
Proof. each_ascii c; intros _; reflexivity. Qed.

Lemma scan_high chunk acc t :
  Forall high chunk ->
  json.scan (json.InString acc) (chunk ++ t) = json.scan (json.InString (rev chunk ++ acc)) t.
Proof.
  intros H. revert acc. induction H as [|b chunk Hb _ IH]; intros acc; [reflexivity|].
  destruct (high_not_special b Hb) as (Hq & Hs & _).
  cbn [app json.scan]. rewrite Hq, Hs, IH. cbn [rev]. now rewrite <- app_assoc.
Qed.

(** The text [escapeString] writes never ends the string literal. *)
Lemma scan_escapeString s : forall k acc t,
  json.scan (json.InString acc) (json.escapeString k s ++ t)
  = json.scan (json.InString (rev (json.escapeString k s) ++ acc)) t.
Proof.
  induction s as [|c r IH]; intros k acc t; [destruct k; reflexivity|].
  destruct k as [|k]; [|apply IH].
  destruct (code c <? 128)%N eqn:Hc.
  { rewrite (escapeString_ascii c r Hc), <- app_assoc, scan_asciiEscape by assumption.
    rewrite IH, rev_app_distr. now rewrite <- app_assoc. }
  cbn [json.escapeString]. rewrite Hc.
  destruct (utf8.DecodeRune (c :: r)) as [n|] eqn:Hd.
  2:{ rewrite <- app_assoc.
      change (list_ascii_of_string "\ufffd") with ["\"; "u"; "f"; "f"; "f"; "d"]%char.
      rewrite rev_app_distr, <- app_assoc. cbn [app json.scan]. now rewrite IH. }
  rewrite <- app_assoc.
  repeat case_bool_decide.
  - change (list_ascii_of_string "\u2028") with ["\"; "u"; "2"; "0"; "2"; "8"]%char.
    rewrite rev_app_distr, <- app_assoc. cbn [app json.scan]. now rewrite IH.
  - change (list_ascii_of_string "\u2029") with ["\"; "u"; "2"; "0"; "2"; "9"]%char.
    rewrite rev_app_distr, <- app_assoc. cbn [app json.scan]. now rewrite IH.
  - rewrite scan_high, IH, rev_app_distr; [now rewrite <- app_assoc|].
    destruct (DecodeRune_shape c r n Hc Hd)
      as [(-> & b1 & r' & -> & ?)|[(-> & b1 & b2 & r' & -> & ? & ?)
                                  |(-> & b1 & b2 & b3 & r' & -> & ? & ? & ?)]];
      cbn [take]; repeat constructor; assumption.
Qed.

Lemma unquote_skip chunk rest :
  json.unquote (length chunk) (chunk ++ rest) = json.unquote 0 rest.
Proof.
  induction chunk as [|b chunk IH]; [reflexivity|]. cbn [length app json.unquote]. exact IH.
Qed.

(** Unquoting what [escapeString] wrote gives the string back, coerced
    to well-formed UTF-8. *)
Lemma unquote_escapeString s : forall k,
  json.unquote 0 (json.escapeString k s) = Some (toValidUTF8 k s).
Proof.
  induction s as [|c r IH]; intros k; [destruct k; reflexivity|].
  destruct k as [|k]; [|apply IH].
  destruct (code c <? 128)%N eqn:Hc.
  { rewrite (escapeString_ascii c r Hc), unquote_asciiEscape, IH by assumption.
    cbn [toValidUTF8]. now rewrite Hc. }
  cbn [json.escapeString toValidUTF8]. rewrite Hc.
  destruct (utf8.DecodeRune (c :: r)) as [n|] eqn:Hd.
  2:{ change (list_ascii_of_string "\ufffd") with ["\"; "u"; "f"; "f"; "f"; "d"]%char.
      cbn [app]. set (rest := json.escapeString 0 r) in *.
      change (json.unquote 0 ("\"%char :: "u"%char :: "f"%char :: "f"%char :: "f"%char
                               :: "d"%char :: rest))
        with ((utf8.EncodeRune utf8.RuneError ++.) <$> json.unquote 0 rest).
      subst rest. now rewrite IH. }
  assert (Hrune : json.unquote 0 (take n (c :: r) ++ json.escapeString (n - 1) r)
                  = Some (take n (c :: r) ++ toValidUTF8 (n - 1) r)).
  { pose proof (DecodeRune_take c r n (json.escapeString (n - 1) r) Hc Hd) as Ht.
    destruct (DecodeRune_shape c r n Hc Hd)
      as [(-> & b1 & r' & -> & ?)|[(-> & b1 & b2 & r' & -> & ? & ?)
                                  |(-> & b1 & b2 & b3 & r' & -> & ? & ? & ?)]];
      cbn [take app] in Ht |- *;
      destruct (high_not_special c Hc) as (Hq & Hs & Hl);
      cbn [json.unquote]; rewrite Hs, Hq, Hl, Hc; cbn [orb]; rewrite Ht;
      cbn [take app Nat.sub json.unquote fmap option_fmap option_map];
      rewrite !take_0; cbn [app]; rewrite IH; reflexivity. }
  repeat case_bool_decide.
  - change (list_ascii_of_string "\u2028") with ["\"; "u"; "2"; "0"; "2"; "8"]%char.
    cbn [app]. set (rest := json.escapeString (n - 1) r) in *.
    change (json.unquote 0 ("\"%char :: "u"%char :: "2"%char :: "0"%char :: "2"%char
                             :: "8"%char :: rest))
      with ((utf8.EncodeRune 0x2028 ++.) <$> json.unquote 0 rest).
    subst rest. rewrite IH.
    match goal with H : take n (c :: r) = _ |- _ => rewrite H end. reflexivity.
  - change (list_ascii_of_string "\u2029") with ["\"; "u"; "2"; "0"; "2"; "9"]%char.
    cbn [app]. set (rest := json.escapeString (n - 1) r) in *.
    change (json.unquote 0 ("\"%char :: "u"%char :: "2"%char :: "0"%char :: "2"%char
                             :: "9"%char :: rest))
      with ((utf8.EncodeRune 0x2029 ++.) <$> json.unquote 0 rest).
    subst rest. rewrite IH.
    match goal with H : take n (c :: r) = _ |- _ => rewrite H end. reflexivity.
  - exact Hrune.
Qed.

Lemma toValidUTF8_ascii s :
  forallb (fun c => (code c <? 128)%N) s = true -> toValidUTF8 0 s = s.
Proof.
  induction s as [|c r IH]; [reflexivity|]. cbn [forallb toValidUTF8].
  intros H. apply andb_true_iff in H. destruct H as [Hc Hr]. rewrite Hc. now rewrite IH.
Qed.

Lemma coerced_ascii s : isASCII s = true -> coerced s = s.
Proof.
  unfold isASCII, coerced, json.bytes. intros H.
  rewrite (toValidUTF8_ascii _ H). apply string_of_list_ascii_of_string.
Qed.

(** Strings as byte lists. *)
Lemma bytes_app a b :
  list_ascii_of_string (a +:+ b) = list_ascii_of_string a ++ list_ascii_of_string b.
Proof.
  induction a as [|x a IH]; [reflexivity|].
  change (x :: list_ascii_of_string (a +:+ b)
          = x :: list_ascii_of_string a ++ list_ascii_of_string b). now rewrite IH.
Qed.

Lemma bytes_quote s :
  list_ascii_of_string (json.quote s)
  = json.dquote :: json.escapeString 0 (list_ascii_of_string s) ++ [json.dquote].
Proof.
  unfold json.quote, json.bytes. rewrite bytes_app.
  cbn [list_ascii_of_string app]. now rewrite list_ascii_of_string_of_list_ascii.
Qed.

Lemma fmap_fmap_app (a b : list json.token) (o : option (list json.token)) :
  (a ++.) <$> ((b ++.) <$> o) = ((a ++ b) ++.) <$> o.
Proof. destruct o; cbn; [now rewrite app_assoc|reflexivity]. Qed.

Lemma fmap_cons_app (a : json.token) (b : list json.token) (o : option (list json.token)) :
  (a ::.) <$> ((b ++.) <$> o) = ((a :: b) ++.) <$> o.
Proof. destruct o; reflexivity. Qed.

Lemma scan_quote s t :
  json.scan json.InValue (list_ascii_of_string (json.quote s) ++ t)
  = (json.TString (coerced s) ::.) <$> json.scan json.InValue t.
Proof.
  rewrite bytes_quote. cbn [app]. rewrite <- app_assoc. cbn [app].
  change (json.scan json.InValue (json.dquote :: ?x)) with
    ((([] ++ []) ++.) <$> json.scan (json.InString []) x).
  rewrite scan_escapeString, app_nil_r.
  cbn [json.scan]. change (json.isByte json.dquote json.dquote) with true. cbv iota.
  rewrite ?app_nil_r, rev_involutive, unquote_escapeString. cbn.
  destruct (json.scan json.InValue t); reflexivity.
Qed.

(** A literal, followed by what may follow a value. *)
Lemma scan_literal (word : list byte) (tok : json.token) t :
  json.flush (json.InLiteral (rev word)) = Some [tok] ->
  forallb json.isLower word = true -> word <> [] ->
  delimited t ->
  json.scan json.InValue (word ++ t) = (tok ::.) <$> json.scan json.InValue t.
Proof.
  intros Hflush Hlow Hne Ht.
  assert (Hin : forall w acc, forallb json.isLower w = true ->
                   json.scan (json.InLiteral acc) (w ++ t)
                   = json.scan (json.InLiteral (rev w ++ acc)) t).
  { induction w as [|c w IH]; intros acc Hw; [reflexivity|].
    cbn [forallb] in Hw. apply andb_true_iff in Hw. destruct Hw as [Hc Hw].
    cbn [app json.scan]. rewrite Hc, IH by assumption. cbn [rev]. now rewrite <- app_assoc. }
  destruct word as [|c w]; [congruence|]. cbn [forallb] in Hlow.
  apply andb_true_iff in Hlow. destruct Hlow as [Hc Hw].
  assert (Hbegin : json.begin c = Some (json.InLiteral [c], [])).
  { revert Hc. clear. each_ascii c; intros Hc; try discriminate Hc; reflexivity. }
  cbn [app json.scan]. cbn [json.flush]. rewrite Hbegin. cbn.
  rewrite Hin by assumption.
  replace (rev w ++ [c]) with (rev (c :: w)) by reflexivity.
  destruct t as [|d t'].
  - cbn [json.scan]. rewrite Hflush. reflexivity.
  - destruct Ht as [Ht _]. cbn [json.scan]. rewrite Ht, Hflush.
    cbn. destruct (json.begin d) as [[m ts]|]; [|reflexivity]. cbn.
    destruct (json.scan m t'); reflexivity.
Qed.

(** *** Number literals *)

Lemma isDigit_number c : json.isDigit c = true -> json.isNumberByte c = true.
Proof. unfold json.isNumberByte. now intros ->. Qed.

Ltac number_byte :=
  unfold json.isNumberByte;
  repeat match goal with H : _ = true |- _ => rewrite H end;
  rewrite ?orb_true_r; reflexivity.

Lemma skipDigits_digits s :
  exists ds, s = ds ++ json.skipDigits s /\ forallb json.isNumberByte ds = true.
Proof.
  induction s as [|c r (ds & Hr & Hds)]; [now exists []|]. cbn [json.skipDigits].
  destruct (json.isDigit c) eqn:Hc; [|now exists []].
  exists (c :: ds). cbn [app forallb]. rewrite <- Hr, Hds, (isDigit_number c Hc). auto.
Qed.

Lemma through_digits (valid : list byte -> bool) r :
  (forall s, valid s = true -> forallb json.isNumberByte s = true) ->
  valid (json.skipDigits r) = true -> forallb json.isNumberByte r = true.
Proof.
  intros Hv H. destruct (skipDigits_digits r) as (ds & Hr & Hds).
  rewrite Hr, forallb_app, Hds. now apply Hv.
Qed.

Lemma validExponent_bytes s :
  json.validExponent s = true -> forallb json.isNumberByte s = true.
Proof.
  destruct s as [|e r]; [reflexivity|]. cbn [json.validExponent forallb].
  destruct (json.isByte e "e" || json.isByte e "E") eqn:He; [|discriminate].
  assert (Hne : json.isNumberByte e = true).
  { unfold json.isNumberByte. apply orb_true_iff in He. destruct He as [-> | ->];
      rewrite ?orb_true_r; reflexivity. }
  rewrite Hne. cbn [andb].
  assert (Hdigits : forall r', match r' with
                               | d :: r'' => json.isDigit d && bool_decide (json.skipDigits r'' = [])
                               | [] => false
                               end = true -> forallb json.isNumberByte r' = true).
  { intros [|d r'']; [discriminate|]. intros H. apply andb_true_iff in H. destruct H as [Hd Hs].
    apply bool_decide_eq_true in Hs. cbn [forallb]. rewrite (isDigit_number d Hd).
    destruct (skipDigits_digits r'') as (ds & Hr & Hds). rewrite Hs, app_nil_r in Hr.
    now rewrite Hr. }
  destruct r as [|sg r']; [discriminate|].
  destruct (json.isByte sg "+" || json.isByte sg "-") eqn:Hsg.
  - intros H. cbn [forallb]. rewrite (Hdigits r' H).
    assert (Hns : json.isNumberByte sg = true).
    { unfold json.isNumberByte. apply orb_true_iff in Hsg. destruct Hsg as [-> | ->];
        rewrite ?orb_true_r; reflexivity. }
    now rewrite Hns.
  - intros H. exact (Hdigits (sg :: r') H).
Qed.

Lemma validFraction_bytes s :
  json.validFraction s = true -> forallb json.isNumberByte s = true.
Proof.
  destruct s as [|dot r]; [reflexivity|]. cbn [json.validFraction].
  destruct (json.isByte dot ".") eqn:Hdot; [|apply validExponent_bytes].
  destruct r as [|d r']; [discriminate|]. intros H.
  apply andb_true_iff in H. destruct H as [Hd Hv]. cbn [forallb].
  rewrite (isDigit_number d Hd), (through_digits _ r' validExponent_bytes Hv).
  unfold json.isNumberByte. rewrite Hdot, ?orb_true_r. reflexivity.
Qed.

Lemma begin_number c :
  json.isByte c "-" || json.isDigit c = true -> json.begin c = Some (json.InNumber [c], []).
Proof. each_ascii c; intros H; try discriminate H; reflexivity. Qed.

Lemma validNumber_shape w :
  json.validNumber w = true ->
  exists c w', w = c :: w' /\ json.begin c = Some (json.InNumber [c], [])
               /\ forallb json.isNumberByte w' = true.
Proof.
  assert (Hunsigned : forall s, match s with
                                | d :: r => if json.isByte d "0" then json.validFraction r
                                            else json.isDigit d
                                                 && json.validFraction (json.skipDigits r)
                                | [] => false
                                end = true ->
                                exists d r, s = d :: r /\ json.isDigit d = true
                                            /\ forallb json.isNumberByte r = true).
  { intros [|d r]; [discriminate|]. destruct (json.isByte d "0") eqn:Hz.
    - intros H. exists d, r. repeat split; [|now apply validFraction_bytes].
      unfold json.isByte in Hz. apply Ascii.eqb_eq in Hz. now subst d.
    - intros H. apply andb_true_iff in H. destruct H as [Hd Hv]. exists d, r.
      repeat split; [exact Hd|]. exact (through_digits _ r validFraction_bytes Hv). }
  unfold json.validNumber. destruct w as [|sg r]; [discriminate|].
  destruct (json.isByte sg "-") eqn:Hsg.
  - intros H. destruct (Hunsigned r H) as (d & r' & -> & Hd & Hr).
    exists sg, (d :: r'). split; [reflexivity|]. split.
    + apply begin_number. now rewrite Hsg.
    + cbn [forallb]. now rewrite (isDigit_number d Hd), Hr.
  - intros H. destruct (Hunsigned (sg :: r) H) as (d & r' & E & Hd & Hr).
    inversion E; subst d r'. exists sg, r. split; [reflexivity|]. split; [|exact Hr].
    apply begin_number. now rewrite Hd, orb_true_r.
Qed.

Lemma scan_number w t :
  json.validNumber w = true -> delimited t ->
  json.scan json.InValue (w ++ t) = (json.TNumber (json.bytes w) ::.) <$> json.scan json.InValue t.
Proof.
  intros Hv Ht. destruct (validNumber_shape w Hv) as (c & w' & -> & Hbegin & Hw').
  assert (Hin : forall u acc, forallb json.isNumberByte u = true ->
                   json.scan (json.InNumber acc) (u ++ t)
                   = json.scan (json.InNumber (rev u ++ acc)) t).
  { induction u as [|x u IH]; intros acc Hu; [reflexivity|].
    cbn [forallb] in Hu. apply andb_true_iff in Hu. destruct Hu as [Hx Hu].
    cbn [app json.scan]. rewrite Hx, IH by assumption. cbn [rev]. now rewrite <- app_assoc. }
  cbn [app json.scan json.flush]. rewrite Hbegin. cbn.
  rewrite Hin by assumption.
  replace (rev w' ++ [c]) with (rev (c :: w')) by reflexivity.
  assert (Hflush : json.flush (json.InNumber (rev (c :: w')))
                   = Some [json.TNumber (json.bytes (c :: w'))]).
  { cbn [json.flush]. now rewrite rev_involutive, Hv. }
  destruct t as [|d t'].
  - cbn [json.scan]. rewrite Hflush. reflexivity.
  - destruct Ht as [_ Ht]. cbn [json.scan]. rewrite Ht, Hflush.
    cbn. destruct (json.begin d) as [[m ts]|]; [|reflexivity]. cbn.
    destruct (json.scan m t'); reflexivity.
Qed.

Lemma value_induction (P : json.value -> Prop) :
  P json.Null -> (forall b, P (json.Bool b)) -> (forall n, P (json.Number n)) ->
  (forall s, P (json.Str s)) ->
  (forall elems, Forall P elems -> P (json.Array elems)) ->
  (forall members, Forall (fun m => P m.2) members -> P (json.Object members)) ->
  forall v, P v.
Proof.
  intros HN HB HNum HS HA HO. fix IH 1. intros [|b|n|s|elems|members].
  - exact HN.
  - apply HB.
  - apply HNum.
  - apply HS.
  - apply HA. induction elems as [|e elems IHl]; constructor; [apply IH|exact IHl].
  - apply HO. induction members as [|[k e] members IHl]; constructor; [apply IH|exact IHl].
Qed.

Ltac finish_scan t :=
  destruct (json.scan json.InValue t);
  cbn [fmap option_fmap option_map arrayTokens objectTokens fst snd app];
  rewrite <- ?app_assoc; reflexivity.

Lemma scan_punct (c : ascii) (tok : json.token) t :
  json.begin c = Some (json.InValue, [tok]) ->
  json.scan json.InValue (c :: t) = (tok ::.) <$> json.scan json.InValue t.
Proof.
  intros H. cbn [json.scan json.flush]. rewrite H. cbn.
  destruct (json.scan json.InValue t); reflexivity.
Qed.

Lemma scan_array (P : json.value -> Prop) elems t :
  (forall e, P e -> forall t', delimited t' ->
             json.scan json.InValue (list_ascii_of_string (render e) ++ t')
             = (tokens e ++.) <$> json.scan json.InValue t') ->
  Forall P elems ->
  json.scan json.InValue
    (list_ascii_of_string (json.join "," (map render elems)) ++ "]"%char :: t)
  = (arrayTokens tokens elems ++.) <$> json.scan json.InValue t.
Proof.
  intros HP H. induction H as [|e elems He Hes IH].
  - cbn [map json.join list_ascii_of_string app arrayTokens].
    now rewrite (scan_punct "]" json.TRBrack) by reflexivity.
  - destruct elems as [|e2 elems].
    + cbn [map json.join arrayTokens]. rewrite (HP e He) by (split; reflexivity).
      rewrite (scan_punct "]" json.TRBrack) by reflexivity. finish_scan t.
    + change (json.join "," (map render (e :: e2 :: elems)))
        with (render e +:+ "," +:+ json.join "," (map render (e2 :: elems))).
      rewrite !bytes_app, <- !app_assoc. cbn [list_ascii_of_string app].
      rewrite (HP e He) by (split; reflexivity).
      rewrite (scan_punct "," json.TComma) by reflexivity.
      rewrite IH. finish_scan t.
Qed.

Lemma scan_object (P : json.value -> Prop) (members : list (string * json.value)) t :
  (forall e, P e -> forall t', delimited t' ->
             json.scan json.InValue (list_ascii_of_string (render e) ++ t')
             = (tokens e ++.) <$> json.scan json.InValue t') ->
  Forall (fun m => P m.2) members ->
  json.scan json.InValue
    (list_ascii_of_string
       (json.join "," (map (fun m => json.key m.1 +:+ m.2)
                           (map (fun m => (m.1, render m.2)) members)))
     ++ "}"%char :: t)
  = (objectTokens tokens members ++.) <$> json.scan json.InValue t.
Proof.
  intros HP H. induction H as [|[k e] members He Hes IH].
  - cbn [map json.join list_ascii_of_string app objectTokens].
    now rewrite (scan_punct "}" json.TRBrace) by reflexivity.
  - cbn [fst snd] in He. destruct members as [|m2 members].
    + cbn [map json.join objectTokens fst snd]. unfold json.key.
      rewrite !bytes_app, <- !app_assoc. cbn [list_ascii_of_string app].
      rewrite scan_quote, (scan_punct ":" json.TColon) by reflexivity.
      rewrite (HP e He) by (split; reflexivity).
      rewrite (scan_punct "}" json.TRBrace) by reflexivity. finish_scan t.
    + change (json.join "," (map (fun m => json.key m.1 +:+ m.2)
                                 (map (fun m => (m.1, render m.2)) ((k, e) :: m2 :: members))))
        with ((json.key k +:+ render e) +:+ "," +:+
              json.join "," (map (fun m => json.key m.1 +:+ m.2)
                                 (map (fun m => (m.1, render m.2)) (m2 :: members)))).
      unfold json.key at 1.
      rewrite !bytes_app, <- !app_assoc. cbn [list_ascii_of_string app].
      rewrite scan_quote, (scan_punct ":" json.TColon) by reflexivity.
      rewrite (HP e He) by (split; reflexivity).
      rewrite (scan_punct "," json.TComma) by reflexivity.
      rewrite IH. finish_scan t.
Qed.

(** The scanner reads the text of a value as its tokens. *)
Lemma scan_render v :
  wellFormed v = true -> forall t, delimited t ->
  json.scan json.InValue (list_ascii_of_string (render v) ++ t)
  = (tokens v ++.) <$> json.scan json.InValue t.
Proof.
  induction v as [|b|n|s|elems IH|members IH] using value_induction; intros Htx t Ht.
  - apply (scan_literal (list_ascii_of_string "null") json.TNull);
      [reflexivity | reflexivity | discriminate | exact Ht].
  - destruct b.
    + apply (scan_literal (list_ascii_of_string "true") json.TTrue);
        [reflexivity | reflexivity | discriminate | exact Ht].
    + apply (scan_literal (list_ascii_of_string "false") json.TFalse);
        [reflexivity | reflexivity | discriminate | exact Ht].
  - cbn [wellFormed render] in *.
    pose proof (scan_number _ t Htx Ht) as E. unfold json.bytes in E.
    rewrite string_of_list_ascii_of_string in E. exact E.
  - apply scan_quote.
  - cbn [render tokens]. unfold json.array.
    rewrite !bytes_app, <- !app_assoc. cbn [list_ascii_of_string app].
    rewrite (scan_punct "[" json.TLBrack) by reflexivity.
    rewrite (scan_array (fun e => wellFormed e = true
                                  /\ (wellFormed e = true -> forall t', delimited t' ->
                                       json.scan json.InValue (list_ascii_of_string (render e) ++ t')
                                       = (tokens e ++.) <$> json.scan json.InValue t'))).
    + finish_scan t.
    + intros e [He1 He2]. now apply He2.
    + cbn [wellFormed] in Htx. rewrite forallb_forall in Htx.
      rewrite Forall_forall in IH |- *. intros e He. split.
      * apply Htx. now apply list_elem_of_In.
      * now apply IH.
  - cbn [render tokens]. unfold json.object.
    rewrite !bytes_app, <- !app_assoc. cbn [list_ascii_of_string app].
    rewrite (scan_punct "{" json.TLBrace) by reflexivity.
    rewrite (scan_object (fun e => wellFormed e = true
                                   /\ (wellFormed e = true -> forall t', delimited t' ->
                                        json.scan json.InValue (list_ascii_of_string (render e) ++ t')
                                        = (tokens e ++.) <$> json.scan json.InValue t'))).
    + finish_scan t.
    + intros e [He1 He2]. now apply He2.
    + cbn [wellFormed] in Htx. rewrite forallb_forall in Htx.
      rewrite Forall_forall in IH |- *. intros m Hm. split.
      * apply (Htx m). now apply list_elem_of_In.
      * now apply IH.
Qed.

(** *** The grammar reads the tokens of a value as the value *)

Lemma push_fits f e stack :
  (N.of_nat (S (length stack)) <= json.maxNestingDepth)%N ->
  json.push f e stack = Some (e, f :: stack).
Proof.
  intros H. unfold json.push. cbn [length].
  destruct (N.ltb_spec json.maxNestingDepth (N.of_nat (S (length stack)))); [lia|reflexivity].
Qed.

Lemma depth_elem e (elems : list json.value) :
  In e elems -> (depth e <= foldr (fun e d => Nat.max (depth e) d) 0 elems)%nat.
Proof.
  induction elems as [|x elems IH]; [contradiction|]. cbn [foldr].
  intros [->|H]; [lia|]. specialize (IH H). lia.
Qed.

Lemma depth_member (m : string * json.value) (members : list (string * json.value)) :
  In m members -> (depth m.2 <= foldr (fun m d => Nat.max (depth m.2) d) 0 members)%nat.
Proof.
  induction members as [|x members IH]; [contradiction|]. cbn [foldr].
  intros [->|H]; [lia|]. specialize (IH H). lia.
Qed.

Lemma reads_scalar v tok :
  tokens v = [tok] ->
  (forall stack, json.beginValue tok stack = json.reduce (readBack v) stack) ->
  tok <> json.TRBrack ->
  reads v.
Proof.
  intros Ht Hb Hne e stack ts [->| ->] _; rewrite Ht; cbn [app json.build json.step].
  - now rewrite Hb.
  - destruct tok; try congruence; now rewrite <- Hb.
Qed.

Lemma build_array stack ts (elems : list json.value) :
  Forall reads elems -> elems <> [] ->
  forall acc e,
    valueExpected e ->
    (forall x, In x elems -> fits (json.InArray acc :: stack) x) ->
    json.build e (json.InArray acc :: stack) (arrayTokens tokens elems ++ ts)
    = json.reduce (json.Array (rev acc ++ map readBack elems)) stack
      ≫= (fun '(e', stack') => json.build e' stack' ts).
Proof.
  intros H. induction H as [|x elems Hx Hes IH]; intros Hne acc e He Hfit; [congruence|].
  destruct elems as [|x2 elems].
  - cbn [arrayTokens map]. rewrite <- app_assoc, (Hx e _ _ He) by (apply Hfit; now left).
    cbn [json.reduce mbind option_bind app json.build json.step rev]. reflexivity.
  - change (arrayTokens tokens (x :: x2 :: elems))
      with (tokens x ++ json.TComma :: arrayTokens tokens (x2 :: elems)).
    rewrite <- app_assoc, (Hx e _ _ He) by (apply Hfit; now left).
    cbn [json.reduce mbind option_bind app json.build json.step].
    rewrite (IH ltac:(discriminate) (readBack x :: acc) json.AValue (or_introl eq_refl)).
    + cbn [rev map]. now rewrite <- app_assoc.
    + intros y Hy. specialize (Hfit y (or_intror Hy)). unfold fits in *.
      cbn [length] in *. exact Hfit.
Qed.

Lemma build_object stack ts (members : list (string * json.value)) :
  Forall (fun m => reads m.2) members -> members <> [] ->
  forall acc e,
    keyExpected e ->
    (forall m, In m members -> fits (json.InObject acc None :: stack) m.2) ->
    json.build e (json.InObject acc None :: stack) (objectTokens tokens members ++ ts)
    = json.reduce
        (json.Object (rev acc ++ map (fun m => (coerced m.1, readBack m.2)) members)) stack
      ≫= (fun '(e', stack') => json.build e' stack' ts).
Proof.
  intros H. induction H as [|[k x] members Hx Hes IH]; intros Hne acc e He Hfit; [congruence|].
  cbn [fst snd] in Hx.
  assert (Hkey : json.step e (json.InObject acc None :: stack) (json.TString (coerced k))
                 = Some (json.AColon, json.InObject acc (Some (coerced k)) :: stack)).
  { destruct He as [->| ->]; reflexivity. }
  assert (Hfx : fits (json.InObject acc (Some (coerced k)) :: stack) x).
  { specialize (Hfit (k, x) (or_introl eq_refl)). exact Hfit. }
  destruct members as [|m2 members].
  - cbn [objectTokens map fst snd app json.build]. rewrite Hkey.
    cbn [mbind option_bind json.build json.step].
    rewrite <- app_assoc, (Hx json.AValue _ _ (or_introl eq_refl) Hfx).
    cbn [json.reduce mbind option_bind app json.build json.step rev]. reflexivity.
  - change (objectTokens tokens ((k, x) :: m2 :: members))
      with (json.TString (coerced k) :: json.TColon
              :: tokens x ++ json.TComma :: objectTokens tokens (m2 :: members)).
    cbn [app json.build]. rewrite Hkey. cbn [mbind option_bind json.build json.step].
    rewrite <- app_assoc, (Hx json.AValue _ _ (or_introl eq_refl) Hfx).
    cbn [json.reduce mbind option_bind app json.build json.step].
    rewrite (IH ltac:(discriminate) ((coerced k, readBack x) :: acc) json.AKey (or_introl eq_refl)).
    + cbn [rev map fst snd]. now rewrite <- app_assoc.
    + intros y Hy. specialize (Hfit y (or_intror Hy)). unfold fits in *.
      cbn [length] in *. exact Hfit.
Qed.

Lemma build_tokens v : reads v.
Proof.
  induction v as [|b|n|s|elems IH|members IH] using value_induction.
  - apply (reads_scalar _ json.TNull); [reflexivity | reflexivity | discriminate].
  - destruct b; [apply (reads_scalar _ json.TTrue)|apply (reads_scalar _ json.TFalse)];
      (reflexivity || discriminate).
  - apply (reads_scalar _ (json.TNumber n)); [reflexivity | reflexivity | discriminate].
  - apply (reads_scalar _ (json.TString (coerced s))); [reflexivity | reflexivity | discriminate].
  - intros e stack ts He Hfit. unfold fits in Hfit. cbn [depth] in Hfit.
    assert (Hstep : json.step e stack json.TLBrack
                    = Some (json.AValueOrEnd, json.InArray [] :: stack)).
    { destruct He as [->| ->]; cbn [json.step json.beginValue];
        [|destruct stack as [|[] ?]]; apply push_fits; lia. }
    cbn [tokens app json.build]. rewrite Hstep. cbn [mbind option_bind].
    destruct elems as [|x elems]; [reflexivity|].
    rewrite (build_array stack ts (x :: elems) IH ltac:(discriminate) [] json.AValueOrEnd
               (or_intror eq_refl)); [reflexivity|].
    intros y Hy. pose proof (depth_elem y _ Hy). unfold fits. cbn [length]. lia.
  - intros e stack ts He Hfit. unfold fits in Hfit. cbn [depth] in Hfit.
    assert (Hstep : json.step e stack json.TLBrace
                    = Some (json.AKeyOrEnd, json.InObject [] None :: stack)).
    { destruct He as [->| ->]; cbn [json.step json.beginValue];
        [|destruct stack as [|[] ?]]; apply push_fits; lia. }
    cbn [tokens app json.build]. rewrite Hstep. cbn [mbind option_bind].
    destruct members as [|x members]; [reflexivity|].
    rewrite (build_object stack ts (x :: members) IH ltac:(discriminate) [] json.AKeyOrEnd
               (or_intror eq_refl)); [reflexivity|].
    intros y Hy. pose proof (depth_member y _ Hy). unfold fits. cbn [length]. lia.
Qed.

(** The text [json.Marshal] writes for a value without numbers parses,
    and to the value with its strings read back. *)
Lemma parse_render v :
  wellFormed v = true -> fits [] v -> json.parse (render v) = Some (readBack v).
Proof.
  intros Htx Hfit. unfold json.parse.
  pose proof (scan_render v Htx [] I) as Hs. rewrite app_nil_r in Hs. rewrite Hs.
  cbn [json.scan json.flush fmap option_fmap option_map mbind option_bind].
  now rewrite (build_tokens v json.AValue [] [] (or_introl eq_refl) Hfit).
Qed.

End RoundTrip.

Section Payload.

Lemma render_sliceTree {A} (f : A -> json.value) (g : A -> string) (s : slices.slice A) :
  (forall a, g a = render (f a)) ->
  marshalSlice g s = render (sliceTree f s).
Proof.
  intros H. destruct s as [|es spare]; [reflexivity|].
  cbn [marshalSlice sliceTree render]. f_equal. rewrite map_map. apply map_ext. exact H.
Qed.

Lemma marshalRequestBody_render (b : RequestBody) :
  marshalRequestBody b = render (requestTree b).
Proof.
  unfold marshalRequestBody, requestTree. cbn [render map fst snd].
  rewrite (render_sliceTree (fun o => json.Object [("address"%string, json.Str (Address o))])),
          (render_sliceTree (fun d => json.Object [("address"%string, json.Str (Address_ d))])),
          (render_sliceTree json.Str); reflexivity.
Qed.

Lemma sliceTree_wellFormed {A} (f : A -> json.value) (s : slices.slice A) :
  (forall a, wellFormed (f a) = true) -> wellFormed (sliceTree f s) = true.
Proof.
  intros H. destruct s as [|es spare]; [reflexivity|]. cbn [sliceTree wellFormed].
  apply forallb_forall. intros x Hx. apply in_map_iff in Hx. destruct Hx as (a & <- & _). apply H.
Qed.

Lemma sliceTree_depth {A} (f : A -> json.value) (s : slices.slice A) (n : nat) :
  (forall a, (depth (f a) <= n)%nat) -> (depth (sliceTree f s) <= S n)%nat.
Proof.
  intros H. destruct s as [|es spare]; [cbn; lia|]. cbn [sliceTree depth].
  apply le_n_S. induction es as [|a es IH]; cbn [map foldr]; [lia|]. specialize (H a). lia.
Qed.

Lemma requestTree_wellFormed (b : RequestBody) : wellFormed (requestTree b) = true.
Proof.
  unfold requestTree. cbn [wellFormed forallb snd].
  rewrite !sliceTree_wellFormed by reflexivity. reflexivity.
Qed.

Lemma requestTree_fits (b : RequestBody) : fits [] (requestTree b).
Proof.
  unfold fits, requestTree. cbn [length depth foldr snd Nat.add].
  pose proof (sliceTree_depth (fun o => json.Object [("address"%string, json.Str (Address o))])
                (Origins b) 1 ltac:(intros; cbn; lia)).
  pose proof (sliceTree_depth (fun d => json.Object [("address"%string, json.Str (Address_ d))])
                (Destinations b) 1 ltac:(intros; cbn; lia)).
  pose proof (sliceTree_depth json.Str (RequestedReferenceRoutes b) 0 ltac:(intros; cbn; lia)).
  unfold json.maxNestingDepth. lia.
Qed.

End Payload.

(** X16.  The body of every request [createRequest] builds is a
    well-formed JSON text, whatever bytes the addresses hold (quotes,
    backslashes, control characters, ill-formed UTF-8): it parses to one
    object whose members are, in this order, origins, destinations,
    travelMode, routingPreference, requestedReferenceRoutes and
    languageCode, each origin and destination an object with the one
    member address, a nil slice being null; the strings come back as they
    were, with ill-formed UTF-8 replaced by U+FFFD. *)
Theorem createRequest_body_is_JSON :
  forall (Net : Type) (gh : GeodistanceHandler Net) (ctx : context.Context)
         (body : RequestBody) (req : http.Request),
    createRequest gh ctx body = Ok req ->
    json.parse (http.Body req)
    = Some (json.Object
              [ ("origins",
                 sliceTree (fun o => json.Object [("address", json.Str (coerced (Address o)))])
                           (Origins body));
                ("destinations",
                 sliceTree (fun d => json.Object [("address", json.Str (coerced (Address_ d)))])
                           (Destinations body));
                ("travelMode", json.Str (coerced (TravelMode body)));
                ("routingPreference", json.Str (coerced (RoutingPreference body)));
                ("requestedReferenceRoutes",
                 sliceTree (fun s => json.Str (coerced s)) (RequestedReferenceRoutes body));
                ("languageCode", json.Str (coerced (LanguageCode body))) ]%string).
Proof.
  intros Net gh ctx body req H. rewrite createRequest_ok in H. inversion H; subst req.
  cbn [http.Body]. rewrite marshalRequestBody_render.
  rewrite (parse_render _ (requestTree_wellFormed body) (requestTree_fits body)).
  unfold requestTree. cbn [readBack map fst snd]. do 2 f_equal.
  destruct (Origins body), (Destinations body), (RequestedReferenceRoutes body);
    cbn [sliceTree readBack]; rewrite ?map_map; reflexivity.
Qed.

Lemma createRequest_body_is_JSON_witness :
  json.parse (http.Body (outbound "test-key" context.Background "New York" "Los Angeles"))
  = Some (json.Object
            [ ("origins", json.Array [json.Object [("address", json.Str "New York")]]);
              ("destinations", json.Array [json.Object [("address", json.Str "Los Angeles")]]);
              ("travelMode", json.Str "DRIVE");
              ("routingPreference", json.Str "TRAFFIC_AWARE");
              ("requestedReferenceRoutes", json.Array [json.Str "SHORTER_DISTANCE"]);
              ("languageCode", json.Str "en-US") ]%string).
Proof.
  apply (createRequest_body_is_JSON unit (handler_test.answering 200 "") context.Background
           (buildRequestBody (handler_test.answering 200 "")
              (slices.lit [ {| Address := "New York" |} ])
              (slices.lit [ {| Address_ := "Los Angeles" |} ]))).
  vm_compute. reflexivity.
Defined.

(** X17.  An accepted call whose two addresses are ASCII sends a body
    from which the provider reads exactly those addresses, byte for byte,
    under origins[0].address and destinations[0].address, beside the four
    fixed settings. *)
Theorem handleDistanceCalculation_sends_the_addresses :
  forall (Net : Type) (gh : GeodistanceHandler Net) (ctx : context.Context)
         (request : mcp.CallToolRequest) (w : World Net) (origin destination : string),
    argument request "originAddress" origin -> origin <> ""%string ->
    argument request "destinationAddress" destination -> destination <> ""%string ->
    isASCII origin = true -> isASCII destination = true ->
    exists req,
      sent (handleDistanceCalculation gh ctx request w).2 = sent w ++ [req]
      /\ json.parse (http.Body req)
         = Some (json.Object
                   [ ("origins", json.Array [json.Object [("address", json.Str origin)]]);
                     ("destinations",
                      json.Array [json.Object [("address", json.Str destination)]]);
                     ("travelMode", json.Str "DRIVE");
                     ("routingPreference", json.Str "TRAFFIC_AWARE");
                     ("requestedReferenceRoutes", json.Array [json.Str "SHORTER_DISTANCE"]);
                     ("languageCode", json.Str "en-US") ]%string).
Proof.
  intros Net gh ctx request w o d Ho Hon Hd Hdn Hao Had.
  exists (outbound (apiKey gh) ctx o d).
  rewrite (handle_valid gh ctx request w o d Ho Hon Hd Hdn). split; [reflexivity|].
  cbn [outbound http.Body]. rewrite marshalRequestBody_render.
  rewrite (parse_render _ (requestTree_wellFormed _) (requestTree_fits _)).
  unfold requestTree. cbn [readBack map fst snd sliceTree slices.lit Origins Destinations
                           TravelMode RoutingPreference RequestedReferenceRoutes LanguageCode
                           Address Address_].
  now rewrite (coerced_ascii o Hao), (coerced_ascii d Had).
Qed.

Lemma handleDistanceCalculation_sends_the_addresses_witness :
  exists req,
    sent (handleDistanceCalculation
            (handler_test.answering 200 handler_test.createValidAPIResponse)
            context.Background handler_test.newYorkToLosAngeles (handler_test.world [])).2
    = sent (handler_test.world []) ++ [req]
    /\ json.parse (http.Body req)
       = Some (json.Object
                 [ ("origins", json.Array [json.Object [("address", json.Str "New York")]]);
                   ("destinations",
                    json.Array [json.Object [("address", json.Str "Los Angeles")]]);
                   ("travelMode", json.Str "DRIVE");
                   ("routingPreference", json.Str "TRAFFIC_AWARE");
                   ("requestedReferenceRoutes", json.Array [json.Str "SHORTER_DISTANCE"]);
                   ("languageCode", json.Str "en-US") ]%string).
Proof.
  apply (handleDistanceCalculation_sends_the_addresses unit
           (handler_test.answering 200 handler_test.createValidAPIResponse)
           context.Background handler_test.newYorkToLosAngeles (handler_test.world [])
           "New York" "Los Angeles");
    solve [vm_compute; reflexivity | discriminate].
Defined.

(** *** Integers *)

Section Integers.

Lemma nzhead_head (u : Decimal.uint) :
  match Decimal.nzhead u with Decimal.D0 _ => False | _ => True end.
Proof. induction u; cbn; auto. Qed.

Lemma to_uint_head (p : positive) :
  match Pos.to_uint p with Decimal.Nil | Decimal.D0 _ => False | _ => True end.
Proof.
  pose proof (DecimalPos.Unsigned.to_of (Pos.to_uint p)) as E.
  rewrite DecimalPos.Unsigned.of_to in E. cbn [N.to_uint] in E.
  pose proof (DecimalPos.Unsigned.to_uint_nonzero p) as Hnz.
  pose proof (nzhead_head (Pos.to_uint p)) as Hh.
  unfold Decimal.unorm in E.
  destruct (Decimal.nzhead (Pos.to_uint p)); rewrite E in *; auto.
Qed.

Lemma skipDigits_uint (u : Decimal.uint) :
  json.skipDigits (list_ascii_of_string (NilEmpty.string_of_uint u)) = [].
Proof. induction u; cbn [NilEmpty.string_of_uint list_ascii_of_string]; auto. Qed.

Lemma validNumber_digits (c : byte) (r : list byte) :
  json.isDigit c = true -> json.isByte c "0" = false -> json.skipDigits r = [] ->
  json.validNumber (c :: r) = true /\ json.validNumber ("-"%char :: c :: r) = true.
Proof.
  intros Hd Hz Hr.
  assert (Hm : json.isByte c "-" = false) by (revert Hd; destruct c as [[] [] [] [] [] [] [] []]; intros Hd; try discriminate Hd; reflexivity).
  unfold json.validNumber. rewrite Hm. change (json.isByte "-" "-") with true. cbv iota.
  rewrite Hz, Hd, Hr. auto.
Qed.

Lemma validNumber_to_uint (p : positive) :
  json.validNumber (list_ascii_of_string (NilZero.string_of_uint (Pos.to_uint p))) = true
  /\ json.validNumber ("-"%char :: list_ascii_of_string (NilZero.string_of_uint (Pos.to_uint p)))
     = true.
Proof.
  pose proof (to_uint_head p) as H.
  destruct (Pos.to_uint p) as [|u|u|u|u|u|u|u|u|u|u]; try contradiction;
    cbn [NilZero.string_of_uint NilEmpty.string_of_uint list_ascii_of_string];
    apply validNumber_digits; try reflexivity; apply skipDigits_uint.
Qed.

(** [%d] writes a JSON number. *)
Lemma fmt_d_validNumber (n : Z) : json.validNumber (list_ascii_of_string (fmt_d n)) = true.
Proof.
  unfold fmt_d. destruct n as [|p|p]; [reflexivity| |]; cbn [Z.to_int NilZero.string_of_int].
  - apply validNumber_to_uint.
  - apply (validNumber_to_uint p).
Qed.

(** [strconv.ParseInt] reads back what [%d] writes. *)
Lemma ParseInt_fmt_d (n : Z) : in_int n = true -> ParseInt (fmt_d n) = Some n.
Proof.
  intros Hn. unfold ParseInt, fmt_d. rewrite NilZero.isi.
  - cbv zeta. now rewrite DecimalZ.of_to, Hn.
  - destruct n; cbn [Z.to_int]; try discriminate;
      intros E; inversion E as [E']; exact (DecimalPos.Unsigned.to_uint_nonnil _ E').
  - destruct n; cbn [Z.to_int]; try discriminate;
      intros E; inversion E as [E']; exact (DecimalPos.Unsigned.to_uint_nonnil _ E').
Qed.

End Integers.

(** *** What [json.Marshal] writes, [json.Unmarshal] reads *)

Section Response.

Lemma marshalResponseBody_render (b : ResponseBody) :
  marshalResponseBody b = render (responseTree b).
Proof.
  unfold marshalResponseBody, responseTree. cbn [render map fst snd].
  rewrite (render_sliceTree routeTree); [reflexivity|].
  intros r. unfold routeTree. cbn [render map fst snd].
  now rewrite (render_sliceTree json.Str json.quote).
Qed.

Lemma responseTree_wellFormed (b : ResponseBody) : wellFormed (responseTree b) = true.
Proof.
  unfold responseTree. cbn [wellFormed forallb snd].
  rewrite sliceTree_wellFormed; [reflexivity|].
  intros r. unfold routeTree. cbn [wellFormed forallb snd].
  rewrite fmt_d_validNumber, sliceTree_wellFormed by reflexivity. reflexivity.
Qed.

Lemma responseTree_fits (b : ResponseBody) : fits [] (responseTree b).
Proof.
  unfold fits, responseTree. cbn [length depth foldr snd Nat.add].
  pose proof (sliceTree_depth routeTree (Routes b) 2) as H.
  unfold json.maxNestingDepth.
  assert (depth (sliceTree routeTree (Routes b)) <= 3)%nat; [|lia].
  apply H. intros r. unfold routeTree. cbn [depth foldr snd].
  pose proof (sliceTree_depth json.Str (RouteLabels r) 0 ltac:(intros; cbn; lia)). lia.
Qed.

Lemma readBack_sliceTree {A} (f : A -> json.value) (s : slices.slice A) :
  readBack (sliceTree f s) = sliceTree (fun a => readBack (f a)) s.
Proof. destruct s; cbn [sliceTree readBack]; [reflexivity|]. now rewrite map_map. Qed.

Lemma decodeElems_map {A} (zero : A) (decode : json.value -> A -> result A)
      (g : A -> json.value) (h : A -> A) (es : list A) :
  Forall (fun a => decode (g a) zero = Ok (h a)) es ->
  decodeElems zero decode (map g es) [] = Ok (map h es, []).
Proof.
  induction 1 as [|a es Ha _ IH]; [reflexivity|].
  cbn [map decodeElems]. now rewrite Ha, IH.
Qed.

Lemma decodeSlice_sliceTree {A} (type : string) (zero : A)
      (decode : json.value -> A -> result A)
      (g : A -> json.value) (h : A -> A) (s : slices.slice A) :
  Forall (fun a => decode (g a) zero = Ok (h a)) (slices.elems s) ->
  decodeSlice type zero decode (sliceTree g s) slices.nil = Ok (stored h s).
Proof.
  destruct s as [|es spare]; [reflexivity|]. cbn [slices.elems sliceTree stored]. intros H.
  destruct es as [|a es]; [reflexivity|].
  unfold decodeSlice. change (map g (a :: es)) with (g a :: map g es) at 1.
  change (g a :: map g es) with (map g (a :: es)).
  now rewrite (decodeElems_map zero decode g h (a :: es) H).
Qed.

Lemma decodeRoute_routeTree (r : Route) :
  in_int (DistanceMeters r) = true ->
  decodeRoute (readBack (routeTree r)) zeroRoute = Ok (storedRoute r).
Proof.
  intros Hn. unfold routeTree. cbn [readBack map fst snd].
  change (coerced "distanceMeters") with "distanceMeters"%string.
  change (coerced "duration") with "duration"%string.
  change (coerced "routeLabels") with "routeLabels"%string.
  unfold decodeRoute, decodeStruct. cbn [decodeMembers].
  unfold decodeRouteField at 1.
  change (names "distanceMeters" "distanceMeters") with true. cbv iota.
  cbn [decodeInt]. rewrite (ParseInt_fmt_d _ Hn).
  unfold decodeRouteField at 1.
  change (names "duration" "distanceMeters") with false.
  change (names "duration" "duration") with true. cbv iota.
  cbn [decodeString DistanceMeters Duration RouteLabels zeroRoute].
  unfold decodeRouteField at 1.
  change (names "routeLabels" "distanceMeters") with false.
  change (names "routeLabels" "duration") with false.
  change (names "routeLabels" "routeLabels") with true. cbv iota.
  cbn [DistanceMeters Duration RouteLabels].
  rewrite readBack_sliceTree. cbn [readBack].
  rewrite (decodeSlice_sliceTree "[]string" ""%string decodeString
             (fun a => json.Str (coerced a)) coerced).
  - reflexivity.
  - apply Forall_forall. reflexivity.
Qed.

Lemma json_Unmarshal_marshalResponseBody (b : ResponseBody) :
  inRange b ->
  json_Unmarshal (marshalResponseBody b) emptyResponseBody = Ok (storedResponse b).
Proof.
  intros Hb. unfold json_Unmarshal.
  rewrite marshalResponseBody_render,
          (parse_render _ (responseTree_wellFormed b) (responseTree_fits b)).
  unfold responseTree. cbn [readBack map fst snd].
  change (coerced "routes") with "routes"%string.
  unfold decodeStruct. cbn [decodeMembers]. unfold decodeResponseBodyField.
  change (names "routes" "routes") with true. cbv iota.
  rewrite readBack_sliceTree. cbn [Routes emptyResponseBody].
  rewrite (decodeSlice_sliceTree "[]geodistanceserver.Route" zeroRoute decodeRoute
             (fun a => readBack (routeTree a)) storedRoute).
  - reflexivity.
  - eapply Forall_impl; [exact Hb|]. intros r. apply decodeRoute_routeTree.
Qed.

End Response.

(** X18.  A body that [json.Marshal] wrote for a [ResponseBody], as the
    tests' [createValidAPIResponse] does, is read back by
    [processResponse]: as many routes, in the same order, each with its
    distance, its duration and its labels (strings with ill-formed UTF-8
    replaced by U+FFFD, a nil label slice still nil); without a route it
    is the error of no routes. *)
Theorem processResponse_reads_what_Marshal_writes :
  forall (Net : Type) (gh : GeodistanceHandler Net) (resp : http.Response) (b : ResponseBody),
    responds resp http.StatusOK (marshalResponseBody b) ->
    inRange b ->
    if slices.len (Routes b) =? 0
    then processResponse gh resp = Err (errorString "no routes found in response")
    else exists responseBody,
        processResponse gh resp = Ok responseBody
        /\ map routeContents (slices.elems (Routes responseBody))
           = map (fun r => (DistanceMeters r, coerced (Duration r),
                            contents coerced (RouteLabels r)))
                 (slices.elems (Routes b)).
Proof.
  intros Net gh resp b Hresp Hb.
  rewrite (processResponse_ok gh resp _ Hresp), (json_Unmarshal_marshalResponseBody b Hb).
  destruct b as [[|es spare]]; [reflexivity|].
  cbn [storedResponse stored Routes]. unfold slices.len. cbn [slices.elems].
  rewrite length_map. destruct (Z.of_nat (length es) =? 0); [reflexivity|].
  eexists. split; [reflexivity|]. cbn [storedResponse stored Routes slices.elems].
  rewrite map_map. apply map_ext. intros r. unfold routeContents, storedRoute.
  cbn [DistanceMeters Duration RouteLabels]. f_equal.
  destruct (RouteLabels r); cbn [stored contents]; [reflexivity|].
  now rewrite map_id.
Qed.

Lemma processResponse_reads_what_Marshal_writes_witness :
  exists responseBody,
    processResponse (handler_test.answering 200 handler_test.twoRoutes)
      (handler_test.createMockResponse 200 handler_test.twoRoutes)
    = Ok responseBody
    /\ map routeContents (slices.elems (Routes responseBody))
       = [ (94475, "3288s"%string, Some ["DEFAULT_ROUTE"%string]);
           (87865, "4903s"%string, Some ["SHORTER_DISTANCE"%string]) ].
Proof.
  apply (processResponse_reads_what_Marshal_writes unit
           (handler_test.answering 200 handler_test.twoRoutes)
           (handler_test.createMockResponse 200 handler_test.twoRoutes)
           {| Routes := slices.lit [ {| DistanceMeters := 94475; Duration := "3288s";
                                        RouteLabels := slices.lit ["DEFAULT_ROUTE"%string] |};
                                     {| DistanceMeters := 87865; Duration := "4903s";
                                        RouteLabels := slices.lit ["SHORTER_DISTANCE"%string] |} ] |}).
  - split; reflexivity.
  - repeat constructor.
Defined.

(** X19.  End to end against a provider that answers 200 with a
    marshalled [ResponseBody], as the mock of the tests does: the handler
    answers with the distance of the first marshalled route in decimal
    and its duration (ill-formed UTF-8 in it replaced by U+FFFD), whatever
    further routes and labels the body holds. *)
Theorem handleDistanceCalculation_reports_marshalled_route :
  forall (Net : Type) (gh : GeodistanceHandler Net) (ctx : context.Context)
         (request : mcp.CallToolRequest) (w : World Net)
         (origin destination : string) (resp : http.Response) (n : Net)
         (b : ResponseBody) (route : Route) (others : list Route),
    argument request "originAddress" origin -> origin <> ""%string ->
    argument request "destinationAddress" destination -> destination <> ""%string ->
    Do (client gh) (outbound (apiKey gh) ctx origin destination) (net w) = (Ok resp, n) ->
    responds resp http.StatusOK (marshalResponseBody b) ->
    inRange b ->
    slices.elems (Routes b) = route :: others ->
    (handleDistanceCalculation gh ctx request w).1
    = Ok (textResult ("Route distance: " +:+ fmt_d (DistanceMeters route)
                      +:+ " meters, Duration: " +:+ coerced (Duration route))).
Proof.
  intros Net gh ctx request w origin destination resp n b route others
         Ho Hon Hd Hdn HDo Hr Hb Hroutes.
  rewrite (handle_valid gh ctx request w origin destination Ho Hon Hd Hdn).
  cbn [fst]. rewrite HDo. cbn [fst answerTo].
  rewrite (processResponse_ok gh resp _ Hr), (json_Unmarshal_marshalResponseBody b Hb).
  destruct b as [[|es spare]]; cbn [Routes slices.elems] in Hroutes; [discriminate|].
  subst es. cbn [storedResponse stored Routes map].
  unfold formatResponse, slices.len, slices.index. reflexivity.
Qed.

Lemma handleDistanceCalculation_reports_marshalled_route_witness :
  (handleDistanceCalculation (handler_test.answering 200 handler_test.twoRoutes)
     context.Background handler_test.newYorkToLosAngeles (handler_test.world [])).1
  = Ok (textResult "Route distance: 94475 meters, Duration: 3288s").
Proof.
  apply (handleDistanceCalculation_reports_marshalled_route unit
           (handler_test.answering 200 handler_test.twoRoutes)
           context.Background handler_test.newYorkToLosAngeles (handler_test.world [])
           "New York" "Los Angeles"
           (handler_test.createMockResponse 200 handler_test.twoRoutes) tt
           {| Routes := slices.lit [ {| DistanceMeters := 94475; Duration := "3288s";
                                        RouteLabels := slices.lit ["DEFAULT_ROUTE"%string] |};
                                     {| DistanceMeters := 87865; Duration := "4903s";
                                        RouteLabels := slices.lit ["SHORTER_DISTANCE"%string] |} ] |}
           {| DistanceMeters := 94475; Duration := "3288s";
              RouteLabels := slices.lit ["DEFAULT_ROUTE"%string] |}
           [ {| DistanceMeters := 87865; Duration := "4903s";
                RouteLabels := slices.lit ["SHORTER_DISTANCE"%string] |} ]).
  - reflexivity.
  - discriminate.
  - reflexivity.
  - discriminate.
  - reflexivity.
  - split; reflexivity.
  - repeat constructor.
  - reflexivity.
Defined.
